(** * Eufy camera plugin: upstream livestream broker and streaming delegate

    A shallow embedding of the two TypeScript classes that carry the
    streaming logic of the plugin:

    - [LocalLivestreamManager] (the per-device broker that owns the single
      station livestream), and
    - [StreamingDelegate] (the HomeKit session controller that prepares,
      starts and stops viewer sessions and serves snapshots).

    JavaScript runs these classes on one event loop.  Every method body
    therefore executes atomically up to its next [await]; a method that
    awaits is split here into one function per synchronous segment, and
    the state record is threaded through the segments explicitly.  Calls
    into collaborators (the eufy client, sockets, ffmpeg processes, named
    pipes, the logger) are recorded, in program order, in an effect log.
    Object identity (a handle, a promise, a socket) is a natural number
    drawn from an allocation counter.  [Date.now()] is an argument in
    milliseconds.  Numbers that are integers in every request are
    integers here; the RTCP interval of a request, a fraction of a second,
    and the timer periods computed from it are IEEE 754 double-precision
    numbers, as JavaScript has them. *)

From Corelib Require Import PrimFloat.
From Stdlib Require Import ZArith Lia Ascii String.
From Stdlib.Strings Require Byte.
From stdpp Require Import base option list gmap strings pretty.

Local Open Scope Z_scope.

(** ** Shared vocabulary *)

(** The four logger methods the classes call. *)
Inductive Level := Debug | Info | Warn | Error.

#[global] Instance Level_eq_dec : EqDecision Level.
Proof. solve_decision. Defined.

(** A Node [Buffer]. *)
Definition Buffer := list Byte.byte.

(** The two fields of the client library's [StreamMetadata] that the code
    reads. *)
Record StreamMetadata := {
  videoCodec : Z;
  videoFPS : Z
}.

(** ** The upstream broker *)

Module LocalLivestreamManager.

(** type StationStream; [ref] is the identity of the object literal built
    in [onStationLivestreamStart], [vStream] and [aStream] are the
    identities of the two [UniversalStream] bridges. *)
Record StationStream := {
  ref : nat;
  station : string;
  device : string;
  metadata : StreamMetadata;
  vStream : nat;
  aStream : nat;
  createdAt : Z
}.

(** How a promise handed to a caller has been settled. *)
Inductive Settled :=
| Resolved (h : StationStream)
| Rejected (reason : string).

(** Calls into collaborators, in program order.  A log entry keeps the
    level and the literal text of the message; the names and numbers the
    source interpolates into it are left out. *)
Inductive Effect :=
| startStationLivestream (serial : string)
| stopStationLivestream (serial : string)
| StreamInput (bridge : nat) (source : nat)
| close (bridge : nat)
| log (lvl : Level) (msg : string).

#[global] Instance Effect_eq_dec : EqDecision Effect.
Proof. solve_decision. Defined.

(** The arguments of the client's 'station livestream start' event. *)
Record Notification := {
  n_station : string;
  n_device : string;
  n_metadata : StreamMetadata;
  n_videostream : nat;
  n_audiostream : nat
}.

(** The fields of the class, the registered listeners and the promises.
    [camera_SN] is [this.camera.SN], [device_serial] is
    [this.device.getSerial()].  [listeners] holds, in registration order,
    the promise each pending [once('livestream start')] listener settles.
    [dataOnce] holds the video streams that carry a pending
    [once('data')] listener. *)
#[projections(primitive)]
Record State := {
  camera_SN : string;
  device_serial : string;
  _initSegment : option Buffer;
  stationStream : option StationStream;
  livestreamStartedAt : option Z;
  livestreamIsStarting : bool;
  listeners : list nat;
  dataOnce : list nat;
  promises : gmap nat Settled;
  next : nat;
  effects : list Effect
}.

Definition set_initSegment (v : option Buffer) (s : State) : State :=
  {| camera_SN := camera_SN s; device_serial := device_serial s;
     _initSegment := v; stationStream := stationStream s;
     livestreamStartedAt := livestreamStartedAt s;
     livestreamIsStarting := livestreamIsStarting s;
     listeners := listeners s; dataOnce := dataOnce s;
     promises := promises s; next := next s; effects := effects s |}.

Definition set_stationStream (v : option StationStream) (s : State) : State :=
  {| camera_SN := camera_SN s; device_serial := device_serial s;
     _initSegment := _initSegment s; stationStream := v;
     livestreamStartedAt := livestreamStartedAt s;
     livestreamIsStarting := livestreamIsStarting s;
     listeners := listeners s; dataOnce := dataOnce s;
     promises := promises s; next := next s; effects := effects s |}.

Definition set_livestreamStartedAt (v : option Z) (s : State) : State :=
  {| camera_SN := camera_SN s; device_serial := device_serial s;
     _initSegment := _initSegment s; stationStream := stationStream s;
     livestreamStartedAt := v;
     livestreamIsStarting := livestreamIsStarting s;
     listeners := listeners s; dataOnce := dataOnce s;
     promises := promises s; next := next s; effects := effects s |}.

Definition set_livestreamIsStarting (v : bool) (s : State) : State :=
  {| camera_SN := camera_SN s; device_serial := device_serial s;
     _initSegment := _initSegment s; stationStream := stationStream s;
     livestreamStartedAt := livestreamStartedAt s;
     livestreamIsStarting := v;
     listeners := listeners s; dataOnce := dataOnce s;
     promises := promises s; next := next s; effects := effects s |}.

Definition set_listeners (v : list nat) (s : State) : State :=
  {| camera_SN := camera_SN s; device_serial := device_serial s;
     _initSegment := _initSegment s; stationStream := stationStream s;
     livestreamStartedAt := livestreamStartedAt s;
     livestreamIsStarting := livestreamIsStarting s;
     listeners := v; dataOnce := dataOnce s;
     promises := promises s; next := next s; effects := effects s |}.

Definition set_dataOnce (v : list nat) (s : State) : State :=
  {| camera_SN := camera_SN s; device_serial := device_serial s;
     _initSegment := _initSegment s; stationStream := stationStream s;
     livestreamStartedAt := livestreamStartedAt s;
     livestreamIsStarting := livestreamIsStarting s;
     listeners := listeners s; dataOnce := v;
     promises := promises s; next := next s; effects := effects s |}.

Definition set_promises (v : gmap nat Settled) (s : State) : State :=
  {| camera_SN := camera_SN s; device_serial := device_serial s;
     _initSegment := _initSegment s; stationStream := stationStream s;
     livestreamStartedAt := livestreamStartedAt s;
     livestreamIsStarting := livestreamIsStarting s;
     listeners := listeners s; dataOnce := dataOnce s;
     promises := v; next := next s; effects := effects s |}.

Definition set_next (v : nat) (s : State) : State :=
  {| camera_SN := camera_SN s; device_serial := device_serial s;
     _initSegment := _initSegment s; stationStream := stationStream s;
     livestreamStartedAt := livestreamStartedAt s;
     livestreamIsStarting := livestreamIsStarting s;
     listeners := listeners s; dataOnce := dataOnce s;
     promises := promises s; next := v; effects := effects s |}.

Definition set_effects (v : list Effect) (s : State) : State :=
  {| camera_SN := camera_SN s; device_serial := device_serial s;
     _initSegment := _initSegment s; stationStream := stationStream s;
     livestreamStartedAt := livestreamStartedAt s;
     livestreamIsStarting := livestreamIsStarting s;
     listeners := listeners s; dataOnce := dataOnce s;
     promises := promises s; next := next s; effects := v |}.

(** Append one collaborator call to the effect log. *)
Definition perform (e : Effect) (s : State) : State :=
  set_effects (effects s ++ [e]) s.

(** Draw a fresh object identity. *)
Definition fresh (s : State) : nat * State :=
  (next s, set_next (S (next s)) s).

(** resolve / reject of a caller's promise.  A promise settles once; a
    later call on a settled promise is ignored. *)
Definition settle (p : nat) (v : Settled) (s : State) : State :=
  match promises s !! p with
  | Some _ => s
  | None => set_promises (<[p := v]> (promises s)) s
  end.

(** The state the field initialisers leave before the constructor body
    runs [initialize]. *)
Definition fields (sn serial : string) : State :=
  {| camera_SN := sn; device_serial := serial;
     _initSegment := None; stationStream := None;
     livestreamStartedAt := None; livestreamIsStarting := false;
     listeners := []; dataOnce := []; promises := ∅; next := 0%nat;
     effects := [] |}.

(** private initialize() *)
Definition initialize (s : State) : State :=
  let s := perform (log Debug "Initialize before livestream.") s in
  let s :=
    match stationStream s with
    | Some h =>
        let s := perform (log Debug "Cleaning before livestream.") s in
        let s := perform (close (vStream h)) s in
        perform (close (aStream h)) s
    | None => s
    end in
  let s := set_initSegment None s in
  let s := set_stationStream None s in
  set_livestreamStartedAt None s.

(** constructor *)
Definition new (sn serial : string) : State :=
  initialize (fields sn serial).

(** private async startAndGetLocalLiveStream(): the promise executor runs
    synchronously; the result is the promise handed back. *)
Definition startAndGetLocalLiveStream (s : State) : State * nat :=
  let '(p, s) := fresh s in
  let s := perform (log Debug "Start new station livestream...") s in
  let s :=
    if negb (livestreamIsStarting s) then
      let s := set_livestreamIsStarting true s in
      perform (startStationLivestream (device_serial s)) s
    else
      perform (log Debug "stream is already starting. waiting...") s in
  (set_listeners (listeners s ++ [p]) s, p).

(** public async getLocalLivestream() *)
Definition getLocalLivestream (s : State) : State * nat :=
  let s := perform (log Debug "New instance requests livestream.") s in
  match stationStream s with
  | Some h =>
      let s := perform (log Debug "Using livestream that was started earlier.") s in
      let '(p, s) := fresh s in
      (settle p (Resolved h) s, p)
  | None => startAndGetLocalLiveStream s
  end.

(** The body of one [once('livestream start')] listener, for the promise
    [p] its closure captured. *)
Definition listener (p : nat) (s : State) : State :=
  match stationStream s with
  | Some h =>
      let s := perform (log Debug "New livestream started.") s in
      let s := set_livestreamIsStarting false s in
      settle p (Resolved h) s
  | None => settle p (Rejected "no started livestream found") s
  end.

(** this.emit('livestream start'): every once-listener is removed and
    called, in registration order. *)
Definition emit (s : State) : State :=
  let ls := listeners s in
  foldl (fun s p => listener p s) (set_listeners [] s) ls.

(** public stopLocalLiveStream() *)
Definition stopLocalLiveStream (s : State) : State :=
  let s := perform (log Debug "Stopping station livestream.") s in
  let s := perform (stopStationLivestream (device_serial s)) s in
  initialize s.

(** private onStationLivestreamStop(station, device) *)
Definition onStationLivestreamStop (dev : string) (s : State) : State :=
  if decide (dev = device_serial s) then
    let s := perform (log Info "station livestream has stopped.") s in
    initialize s
  else s.

(** private async onStationLivestreamStart(...).  [t_diff], [t_started]
    and [t_created] are the three readings of [Date.now()], in the order
    the body takes them. *)
Definition onStationLivestreamStart
    (t_diff t_started t_created : Z) (n : Notification) (s : State) : State :=
  if decide (n_device n = camera_SN s) then
    let duplicate :=
      match stationStream s with
      | Some h => bool_decide (t_diff - createdAt h < 5000)
      | None => false
      end in
    if duplicate then
      perform (log Warn "Second livestream was started from station. Ignore.") s
    else
      let s := initialize s in
      let s := perform (log Info "station livestream (P2P session) has started.") s in
      let s := set_livestreamStartedAt (Some t_started) s in
      let s := set_dataOnce (dataOnce s ++ [n_videostream n]) s in
      let '(v, s) := fresh s in
      let s := perform (StreamInput v (n_videostream n)) s in
      let '(a, s) := fresh s in
      let s := perform (StreamInput a (n_audiostream n)) s in
      let '(r, s) := fresh s in
      let h := {| ref := r; station := n_station n; device := n_device n;
                  metadata := n_metadata n; vStream := v; aStream := a;
                  createdAt := t_created |} in
      let s := set_stationStream (Some h) s in
      emit s
  else s.

(** The [once('data')] listener installed on a notification's video
    stream: the first chunk of that stream becomes the init segment. *)
Definition onVideoData (stream : nat) (chunk : Buffer) (s : State) : State :=
  if bool_decide (stream ∈ dataOnce s) then
    let s := set_dataOnce (filter (fun x => x ≠ stream) (dataOnce s)) s in
    set_initSegment (Some chunk) s
  else s.

(** public get initSegment() *)
Definition initSegment (s : State) : option Buffer := _initSegment s.

(** What the promise of [getInitSegment] settles to. *)
Inductive InitSegmentResult :=
| Fulfilled (b : Buffer)
| RangeError.

(** public async getInitSegment().  The body contains no [await], so the
    self-call on its last line runs synchronously inside the caller's
    frame and sees the same fields.  [stack] is the number of further
    frames the engine's call stack has room for; a self-call that finds
    none is the engine's "Maximum call stack size exceeded" RangeError,
    which an async function turns into a rejection that every enclosing
    [return] passes on. *)
Fixpoint getInitSegment (stack : nat) (s : State) : InitSegmentResult :=
  match initSegment s with
  | Some b => Fulfilled b
  | None =>
      match stack with
      | O => RangeError
      | S stack' => getInitSegment stack' s
      end
  end.

(** [n] callers invoke [getLocalLivestream] one after the other within
    the same turn of the event loop; the result lists their promises. *)
Fixpoint acquireAll (n : nat) (s : State) : State * list nat :=
  match n with
  | O => (s, [])
  | S n' =>
      let '(s, p) := getLocalLivestream s in
      let '(s, ps) := acquireAll n' s in
      (s, p :: ps)
  end.

(** Is this effect a start command to the client? *)
Definition is_start (e : Effect) : bool :=
  match e with
  | startStationLivestream _ => true
  | _ => false
  end.

(** The number of start commands in an effect log. *)
Definition starts (es : list Effect) : nat :=
  length (List.filter is_start es).

(** The allocator invariant: no promise is known under an identity that
    has not been drawn yet. *)
Definition allocated (s : State) : Prop :=
  ∀ p : nat, (next s ≤ p)%nat → promises s !! p = None.

(** *** Runs of events *)

(** What can happen to a manager: a caller asks for the livestream, a
    caller releases it, the client reports that a station stopped or
    started a livestream, a video stream delivers a chunk. *)
Inductive Event :=
| Acquire
| Release
| StationStop (dev : string)
| StationStart (t_diff t_started t_created : Z) (n : Notification)
| VideoData (stream : nat) (chunk : Buffer).

(** The manager's reaction to one event. *)
Definition step (e : Event) (s : State) : State :=
  match e with
  | Acquire => (getLocalLivestream s).1
  | Release => stopLocalLiveStream s
  | StationStop dev => onStationLivestreamStop dev s
  | StationStart t_diff t_started t_created n =>
      onStationLivestreamStart t_diff t_started t_created n s
  | VideoData stream chunk => onVideoData stream chunk s
  end.

(** The manager's state after a sequence of events. *)
Definition run (es : list Event) (s : State) : State :=
  foldl (fun s e => step e s) s es.

(** Every settled promise was resolved, and with a handle of this
    camera; the handle held, if any, is one of this camera. *)
Definition resolved_only (s : State) : Prop :=
  (∀ p v, promises s !! p = Some v →
          ∃ h, v = Resolved h ∧ device h = camera_SN s)
  ∧ (∀ h, stationStream s = Some h → device h = camera_SN s).

(** The number of [Acquire] events in a sequence. *)
Definition acquisitions (es : list Event) : nat :=
  length (List.filter (fun e => match e with Acquire => true | _ => false end) es).

(** Video streams deliver chunks, one after the other; each chunk comes
    with the stream it is from. *)
Definition onVideoChunks (chunks : list (nat * Buffer)) (s : State) : State :=
  foldl (fun s c => onVideoData c.1 c.2 s) s chunks.

(** A start notification of the station for camera T8113, and the handle
    a new manager installs for it at time 1000 after one acquisition. *)
Definition front_door_started : Notification :=
  {| n_station := "HomeBase"; n_device := "T8113";
     n_metadata := {| videoCodec := 0; videoFPS := 15 |};
     n_videostream := 100; n_audiostream := 101 |}.

Definition front_door_handle : StationStream :=
  {| ref := 3; station := "HomeBase"; device := "T8113";
     metadata := {| videoCodec := 0; videoFPS := 15 |};
     vStream := 1; aStream := 2; createdAt := 1000 |}.

(** The manager of camera T8113 after one acquisition and the station's
    answer. *)
Definition front_door_live : State :=
  run [Acquire; StationStart 1000 1000 1000 front_door_started]
    (new "T8113" "T8113").

(** *** Basic facts *)

Lemma starts_snoc (es : list Effect) (e : Effect) :
  starts (es ++ [e]) = (starts es + if is_start e then 1 else 0)%nat.
Proof.
  unfold starts. rewrite List.filter_app, length_app. cbn.
  by destruct (is_start e).
Qed.

#[local] Arguments starts : simpl never.

Lemma allocated_new (sn serial : string) : allocated (new sn serial).
Proof. intros p _. apply lookup_empty. Qed.

(** [initialize] on a manager without a handle only writes a log line. *)
Lemma initialize_no_handle (s : State) :
  stationStream s = None →
  initialize s =
    set_livestreamStartedAt None
      (set_stationStream None
         (set_initSegment None
            (perform (log Debug "Initialize before livestream.") s))).
Proof. intros H. unfold initialize. cbn. by rewrite H. Qed.

(** One acquisition on a manager without a handle. *)
Lemma getLocalLivestream_no_handle (s : State) :
  stationStream s = None →
  ∃ s', getLocalLivestream s = (s', next s)
    ∧ stationStream s' = None
    ∧ next s' = S (next s)
    ∧ listeners s' = listeners s ++ [next s]
    ∧ promises s' = promises s
    ∧ camera_SN s' = camera_SN s
    ∧ livestreamIsStarting s' = true
    ∧ starts (effects s') =
        (starts (effects s) + if livestreamIsStarting s then 0 else 1)%nat.
Proof.
  intros H. unfold getLocalLivestream. cbn. rewrite H.
  unfold startAndGetLocalLiveStream. cbn.
  destruct (livestreamIsStarting s) eqn:E; cbn; eexists; (split; [reflexivity|]);
    cbn; rewrite ?E, ?starts_snoc; cbn; repeat split; auto; lia.
Qed.

Lemma acquireAll_no_handle (n : nat) : ∀ s : State,
  stationStream s = None →
  ∃ s', acquireAll n s = (s', seq (next s) n)
    ∧ stationStream s' = None
    ∧ next s' = (next s + n)%nat
    ∧ listeners s' = listeners s ++ seq (next s) n
    ∧ promises s' = promises s
    ∧ camera_SN s' = camera_SN s
    ∧ starts (effects s') =
        (starts (effects s) +
         if livestreamIsStarting s then 0 else if n is O then 0 else 1)%nat.
Proof.
  induction n as [|n IH]; intros s H.
  - exists s. cbn. rewrite app_nil_r. repeat split; auto.
    destruct (livestreamIsStarting s); lia.
  - destruct (getLocalLivestream_no_handle s H)
      as (s1 & E1 & H1 & N1 & L1 & P1 & C1 & F1 & S1).
    destruct (IH s1 H1) as (s2 & E2 & H2 & N2 & L2 & P2 & C2 & S2).
    exists s2. cbn [acquireAll]. rewrite E1, E2, N1. cbn [seq].
    repeat split; auto; try congruence.
    + lia.
    + rewrite L2, L1, N1, <- app_assoc. reflexivity.
    + rewrite S2, S1, F1. destruct (livestreamIsStarting s); lia.
Qed.

(** What the listeners of one emission do when a handle is installed:
    they add no start command, keep the handle, and resolve with it every
    promise of theirs that was still open. *)
Lemma listeners_run (h : StationStream) (ls : list nat) : ∀ s : State,
  stationStream s = Some h →
  let s' := foldl (fun s p => listener p s) s ls in
  stationStream s' = Some h
  ∧ starts (effects s') = starts (effects s)
  ∧ (∀ p, p ∈ ls → promises s !! p = None →
          promises s' !! p = Some (Resolved h))
  ∧ (∀ p v, promises s !! p = Some v → promises s' !! p = Some v).
Proof.
  induction ls as [|q ls IH]; intros s H; cbn.
  - repeat split; auto. intros p Hp. by apply elem_of_nil in Hp.
  - assert (Hq : stationStream (listener q s) = Some h).
    { unfold listener, settle. rewrite H. cbn.
      destruct (promises s !! q); cbn; exact H. }
    assert (Sq : starts (effects (listener q s)) = starts (effects s)).
    { unfold listener, settle. rewrite H. cbn.
      destruct (promises s !! q); cbn; rewrite starts_snoc; cbn; lia. }
    assert (Kq : ∀ p v, promises s !! p = Some v →
                        promises (listener q s) !! p = Some v).
    { intros p v Hv. unfold listener, settle. rewrite H. cbn.
      destruct (promises s !! q) eqn:E; cbn; [exact Hv|].
      rewrite lookup_insert_ne; [exact Hv|congruence]. }
    assert (Nq : promises s !! q = None →
                 promises (listener q s) !! q = Some (Resolved h)).
    { intros Hn. unfold listener, settle. rewrite H. cbn. rewrite Hn. cbn.
      apply lookup_insert_eq. }
    destruct (IH (listener q s) Hq) as (A & B & C & D).
    split; [exact A|]. split; [congruence|]. split.
    + intros p Hp Hn. destruct (decide (p = q)) as [->|Hne].
      * apply D, Nq, Hn.
      * apply elem_of_cons in Hp as [?|Hp]; [congruence|].
        destruct (promises (listener q s) !! p) eqn:E.
        -- exfalso. revert E. unfold listener, settle. rewrite H. cbn.
           destruct (promises s !! q); cbn; [congruence|].
           rewrite lookup_insert_ne; congruence.
        -- by apply C.
    + intros p v Hv. apply D, Kq, Hv.
Qed.

(** A start notification for this camera that finds no handle installs
    one and then runs the waiting listeners. *)
Lemma onStationLivestreamStart_no_handle
    (t_diff t_started t_created : Z) (ev : Notification) (s : State) :
  stationStream s = None →
  n_device ev = camera_SN s →
  ∃ s0 h,
    onStationLivestreamStart t_diff t_started t_created ev s =
      foldl (fun s p => listener p s) s0 (listeners s)
    ∧ stationStream s0 = Some h
    ∧ promises s0 = promises s
    ∧ starts (effects s0) = starts (effects s).
Proof.
  intros H Hev. unfold onStationLivestreamStart.
  rewrite decide_True by exact Hev. rewrite H.
  rewrite (initialize_no_handle s H). unfold emit.
  eexists. eexists. split; [reflexivity|].
  split; [reflexivity|]. split; [reflexivity|].
  cbn. rewrite !starts_snoc. cbn. lia.
Qed.

(** While no handle exists, callers never add more than one start
    command, whatever the starting flag says. *)
Lemma acquireAll_at_most_one_start (n : nat) (s : State) :
  stationStream s = None →
  (starts (effects (acquireAll n s).1) ≤ S (starts (effects s)))%nat.
Proof.
  intros H. destruct (acquireAll_no_handle n s H) as (s1 & E & _ & _ & _ & _ & _ & S1).
  rewrite E. cbn. rewrite S1.
  destruct (livestreamIsStarting s); destruct n; lia.
Qed.

(** The accessor returns the first video chunk once it has been seen. *)
Lemma getInitSegment_observed (stack : nat) (s : State) (b : Buffer) :
  _initSegment s = Some b → getInitSegment stack s = Fulfilled b.
Proof. intros H. destruct stack; cbn; unfold initSegment; by rewrite H. Qed.

(** The first chunk of the video stream of the installed handle is what
    the accessor returns afterwards. *)
Lemma onVideoData_then_getInitSegment
    (stack : nat) (s : State) (v : nat) (chunk : Buffer) :
  v ∈ dataOnce s →
  getInitSegment stack (onVideoData v chunk s) = Fulfilled chunk.
Proof.
  intros H. apply getInitSegment_observed. unfold onVideoData.
  by rewrite bool_decide_eq_true_2.
Qed.

(** The start commands of an effect log, after one more effect. *)
Lemma start_commands_snoc (es : list Effect) (e : Effect) :
  List.filter is_start (es ++ [e])
  = List.filter is_start es ++ if is_start e then [e] else [].
Proof. rewrite List.filter_app. cbn. by destruct (is_start e). Qed.

(** The listeners of an emission send no start command. *)
Lemma listeners_send_no_start (ls : list nat) : ∀ s : State,
  List.filter is_start (effects (foldl (fun s p => listener p s) s ls))
  = List.filter is_start (effects s).
Proof.
  induction ls as [|p ls IH]; intros s; cbn; [reflexivity|].
  rewrite IH. unfold listener, settle.
  destruct (stationStream s); cbn; destruct (promises s !! p); cbn;
    rewrite ?start_commands_snoc; cbn; by rewrite ?app_nil_r.
Qed.

(** A start notification of the station sends no start command. *)
Lemma onStationLivestreamStart_sends_no_start
    (t_diff t_started t_created : Z) (ev : Notification) (s : State) :
  List.filter is_start
    (effects (onStationLivestreamStart t_diff t_started t_created ev s))
  = List.filter is_start (effects s).
Proof.
  unfold onStationLivestreamStart.
  destruct (decide (n_device ev = camera_SN s)); [|reflexivity].
  match goal with |- context [if ?b then _ else _] => destruct b end.
  - cbn. rewrite start_commands_snoc. cbn. by rewrite app_nil_r.
  - unfold emit, initialize. cbn. rewrite listeners_send_no_start.
    destruct (stationStream s); cbn; rewrite !start_commands_snoc; cbn;
      by rewrite ?app_nil_r.
Qed.

(** The start commands one acquisition and [n] acquisitions add on a
    manager without a handle: the command for the manager's device when
    the starting flag is clear, none when it is set. *)
Lemma getLocalLivestream_start_commands (s : State) :
  stationStream s = None →
  let s' := (getLocalLivestream s).1 in
  device_serial s' = device_serial s
  ∧ List.filter is_start (effects s')
    = List.filter is_start (effects s)
      ++ if livestreamIsStarting s then []
         else [startStationLivestream (device_serial s)].
Proof.
  intros H. unfold getLocalLivestream. cbn. rewrite H.
  unfold startAndGetLocalLiveStream. cbn.
  destruct (livestreamIsStarting s); cbn; rewrite !start_commands_snoc; cbn;
    by rewrite ?app_nil_r.
Qed.

Lemma acquireAll_start_commands (n : nat) : ∀ s : State,
  stationStream s = None →
  let s' := (acquireAll n s).1 in
  device_serial s' = device_serial s
  ∧ List.filter is_start (effects s')
    = List.filter is_start (effects s)
      ++ if livestreamIsStarting s then []
         else if n is O then []
         else [startStationLivestream (device_serial s)].
Proof.
  induction n as [|n IH]; intros s H.
  - cbn. split; [reflexivity|]. destruct (livestreamIsStarting s); by rewrite app_nil_r.
  - destruct (getLocalLivestream_no_handle s H)
      as (s1 & E1 & H1 & _ & _ & _ & _ & F1 & _).
    destruct (getLocalLivestream_start_commands s H) as [D1 C1].
    rewrite E1 in D1, C1. cbn [fst] in D1, C1.
    destruct (IH s1 H1) as [D2 C2]. cbn zeta in D2, C2.
    cbn [acquireAll]. rewrite E1.
    destruct (acquireAll n s1) as [s2 ps]. cbn [fst] in *.
    split; [congruence|].
    rewrite C2, C1, F1, app_nil_r. reflexivity.
Qed.

(** *** Concurrent acquisition *)

(** C1 (amended). On a manager that holds no handle and whose starting
    flag is clear, any number [n ≥ 1] of callers that invoke
    [getLocalLivestream] before the station answers cause exactly one
    start command, the one for the manager's device; all of them are
    still waiting until the station's start notification for this camera
    arrives, that notification adds no further start command, and it
    resolves every one of the [n] promises with the one handle object the
    manager then holds. *)
Theorem concurrent_acquire_single_start
    (n : nat) (s : State) (t_diff t_started t_created : Z) (ev : Notification) :
  stationStream s = None →
  livestreamIsStarting s = false →
  allocated s →
  (0 < n)%nat →
  n_device ev = camera_SN s →
  let '(s1, ps) := acquireAll n s in
  let s2 := onStationLivestreamStart t_diff t_started t_created ev s1 in
  length ps = n
  ∧ NoDup ps
  ∧ List.filter is_start (effects s1)
    = List.filter is_start (effects s)
      ++ [startStationLivestream (device_serial s)]
  ∧ List.filter is_start (effects s2) = List.filter is_start (effects s1)
  ∧ starts (effects s1) = S (starts (effects s))
  ∧ starts (effects s2) = S (starts (effects s))
  ∧ (∀ p, p ∈ ps → promises s1 !! p = None)
  ∧ ∃ h, stationStream s2 = Some h
       ∧ ∀ p, p ∈ ps → promises s2 !! p = Some (Resolved h).
Proof.
  intros Hh Hf Ha Hn Hev.
  destruct (acquireAll_start_commands n s Hh) as [_ Hc]. cbn zeta in Hc.
  destruct (acquireAll_no_handle n s Hh) as (s1 & E & H1 & N1 & L1 & P1 & C1 & S1).
  rewrite E in *. cbn [fst] in Hc. cbn zeta.
  assert (Hw : ∀ p, p ∈ seq (next s) n → promises s1 !! p = None).
  { intros p Hp. rewrite P1. apply Ha. apply elem_of_seq in Hp. lia. }
  assert (S1' : starts (effects s1) = S (starts (effects s))).
  { rewrite S1, Hf. destruct n; lia. }
  split; [apply length_seq|]. split; [apply NoDup_seq|].
  split; [rewrite Hc, Hf; by destruct n; [lia|]|].
  split; [apply onStationLivestreamStart_sends_no_start|].
  split; [exact S1'|].
  destruct (onStationLivestreamStart_no_handle t_diff t_started t_created ev s1)
    as (s0 & h & E0 & H0 & P0 & S0); [exact H1|congruence|].
  rewrite E0.
  destruct (listeners_run h (listeners s1) s0 H0) as (A & B & C & _).
  split; [congruence|]. split; [exact Hw|].
  exists h. split; [exact A|].
  intros p Hp. apply C.
  - rewrite L1. apply elem_of_app. by right.
  - rewrite P0. by apply Hw.
Qed.

(** C1, on a freshly constructed manager with three callers. *)
Lemma concurrent_acquire_single_start_witness :
  let s := new "T8113" "T8113" in
  let ev := {| n_station := "HomeBase"; n_device := "T8113";
               n_metadata := {| videoCodec := 0; videoFPS := 15 |};
               n_videostream := 100; n_audiostream := 101 |} in
  let '(s1, ps) := acquireAll 3 s in
  let s2 := onStationLivestreamStart 1000 1000 1000 ev s1 in
  length ps = 3%nat
  ∧ NoDup ps
  ∧ List.filter is_start (effects s1)
    = List.filter is_start (effects s)
      ++ [startStationLivestream (device_serial s)]
  ∧ List.filter is_start (effects s2) = List.filter is_start (effects s1)
  ∧ starts (effects s1) = S (starts (effects s))
  ∧ starts (effects s2) = S (starts (effects s))
  ∧ (∀ p, p ∈ ps → promises s1 !! p = None)
  ∧ ∃ h, stationStream s2 = Some h
       ∧ ∀ p, p ∈ ps → promises s2 !! p = Some (Resolved h).
Proof.
  intros s ev.
  apply (concurrent_acquire_single_start 3 s 1000 1000 1000 ev).
  - reflexivity.
  - reflexivity.
  - intros p _. reflexivity.
  - lia.
  - reflexivity.
Defined.

(** C1, as the claim words it, fails: no handle exists, and yet three
    concurrent callers cause no start command at all.  The first caller's
    acquisition was released before the station answered; the release
    cleared no flag, so the manager still takes a start to be under way,
    and the three callers only wait. *)
Lemma acquire_after_release_sends_no_start :
  let s := stopLocalLiveStream (getLocalLivestream (new "T8113" "T8113")).1 in
  let '(s1, ps) := acquireAll 3 s in
  stationStream s = None
  ∧ length ps = 3%nat
  ∧ List.filter is_start (effects s1) = List.filter is_start (effects s)
  ∧ starts (effects s1) = starts (effects s)
  ∧ (∀ p, p ∈ ps → promises s1 !! p = None).
Proof.
  cbn zeta. split; [reflexivity|]. split; [reflexivity|].
  split; [reflexivity|]. split; [reflexivity|].
  intros p Hp. rewrite !elem_of_cons in Hp.
  destruct Hp as [->|[->|[->|Hp]]]; [reflexivity..|by apply elem_of_nil in Hp].
Qed.

(** *** Duplicate start notifications *)

(** C6. While the manager holds a handle whose [createdAt] lies less than
    5000 ms before the current time, a start notification for this camera
    changes nothing but the log: the handle object and its [createdAt],
    the cached init segment, the start time, the waiting listeners and
    the promises are what they were, neither bridge is closed, no bridge
    is created, and no identity is drawn for a replacement. *)
Theorem duplicate_start_discarded
    (s : State) (h : StationStream)
    (t_diff t_started t_created : Z) (ev : Notification) :
  stationStream s = Some h →
  t_diff - createdAt h < 5000 →
  n_device ev = camera_SN s →
  let s' := onStationLivestreamStart t_diff t_started t_created ev s in
  stationStream s' = Some h
  ∧ _initSegment s' = _initSegment s
  ∧ livestreamStartedAt s' = livestreamStartedAt s
  ∧ livestreamIsStarting s' = livestreamIsStarting s
  ∧ listeners s' = listeners s
  ∧ dataOnce s' = dataOnce s
  ∧ promises s' = promises s
  ∧ next s' = next s
  ∧ effects s' =
      effects s ++ [log Warn "Second livestream was started from station. Ignore."].
Proof.
  intros Hh Hd Hev. unfold onStationLivestreamStart.
  rewrite decide_True by exact Hev. rewrite Hh.
  rewrite bool_decide_eq_true_2 by exact Hd.
  cbn. by rewrite Hh.
Qed.

(** C6, on a handle installed four seconds before the second
    notification. *)
Lemma duplicate_start_discarded_witness :
  let ev := {| n_station := "HomeBase"; n_device := "T8113";
               n_metadata := {| videoCodec := 0; videoFPS := 15 |};
               n_videostream := 100; n_audiostream := 101 |} in
  let s := onStationLivestreamStart 1000 1000 1000 ev (new "T8113" "T8113") in
  let h := {| ref := 2; station := "HomeBase"; device := "T8113";
              metadata := {| videoCodec := 0; videoFPS := 15 |};
              vStream := 0; aStream := 1; createdAt := 1000 |} in
  let s' := onStationLivestreamStart 5000 5000 5000 ev s in
  stationStream s' = Some h
  ∧ _initSegment s' = _initSegment s
  ∧ livestreamStartedAt s' = livestreamStartedAt s
  ∧ livestreamIsStarting s' = livestreamIsStarting s
  ∧ listeners s' = listeners s
  ∧ dataOnce s' = dataOnce s
  ∧ promises s' = promises s
  ∧ next s' = next s
  ∧ effects s' =
      effects s ++ [log Warn "Second livestream was started from station. Ignore."].
Proof.
  intros ev s h.
  apply (duplicate_start_discarded s h 5000 5000 5000 ev).
  - reflexivity.
  - cbn. lia.
  - reflexivity.
Defined.

(** Five seconds after the handle was created the same notification is
    no longer a duplicate: the handle is replaced. *)
Lemma late_start_replaces_handle :
  let ev := {| n_station := "HomeBase"; n_device := "T8113";
               n_metadata := {| videoCodec := 0; videoFPS := 15 |};
               n_videostream := 100; n_audiostream := 101 |} in
  let s := onStationLivestreamStart 1000 1000 1000 ev (new "T8113" "T8113") in
  ref <$> stationStream (onStationLivestreamStart 6000 6000 6000 ev s) = Some 5%nat.
Proof. reflexivity. Qed.

(** *** Release *)

(** C4. [stopLocalLiveStream] sends exactly one stop command for the
    device, closes the video and the audio bridge of the handle it finds
    (and nothing when it finds none), and clears the handle, the cached
    init segment and the start time.  Nothing else changes: in particular
    [livestreamIsStarting] and the registered 'livestream start'
    listeners are what they were. *)
Theorem stopLocalLiveStream_clears_handle (s : State) :
  let s' := stopLocalLiveStream s in
  effects s' =
    effects s
    ++ [log Debug "Stopping station livestream.";
        stopStationLivestream (device_serial s);
        log Debug "Initialize before livestream."]
    ++ match stationStream s with
       | Some h => [log Debug "Cleaning before livestream.";
                    close (vStream h); close (aStream h)]
       | None => []
       end
  ∧ stationStream s' = None
  ∧ _initSegment s' = None
  ∧ livestreamStartedAt s' = None
  ∧ livestreamIsStarting s' = livestreamIsStarting s
  ∧ listeners s' = listeners s
  ∧ dataOnce s' = dataOnce s
  ∧ promises s' = promises s
  ∧ next s' = next s.
Proof.
  unfold stopLocalLiveStream, initialize. cbn.
  destruct (stationStream s); cbn; rewrite <- ?app_assoc; cbn; repeat split.
Qed.

(** C4, as the claim words it, fails: a release that overtakes the
    station's answer to the first caller leaves the starting flag set and
    the caller's listener registered. *)
Lemma release_during_start_keeps_flag :
  let s1 := (getLocalLivestream (new "T8113" "T8113")).1 in
  let s2 := stopLocalLiveStream s1 in
  stationStream s2 = None
  ∧ livestreamIsStarting s2 = true
  ∧ listeners s2 = [0%nat]
  ∧ promises s2 !! 0%nat = None.
Proof. cbn zeta. repeat split. Qed.

(** While the flag is set and no handle exists, callers send no start
    command at all. *)
Lemma acquireAll_while_starting (n : nat) (s : State) :
  stationStream s = None →
  livestreamIsStarting s = true →
  starts (effects (acquireAll n s).1) = starts (effects s).
Proof.
  intros H F. destruct (acquireAll_no_handle n s H) as (s1 & E & _ & _ & _ & _ & _ & S1).
  rewrite E. cbn. rewrite S1, F. lia.
Qed.

(** A release that overtakes the station's answer: the first caller's
    start command is followed by the stop command, the flag stays set,
    and however many callers ask afterwards, no start command is sent
    again. *)
Lemma release_during_start_blocks_restart (n : nat) :
  let s1 := (getLocalLivestream (new "T8113" "T8113")).1 in
  let s2 := stopLocalLiveStream s1 in
  let s3 := (acquireAll n s2).1 in
  stationStream s2 = None
  ∧ livestreamIsStarting s2 = true
  ∧ starts (effects s2) = 1%nat
  ∧ starts (effects s3) = 1%nat.
Proof.
  cbn zeta. split; [reflexivity|]. split; [reflexivity|]. split; [reflexivity|].
  rewrite acquireAll_while_starting; reflexivity.
Qed.

(** X3. The station's stop notification for this device resets the
    manager like a release does, without a stop command: the bridges of
    the handle it finds are closed, and the handle, the cached init
    segment and the start time are cleared; a notification for another
    device changes nothing. *)
Theorem onStationLivestreamStop_resets (dev : string) (s : State) :
  let s' := onStationLivestreamStop dev s in
  if decide (dev = device_serial s) then
    effects s' =
      effects s
      ++ [log Info "station livestream has stopped.";
          log Debug "Initialize before livestream."]
      ++ match stationStream s with
         | Some h => [log Debug "Cleaning before livestream.";
                      close (vStream h); close (aStream h)]
         | None => []
         end
    ∧ stationStream s' = None
    ∧ _initSegment s' = None
    ∧ livestreamStartedAt s' = None
  else s' = s.
Proof.
  unfold onStationLivestreamStop, initialize. cbn.
  destruct (decide (dev = device_serial s)); [|reflexivity].
  destruct (stationStream s); cbn; rewrite <- ?app_assoc; cbn; repeat split.
Qed.

(** *** The init segment accessor *)

(** C9. As long as no video chunk has been observed, [getInitSegment]
    does not wait: whatever room the call stack has, the self-calls use
    it up within the calling turn and the promise is rejected with the
    engine's RangeError. *)
Theorem getInitSegment_unobserved (stack : nat) (s : State) :
  _initSegment s = None → getInitSegment stack s = RangeError.
Proof.
  intros H. induction stack as [|k IH]; cbn; unfold initSegment; rewrite H;
    [reflexivity|exact IH].
Qed.

(** C9, on a freshly constructed manager and a stack of 1000 frames. *)
Lemma getInitSegment_unobserved_witness :
  getInitSegment 1000 (new "T8113" "T8113") = RangeError.
Proof.
  apply (getInitSegment_unobserved 1000 (new "T8113" "T8113")).
  reflexivity.
Defined.

(** *** Further properties of the manager *)

(** The listeners of one emission only write 'New livestream started.'
    lines to the effect log and leave the handle, the init segment, the
    pending data listeners and the allocator alone. *)
Lemma listeners_run_frame (h : StationStream) (ls : list nat) : ∀ s : State,
  stationStream s = Some h →
  let s' := foldl (fun s p => listener p s) s ls in
  (∃ added, effects s' = effects s ++ added
            ∧ ∀ e, e ∈ added → e = log Debug "New livestream started.")
  ∧ _initSegment s' = _initSegment s
  ∧ dataOnce s' = dataOnce s
  ∧ next s' = next s
  ∧ listeners s' = listeners s
  ∧ livestreamStartedAt s' = livestreamStartedAt s
  ∧ camera_SN s' = camera_SN s
  ∧ (∀ p v, promises s' !! p = Some v →
            promises s !! p = Some v ∨ v = Resolved h).
Proof.
  induction ls as [|q ls IH]; intros s H; cbn zeta; cbn [foldl].
  - split; [exists []; rewrite app_nil_r; split; [done|]|by repeat split; auto].
    intros e He. by apply elem_of_nil in He.
  - assert (Hq : stationStream (listener q s) = Some h).
    { unfold listener, settle. rewrite H. cbn.
      destruct (promises s !! q); cbn; exact H. }
    destruct (IH (listener q s) Hq) as ((added & E & A) & I & D & N & L & T & C & P).
    cbn zeta in *.
    assert (F : effects (listener q s)
                = effects s ++ [log Debug "New livestream started."]
                ∧ _initSegment (listener q s) = _initSegment s
                ∧ dataOnce (listener q s) = dataOnce s
                ∧ next (listener q s) = next s
                ∧ listeners (listener q s) = listeners s
                ∧ livestreamStartedAt (listener q s) = livestreamStartedAt s
                ∧ camera_SN (listener q s) = camera_SN s
                ∧ (∀ p v, promises (listener q s) !! p = Some v →
                          promises s !! p = Some v ∨ v = Resolved h)).
    { unfold listener, settle. rewrite H. cbn -[lookup insert].
      destruct (promises s !! q) eqn:Eq; cbn -[lookup insert];
        repeat split; auto.
      intros p v. destruct (decide (p = q)) as [->|Hne].
      - rewrite lookup_insert_eq. intros Hv. injection Hv as <-. by right.
      - rewrite lookup_insert_ne by congruence. auto. }
    destruct F as (F1 & F2 & F3 & F4 & F5 & F6 & F7 & F8).
    split.
    { exists ([log Debug "New livestream started."] ++ added).
      split; [by rewrite E, F1, <- app_assoc|].
      intros e He. apply elem_of_app in He as [He|He]; [|by apply A].
      apply elem_of_cons in He as [->|He]; [done|]. by apply elem_of_nil in He. }
    repeat split; try congruence.
    intros p v Hv. destruct (P p v Hv) as [Hp | ->]; [|by right]. by apply F8.
Qed.

(** A start notification for this camera that is no duplicate: whatever
    handle was held is closed, a new handle object with new bridges is
    installed, the init segment is cleared and awaits the first chunk of
    the new video stream, and every waiting caller is resolved with the
    new handle. *)
Lemma onStationLivestreamStart_installs
    (t_diff t_started t_created : Z) (ev : Notification) (s : State) :
  n_device ev = camera_SN s →
  (∀ h, stationStream s = Some h → 5000 ≤ t_diff - createdAt h) →
  let h' := {| ref := S (S (next s)); station := n_station ev;
               device := n_device ev; metadata := n_metadata ev;
               vStream := next s; aStream := S (next s);
               createdAt := t_created |} in
  let s' := onStationLivestreamStart t_diff t_started t_created ev s in
  stationStream s' = Some h'
  ∧ _initSegment s' = None
  ∧ dataOnce s' = dataOnce s ++ [n_videostream ev]
  ∧ next s' = S (S (S (next s)))
  ∧ listeners s' = []
  ∧ livestreamStartedAt s' = Some t_started
  ∧ camera_SN s' = camera_SN s
  ∧ (∃ added,
        effects s' =
          effects s
          ++ [log Debug "Initialize before livestream."]
          ++ match stationStream s with
             | Some h => [log Debug "Cleaning before livestream.";
                          close (vStream h); close (aStream h)]
             | None => []
             end
          ++ [log Info "station livestream (P2P session) has started.";
              StreamInput (next s) (n_videostream ev);
              StreamInput (S (next s)) (n_audiostream ev)]
          ++ added
        ∧ ∀ e, e ∈ added → e = log Debug "New livestream started.")
  ∧ (∀ p, p ∈ listeners s → promises s !! p = None →
          promises s' !! p = Some (Resolved h'))
  ∧ (∀ p v, promises s !! p = Some v → promises s' !! p = Some v)
  ∧ (∀ p v, promises s' !! p = Some v →
            promises s !! p = Some v ∨ v = Resolved h').
Proof.
  intros Hev Hold. cbn zeta. unfold onStationLivestreamStart.
  rewrite decide_True by exact Hev.
  set (h' := {| ref := S (S (next s)); station := n_station ev;
                device := n_device ev; metadata := n_metadata ev;
                vStream := next s; aStream := S (next s);
                createdAt := t_created |}).
  unfold emit, initialize. cbn -[lookup insert].
  destruct (stationStream s) as [h|] eqn:E.
  all: try (rewrite bool_decide_eq_false_2
              by (specialize (Hold h eq_refl); lia)).
  all: cbn -[lookup insert].
  all: match goal with
       | |- context [foldl _ ?s0 _] =>
           match type of s0 with
           | State =>
               destruct (listeners_run h' (listeners s) s0 eq_refl)
                 as (A & _ & C & D');
               destruct (listeners_run_frame h' (listeners s) s0 eq_refl)
                 as ((added & F & Ad) & I & Da & N & Li & T & Ca & Pr)
           end
       end.
  all: cbn -[lookup insert] in *.
  all: repeat split; try assumption.
  all: try (exists added; split; [|exact Ad]; rewrite F, <- !app_assoc;
            reflexivity).
Qed.

(** X5. While the manager holds a handle, [getLocalLivestream] hands out
    exactly that handle object at once, however old it is: no start
    command is sent, no listener is registered, and the starting flag is
    not touched. *)
Theorem getLocalLivestream_reuses_handle (s : State) (h : StationStream) :
  stationStream s = Some h →
  allocated s →
  let '(s', p) := getLocalLivestream s in
  promises s' !! p = Some (Resolved h)
  ∧ stationStream s' = Some h
  ∧ starts (effects s') = starts (effects s)
  ∧ listeners s' = listeners s
  ∧ livestreamIsStarting s' = livestreamIsStarting s.
Proof.
  intros H A. unfold getLocalLivestream, settle. cbn -[lookup insert].
  rewrite H. cbn -[lookup insert]. rewrite (A (next s)) by lia.
  cbn -[lookup insert]. rewrite lookup_insert_eq, !starts_snoc. cbn.
  repeat split; auto; lia.
Qed.

Lemma allocated_front_door_live : allocated front_door_live.
Proof.
  intros p Hp.
  assert (E : promises front_door_live = <[0%nat := Resolved front_door_handle]> ∅)
    by (vm_compute; reflexivity).
  assert (N : next front_door_live = 4%nat) by (vm_compute; reflexivity).
  rewrite E. rewrite N in Hp. rewrite lookup_insert_ne by lia. apply lookup_empty.
Qed.

(** X5, on a manager that holds a handle. *)
Lemma getLocalLivestream_reuses_handle_witness :
  let s := front_door_live in
  let '(s', p) := getLocalLivestream s in
  promises s' !! p = Some (Resolved front_door_handle)
  ∧ stationStream s' = Some front_door_handle
  ∧ starts (effects s') = starts (effects s)
  ∧ listeners s' = listeners s
  ∧ livestreamIsStarting s' = livestreamIsStarting s.
Proof.
  intros s.
  apply (getLocalLivestream_reuses_handle s front_door_handle).
  - reflexivity.
  - exact allocated_front_door_live.
Defined.

(** X6. A start notification for this camera that arrives 5000 ms or
    more after the held handle was created replaces it: both bridges of
    the old handle are closed, a handle object with a new identity, new
    bridges and the new creation time is installed, the cached init
    segment is dropped, and every caller still waiting is resolved with
    the new handle. *)
Theorem stale_handle_replaced
    (t_diff t_started t_created : Z) (ev : Notification) (s : State)
    (h : StationStream) :
  stationStream s = Some h →
  5000 ≤ t_diff - createdAt h →
  n_device ev = camera_SN s →
  (ref h < next s)%nat →
  let s' := onStationLivestreamStart t_diff t_started t_created ev s in
  ∃ h' added,
    stationStream s' = Some h'
    ∧ ref h' ≠ ref h
    ∧ createdAt h' = t_created
    ∧ vStream h' = next s ∧ aStream h' = S (next s)
    ∧ _initSegment s' = None
    ∧ effects s' = effects s ++ added
    ∧ close (vStream h) ∈ added
    ∧ close (aStream h) ∈ added
    ∧ StreamInput (vStream h') (n_videostream ev) ∈ added
    ∧ StreamInput (aStream h') (n_audiostream ev) ∈ added
    ∧ listeners s' = []
    ∧ ∀ p, p ∈ listeners s → promises s !! p = None →
           promises s' !! p = Some (Resolved h').
Proof.
  intros H Hd Hev Hr.
  destruct (onStationLivestreamStart_installs t_diff t_started t_created ev s Hev)
    as (A & I & _ & _ & L & _ & _ & (added & E & _) & C & _).
  { intros h0 H0. rewrite H in H0. by injection H0 as <-. }
  cbn zeta in *. rewrite H in E. eexists. eexists.
  split; [exact A|]. cbn.
  split; [lia|]. split; [reflexivity|]. split; [reflexivity|].
  split; [reflexivity|]. split; [exact I|]. split; [exact E|].
  rewrite !elem_of_app, !elem_of_cons. repeat split; auto 10.
Qed.

(** X6, for a notification six seconds after the handle was created. *)
Lemma stale_handle_replaced_witness :
  let s := front_door_live in
  let h := front_door_handle in
  let ev := front_door_started in
  let s' := onStationLivestreamStart 7000 7000 7000 ev s in
  ∃ h' added,
    stationStream s' = Some h'
    ∧ ref h' ≠ ref h
    ∧ createdAt h' = 7000
    ∧ vStream h' = next s ∧ aStream h' = S (next s)
    ∧ _initSegment s' = None
    ∧ effects s' = effects s ++ added
    ∧ close (vStream h) ∈ added
    ∧ close (aStream h) ∈ added
    ∧ StreamInput (vStream h') (n_videostream ev) ∈ added
    ∧ StreamInput (aStream h') (n_audiostream ev) ∈ added
    ∧ listeners s' = []
    ∧ ∀ p, p ∈ listeners s → promises s !! p = None →
           promises s' !! p = Some (Resolved h').
Proof.
  intros s h ev.
  apply (stale_handle_replaced 7000 7000 7000 ev s h).
  - reflexivity.
  - cbn. lia.
  - reflexivity.
  - vm_compute. lia.
Defined.

(** With no once-listener left, chunks change nothing. *)
Lemma onVideoChunks_unobserved (chunks : list (nat * Buffer)) (s : State) :
  dataOnce s = [] → onVideoChunks chunks s = s.
Proof.
  intros H. unfold onVideoChunks. induction chunks as [|c chunks IH]; cbn;
    [reflexivity|].
  unfold onVideoData at 2. rewrite H.
  rewrite bool_decide_eq_false_2 by apply not_elem_of_nil. exact IH.
Qed.

(** With the once-listener of the stream [v] as the only one, the init
    segment after any chunks is the first chunk of [v] among them. *)
Lemma onVideoChunks_single (v : nat) (chunks : list (nat * Buffer)) : ∀ s : State,
  dataOnce s = [v] →
  _initSegment s = None →
  _initSegment (onVideoChunks chunks s)
  = snd <$> List.find (fun c => bool_decide (c.1 = v)) chunks.
Proof.
  induction chunks as [|[stream chunk] chunks IH]; intros s D I; [exact I|].
  change (onVideoChunks ((stream, chunk) :: chunks) s)
    with (onVideoChunks chunks (onVideoData stream chunk s)).
  cbn [List.find fst snd]. destruct (decide (stream = v)) as [->|N].
  - rewrite bool_decide_eq_true_2 by reflexivity. cbn.
    rewrite onVideoChunks_unobserved.
    + unfold onVideoData. rewrite D.
      rewrite bool_decide_eq_true_2 by (apply elem_of_cons; by left).
      reflexivity.
    + unfold onVideoData. rewrite D.
      rewrite bool_decide_eq_true_2 by (apply elem_of_cons; by left).
      cbn. by rewrite decide_False by (intros X; by apply X).
  - rewrite bool_decide_eq_false_2 by exact N.
    assert (E : onVideoData stream chunk s = s).
    { unfold onVideoData. rewrite D. rewrite bool_decide_eq_false_2; [reflexivity|].
      rewrite elem_of_cons, elem_of_nil. tauto. }
    rewrite E. by apply IH.
Qed.

(** X7. A start notification that installs a handle leaves the init
    segment unset, so that [getInitSegment] is rejected, and adds a
    once-listener on its video stream to the ones already registered:
    nothing removes the listener of an earlier notification.  When no
    earlier listener is left, then whatever chunks arrive from whatever
    streams, the init segment is the first chunk of the notified stream,
    and unset as long as that stream has delivered none.  When the stream
    of an earlier notification still has its listener, its first chunk
    becomes the init segment, before the notified stream has delivered
    and also after, replacing the chunk of the notified stream. *)
Theorem first_chunk_is_init_segment
    (t_diff t_started t_created : Z) (ev : Notification) (s : State)
    (stack : nat) :
  n_device ev = camera_SN s →
  (∀ h, stationStream s = Some h → 5000 ≤ t_diff - createdAt h) →
  let v := n_videostream ev in
  let s1 := onStationLivestreamStart t_diff t_started t_created ev s in
  _initSegment s1 = None
  ∧ getInitSegment stack s1 = RangeError
  ∧ dataOnce s1 = dataOnce s ++ [v]
  ∧ (dataOnce s = [] →
     ∀ chunks : list (nat * Buffer),
       _initSegment (onVideoChunks chunks s1)
       = snd <$> List.find (fun c => bool_decide (c.1 = v)) chunks)
  ∧ (∀ (o : nat) (c0 c1 : Buffer),
       o ∈ dataOnce s → o ≠ v →
       _initSegment (onVideoData o c0 s1) = Some c0
       ∧ _initSegment (onVideoData v c1 s1) = Some c1
       ∧ _initSegment (onVideoData o c0 (onVideoData v c1 s1)) = Some c0).
Proof.
  intros Hev Hold.
  destruct (onStationLivestreamStart_installs t_diff t_started t_created ev s
              Hev Hold) as (_ & I & D & _).
  cbn zeta in *.
  set (s1 := onStationLivestreamStart t_diff t_started t_created ev s) in *.
  clearbody s1.
  split; [exact I|]. split.
  { induction stack as [|k IH]; cbn; unfold initSegment; rewrite I;
      [reflexivity|exact IH]. }
  split; [exact D|]. split.
  - intros E chunks. apply onVideoChunks_single; [|exact I].
    by rewrite D, E.
  - intros o c0 c1 Ho Hne.
    assert (V : n_videostream ev ∈ dataOnce s1)
      by (rewrite D, elem_of_app, elem_of_cons; tauto).
    assert (O : o ∈ dataOnce s1) by (rewrite D, elem_of_app; tauto).
    split; [|split].
    + unfold onVideoData. by rewrite bool_decide_eq_true_2.
    + unfold onVideoData. by rewrite bool_decide_eq_true_2.
    + unfold onVideoData at 1. rewrite bool_decide_eq_true_2; [reflexivity|].
      unfold onVideoData. rewrite bool_decide_eq_true_2 by exact V. cbn.
      apply list_elem_of_filter. split; [exact Hne|exact O].
Qed.

(** X7, on a new manager. *)
Lemma first_chunk_is_init_segment_witness :
  let s := new "T8113" "T8113" in
  let ev := front_door_started in
  let v := n_videostream ev in
  let s1 := onStationLivestreamStart 1000 1000 1000 ev s in
  _initSegment s1 = None
  ∧ getInitSegment 5 s1 = RangeError
  ∧ dataOnce s1 = dataOnce s ++ [v]
  ∧ (dataOnce s = [] →
     ∀ chunks : list (nat * Buffer),
       _initSegment (onVideoChunks chunks s1)
       = snd <$> List.find (fun c => bool_decide (c.1 = v)) chunks)
  ∧ (∀ (o : nat) (c0 c1 : Buffer),
       o ∈ dataOnce s → o ≠ v →
       _initSegment (onVideoData o c0 s1) = Some c0
       ∧ _initSegment (onVideoData v c1 s1) = Some c1
       ∧ _initSegment (onVideoData o c0 (onVideoData v c1 s1)) = Some c0).
Proof.
  intros s ev.
  apply (first_chunk_is_init_segment 1000 1000 1000 ev s 5).
  - reflexivity.
  - intros h H. discriminate H.
Defined.

(** X7, where it matters: the station restarts the livestream, and the
    first chunk of the old stream (100), arriving after the first chunk of
    the new one (200), becomes the init segment of the new handle. *)
Lemma stale_stream_overwrites_init_segment :
  let restarted := {| n_station := "HomeBase"; n_device := "T8113";
                      n_metadata := {| videoCodec := 0; videoFPS := 15 |};
                      n_videostream := 200; n_audiostream := 201 |} in
  let s := onStationLivestreamStart 9000 9000 9000 restarted front_door_live in
  let s' := onVideoData 100 [Init.Byte.x00] (onVideoData 200 [Init.Byte.x01] s) in
  vStream <$> stationStream s' = Some 4%nat
  ∧ _initSegment s' = Some [Init.Byte.x00].
Proof. cbn zeta. split; reflexivity. Qed.

Lemma starts_app (es fs : list Effect) :
  starts (es ++ fs) = (starts es + starts fs)%nat.
Proof. unfold starts. by rewrite List.filter_app, length_app. Qed.

Lemma starts_none (es : list Effect) :
  (∀ e, e ∈ es → is_start e = false) → starts es = 0%nat.
Proof.
  unfold starts. induction es as [|e es IH]; intros H; cbn; [reflexivity|].
  rewrite (H e) by (apply elem_of_cons; by left).
  apply IH. intros e' He'. apply H. apply elem_of_cons. by right.
Qed.

(** No event changes the serial the manager listens for. *)
Lemma step_camera_SN (e : Event) (s : State) :
  camera_SN (step e s) = camera_SN s.
Proof.
  destruct e as [| |dev|t_diff t_started t_created n|stream chunk]; cbn.
  - unfold getLocalLivestream, startAndGetLocalLiveStream, settle.
    cbn -[lookup insert].
    destruct (stationStream s); cbn -[lookup insert];
      [destruct (promises s !! next s)|destruct (livestreamIsStarting s)];
      reflexivity.
  - unfold stopLocalLiveStream, initialize. cbn.
    by destruct (stationStream s).
  - unfold onStationLivestreamStop, initialize.
    destruct (decide (dev = device_serial s)); [|reflexivity]. cbn.
    by destruct (stationStream s).
  - unfold onStationLivestreamStart.
    destruct (decide (n_device n = camera_SN s)) as [Hev|]; [|reflexivity].
    assert (G : (∀ h, stationStream s = Some h → 5000 ≤ t_diff - createdAt h) →
                camera_SN (onStationLivestreamStart t_diff t_started
                             t_created n s) = camera_SN s).
    { intros Hold.
      by destruct (onStationLivestreamStart_installs t_diff t_started t_created
                     n s Hev Hold) as (_ & _ & _ & _ & _ & _ & C & _). }
    unfold onStationLivestreamStart in G. rewrite decide_True in G by exact Hev.
    destruct (stationStream s) as [h|] eqn:E.
    + destruct (bool_decide (t_diff - createdAt h < 5000)) eqn:B; [reflexivity|].
      apply bool_decide_eq_false in B. apply G.
      intros h0 H0. injection H0 as <-. lia.
    + apply G. intros h0 H0. discriminate.
  - unfold onVideoData. by destruct (bool_decide (stream ∈ dataOnce s)).
Qed.

(** Every event keeps the promises resolved-only. *)
Lemma step_resolved_only (e : Event) (s : State) :
  resolved_only s → resolved_only (step e s).
Proof.
  intros [P H]. unfold resolved_only. rewrite step_camera_SN.
  destruct e as [| |dev|t_diff t_started t_created n|stream chunk]; cbn.
  - unfold getLocalLivestream, startAndGetLocalLiveStream, settle.
    cbn -[lookup insert].
    destruct (stationStream s) as [h|] eqn:E; cbn -[lookup insert].
    + destruct (promises s !! next s) eqn:F; cbn -[lookup insert];
        (split; [|by rewrite E]); [exact P|].
      intros p v. destruct (decide (p = next s)) as [->|Hne].
      * rewrite lookup_insert_eq. intros Hv. injection Hv as <-. eauto.
      * rewrite lookup_insert_ne by congruence. intros Hv. exact (P p v Hv).
    + destruct (livestreamIsStarting s); cbn -[lookup insert];
        (split; [exact P|by rewrite E]).
  - unfold stopLocalLiveStream, initialize. cbn.
    destruct (stationStream s); cbn; (split; [exact P|discriminate]).
  - unfold onStationLivestreamStop, initialize.
    destruct (decide (dev = device_serial s)); [|by split]. cbn.
    destruct (stationStream s); cbn; (split; [exact P|discriminate]).
  - unfold onStationLivestreamStart.
    destruct (decide (n_device n = camera_SN s)) as [Hev|]; [|by split].
    assert (G : (∀ h, stationStream s = Some h → 5000 ≤ t_diff - createdAt h) →
                (∀ p v,
                   promises (onStationLivestreamStart t_diff t_started
                               t_created n s) !! p = Some v →
                   ∃ h, v = Resolved h ∧ device h = camera_SN s)
                ∧ (∀ h,
                   stationStream (onStationLivestreamStart t_diff t_started
                                    t_created n s) = Some h →
                   device h = camera_SN s)).
    { intros Hold.
      destruct (onStationLivestreamStart_installs t_diff t_started t_created
                  n s Hev Hold) as (A & _ & _ & _ & _ & _ & _ & _ & _ & _ & Pr).
      cbn zeta in *. split.
      - intros p v Hv. destruct (Pr p v Hv) as [Hp | ->]; [exact (P p v Hp)|].
        eexists. split; [reflexivity|exact Hev].
      - intros h0 H0. rewrite A in H0. injection H0 as <-. exact Hev. }
    unfold onStationLivestreamStart in G. rewrite decide_True in G by exact Hev.
    destruct (stationStream s) as [h|] eqn:E.
    + destruct (bool_decide (t_diff - createdAt h < 5000)) eqn:B.
      * cbn. split; [exact P|by rewrite E].
      * apply bool_decide_eq_false in B. apply G.
        intros h0 H0. injection H0 as <-. lia.
    + apply G. intros h0 H0. discriminate.
  - unfold onVideoData. destruct (bool_decide (stream ∈ dataOnce s)); by split.
Qed.


(** X8. Whatever sequence of acquisitions, releases, station
    notifications and video chunks a manager goes through, no promise it
    handed out is ever rejected: every settled promise was resolved, and
    with a handle of the manager's own camera.  The 'no started livestream
    found' branch of the start listener is never taken. *)
Theorem promises_never_rejected
    (es : list Event) (sn serial : string) (p : nat) (v : Settled) :
  promises (run es (new sn serial)) !! p = Some v →
  ∃ h, v = Resolved h ∧ device h = sn.
Proof.
  assert (I : ∀ s, resolved_only s →
              resolved_only (run es s) ∧ camera_SN (run es s) = camera_SN s).
  { unfold run. induction es as [|e es IH]; intros s R; cbn; [by split|].
    destruct (IH (step e s) (step_resolved_only e s R)) as [R' C'].
    split; [exact R'|]. by rewrite C', step_camera_SN. }
  destruct (I (new sn serial)) as [[P _] C].
  { split; [intros q w Hq; cbn in Hq; by rewrite lookup_empty in Hq|discriminate]. }
  intros Hv. rewrite C in P. exact (P p v Hv).
Qed.

(** X8, for a caller that acquires before the station answers. *)
Lemma promises_never_rejected_witness :
  let s := run [Acquire; StationStart 1000 1000 1000 front_door_started]
             (new "T8113" "T8113") in
  promises s !! 0%nat = Some (Resolved front_door_handle)
  ∧ ∃ h, Resolved front_door_handle = Resolved h ∧ device h = "T8113".
Proof.
  intros s. split; [reflexivity|].
  apply (promises_never_rejected
           [Acquire; StationStart 1000 1000 1000 front_door_started]
           "T8113" "T8113" 0%nat).
  reflexivity.
Defined.

(** Only an acquisition can send a start command, and it sends at most
    one. *)
Lemma step_starts (e : Event) (s : State) :
  (starts (effects (step e s))
   ≤ starts (effects s) + match e with Acquire => 1 | _ => 0 end)%nat.
Proof.
  destruct e as [| |dev|t_diff t_started t_created n|stream chunk]; cbn.
  - unfold getLocalLivestream, startAndGetLocalLiveStream, settle.
    cbn -[lookup insert].
    destruct (stationStream s); cbn -[lookup insert];
      [destruct (promises s !! next s)|destruct (livestreamIsStarting s)];
      cbn -[lookup insert]; rewrite !starts_snoc; cbn; lia.
  - unfold stopLocalLiveStream, initialize. cbn.
    destruct (stationStream s); cbn; rewrite !starts_snoc; cbn; lia.
  - unfold onStationLivestreamStop, initialize.
    destruct (decide (dev = device_serial s)); [|lia]. cbn.
    destruct (stationStream s); cbn; rewrite !starts_snoc; cbn; lia.
  - unfold onStationLivestreamStart.
    destruct (decide (n_device n = camera_SN s)) as [Hev|]; [|lia].
    assert (G : (∀ h, stationStream s = Some h → 5000 ≤ t_diff - createdAt h) →
                starts (effects (onStationLivestreamStart t_diff t_started
                                   t_created n s)) = starts (effects s)).
    { intros Hold.
      destruct (onStationLivestreamStart_installs t_diff t_started t_created
                  n s Hev Hold)
        as (_ & _ & _ & _ & _ & _ & _ & (added & E & A) & _).
      cbn zeta in *. rewrite E, !starts_app.
      rewrite (starts_none added)
        by (intros e He; by rewrite (A e He)).
      destruct (stationStream s); unfold starts; cbn; lia. }
    unfold onStationLivestreamStart in G. rewrite decide_True in G by exact Hev.
    destruct (stationStream s) as [h|] eqn:E.
    + destruct (bool_decide (t_diff - createdAt h < 5000)) eqn:B.
      * cbn. rewrite starts_snoc. cbn. lia.
      * apply bool_decide_eq_false in B. rewrite G; [lia|].
        intros h0 H0. injection H0 as <-. lia.
    + rewrite G; [lia|]. intros h0 H0. discriminate.
  - unfold onVideoData. destruct (bool_decide (stream ∈ dataOnce s)); cbn; lia.
Qed.

(** X9. Over any sequence of events the manager sends at most one start
    command per acquisition: releases, station notifications and video
    chunks never make it start the station's livestream. *)
Theorem starts_bounded_by_acquisitions (es : list Event) (s : State) :
  (starts (effects (run es s)) ≤ starts (effects s) + acquisitions es)%nat.
Proof.
  unfold run, acquisitions. revert s.
  induction es as [|e es IH]; intros s; cbn [foldl]; [cbn; lia|].
  specialize (IH (step e s)). pose proof (step_starts e s) as H.
  destruct e; cbn [List.filter length] in *; lia.
Qed.

End LocalLivestreamManager.

(** ** The streaming delegate *)

Module StreamingDelegate.

(** *** Library functions the class relies on *)

(** String.prototype.split on a one-character separator: the pieces
    between the separators, empty ones included. *)
Fixpoint split (sep : ascii) (s : string) : list string :=
  match s with
  | EmptyString => [EmptyString]
  | String c s' =>
      if Ascii.eqb c sep then EmptyString :: split sep s'
      else match split sep s' with
           | x :: xs => String c x :: xs
           | [] => [String c EmptyString]
           end
  end.

(** Array.prototype.indexOf; [None] stands for -1. *)
Fixpoint indexOf (x : string) (l : list string) : option nat :=
  match l with
  | [] => None
  | y :: l' => if String.eqb y x then Some O else S <$> indexOf x l'
  end.

(** Array.prototype.splice(i, 1) *)
Definition splice1 (i : nat) (l : list string) : list string :=
  take i l ++ drop (S i) l.

(** Array.prototype.join *)
Definition join (sep : string) (l : list string) : string :=
  String.concat sep l.

(** JavaScript's truthiness of an optional string. *)
Definition truthy (o : option string) : bool :=
  match o with
  | Some s => negb (String.eqb s "")
  | None => false
  end.

(** Number to string, for the integers the requests and the
    configuration carry. *)
Definition str (z : Z) : string := pretty z.

Definition base64_alphabet : string :=
  "ABCDEFGHIJKLMNOPQRSTUVWXYZabcdefghijklmnopqrstuvwxyz0123456789+/".

Definition base64_digit (n : N) : ascii :=
  default "="%char (String.get (N.to_nat (n mod 64)%N) base64_alphabet).

Fixpoint base64_groups (bs : list N) : string :=
  match bs with
  | [] => ""
  | [a] =>
      let n := (a * 65536)%N in
      String (base64_digit (n / 262144)) (String (base64_digit (n / 4096)) "==")
  | [a; b] =>
      let n := (a * 65536 + b * 256)%N in
      String (base64_digit (n / 262144))
        (String (base64_digit (n / 4096)) (String (base64_digit (n / 64)) "="))
  | a :: b :: c :: rest =>
      let n := (a * 65536 + b * 256 + c)%N in
      String (base64_digit (n / 262144))
        (String (base64_digit (n / 4096))
           (String (base64_digit (n / 64))
              (String (base64_digit n) (base64_groups rest))))
  end.

(** Buffer.prototype.toString('base64') *)
Definition base64 (b : Buffer) : string :=
  base64_groups (Strings.Byte.to_N <$> b).

(** *** Configuration and requests *)

(** hap-nodejs' AudioStreamingCodecType, with the string each member
    stands for. *)
Inductive AudioStreamingCodecType :=
  PCMU | PCMA | AAC_ELD | OPUS | MSBC | AMR | AMR_WB.

#[global] Instance AudioStreamingCodecType_eq_dec :
  EqDecision AudioStreamingCodecType.
Proof. solve_decision. Defined.

Definition codec_string (c : AudioStreamingCodecType) : string :=
  match c with
  | PCMU => "PCMU"
  | PCMA => "PCMA"
  | AAC_ELD => "AAC-eld"
  | OPUS => "OPUS"
  | MSBC => "mSBC"
  | AMR => "AMR"
  | AMR_WB => "AMR-WB"
  end.

(** The fields of [VideoConfig] the class reads.  Optional numbers and
    strings are options; the optional booleans are given by their
    truthiness. *)
Record VideoConfig := {
  maxWidth : option Z;
  maxHeight : option Z;
  maxFPS : option Z;
  maxBitrate : option Z;
  forceMax : bool;
  vcodec : option string;
  packetSize : option Z;
  encoderOptions : option string;
  videoFilter : option string;
  mapvideo : option string;
  mapaudio : option string;
  cfg_audio : bool;
  debug : bool
}.

(** request.video of a start request *)
Record VideoInfo := {
  v_width : Z;
  v_height : Z;
  v_fps : Z;
  v_max_bit_rate : Z;
  v_pt : Z;
  v_rtcp_interval : float
}.

(** request.audio of a start request *)
Record AudioInfo := {
  a_codec : AudioStreamingCodecType;
  a_sample_rate : Z;
  a_max_bit_rate : Z;
  a_channel : Z;
  a_pt : Z;
  a_rtcp_interval : float
}.

Record StartStreamRequest := {
  sessionID : string;
  video : VideoInfo;
  audio : AudioInfo
}.

(** type ResolutionInfo *)
Record ResolutionInfo := {
  width : Z;
  height : Z;
  r_videoFilter : option string;
  snapFilter : option string;
  resizeFilter : option string
}.

(** private determineResolution(request, isSnapshot); of the request only
    the width and the height are read. *)
Definition determineResolution
    (cfg : VideoConfig) (req_width req_height : Z) (isSnapshot : bool)
    : ResolutionInfo :=
  let w :=
    if negb isSnapshot then
      match maxWidth cfg with
      | Some m => if forceMax cfg || bool_decide (m < req_width) then m else req_width
      | None => req_width
      end
    else req_width in
  let h :=
    if negb isSnapshot then
      match maxHeight cfg with
      | Some m => if forceMax cfg || bool_decide (m < req_height) then m else req_height
      | None => req_height
      end
    else req_height in
  let filters :=
    match videoFilter cfg with
    | Some f => split "," f
    | None => []
    end in
  let noneFilter := indexOf "none" filters in
  let filters :=
    match noneFilter with
    | Some i => splice1 i filters
    | None => filters
    end in
  let snap := join "," filters in
  let resize :=
    if bool_decide (noneFilter = None) && (bool_decide (0 < w) || bool_decide (0 < h))
    then Some ("scale="
               +:+ (if bool_decide (0 < w) then "'min(" +:+ str w +:+ ",iw)'" else "iw")
               +:+ ":"
               +:+ (if bool_decide (0 < h) then "'min(" +:+ str h +:+ ",ih)'" else "ih")
               +:+ ":force_original_aspect_ratio=decrease")
    else None in
  let filters :=
    match resize with
    | Some r => filters ++ [r; "scale='trunc(iw/2)*2:trunc(ih/2)*2'"]
    | None => filters
    end in
  {| width := w; height := h;
     r_videoFilter := if bool_decide (0 < length filters)%nat
                      then Some (join "," filters) else None;
     snapFilter := Some snap;
     resizeFilter := resize |}.

(** The encode parameters [startStream] derives from the configuration
    and the request before it builds the ffmpeg command line. *)
Record EncodeParameters := {
  e_vcodec : string;
  e_mtu : Z;
  e_encoderOptions : option string;
  e_resolution : ResolutionInfo;
  e_fps : Z;
  e_videoBitrate : Z
}.

Definition encodeParameters (cfg : VideoConfig) (v : VideoInfo) : EncodeParameters :=
  let vc := if truthy (vcodec cfg) then default "" (vcodec cfg) else "libx264" in
  let mtu :=
    match packetSize cfg with
    | Some p => if bool_decide (p = 0) then 1316 else p
    | None => 1316
    end in
  let eo :=
    if negb (truthy (encoderOptions cfg)) && bool_decide (vc = "libx264")
    then Some "-preset ultrafast -tune zerolatency"
    else encoderOptions cfg in
  let resolution := determineResolution cfg (v_width v) (v_height v) false in
  let fps :=
    match maxFPS cfg with
    | Some m => if forceMax cfg || bool_decide (m < v_fps v) then m else v_fps v
    | None => v_fps v
    end in
  let videoBitrate :=
    match maxBitrate cfg with
    | Some m => if forceMax cfg || bool_decide (m < v_max_bit_rate v) then m
                else v_max_bit_rate v
    | None => v_max_bit_rate v
    end in
  if bool_decide (vc = "copy") then
    {| e_vcodec := vc; e_mtu := mtu; e_encoderOptions := eo;
       e_resolution := {| width := 0; height := 0; r_videoFilter := None;
                          snapFilter := snapFilter resolution;
                          resizeFilter := resizeFilter resolution |};
       e_fps := 0; e_videoBitrate := 0 |}
  else
    {| e_vcodec := vc; e_mtu := mtu; e_encoderOptions := eo;
       e_resolution := resolution;
       e_fps := fps; e_videoBitrate := videoBitrate |}.

(** Number or 'native', as the start log line prints it. *)
Definition or_native (z : Z) (unset : string) : string :=
  if bool_decide (0 < z) then str z else unset.

(** The text of the 'Starting video stream' log line. *)
Definition starting_message
    (cfg : VideoConfig) (p : EncodeParameters) (a : AudioInfo) : string :=
  "Starting video stream: "
  +:+ or_native (width (e_resolution p)) "native" +:+ " x "
  +:+ or_native (height (e_resolution p)) "native" +:+ ", "
  +:+ or_native (e_fps p) "native" +:+ " fps, "
  +:+ or_native (e_videoBitrate p) "???" +:+ " kbps"
  +:+ (if cfg_audio cfg then " (" +:+ codec_string (a_codec a) +:+ ")" else "").

(** *** Sessions, effects and state *)

(** type SessionInfo *)
Record SessionInfo := {
  address : string;
  ipv6 : bool;
  videoPort : Z;
  videoReturnPort : Z;
  videoCryptoSuite : Z;
  videoSRTP : Buffer;
  videoSSRC : Z;
  audioPort : Z;
  audioReturnPort : Z;
  audioCryptoSuite : Z;
  audioSRTP : Buffer;
  audioSSRC : Z
}.

(** type ActiveSession; every field holds the identity of the process,
    timer, socket or named pipe it refers to. *)
Record ActiveSession := {
  mainProcess_video : option nat;
  mainProcess_audio : option nat;
  timeout : option nat;
  vsocket : option nat;
  asocket : option nat;
  uVideoStream : option nat;
  uAudioStream : option nat
}.

(** type StationStream of this class *)
Record StationStream := {
  station : string;
  channel : Z;
  metadata : StreamMetadata;
  videostream : nat;
  audiostream : nat
}.

(** One track of a prepare request and of its response. *)
Record PrepareTrack := {
  port : Z;
  srtpCryptoSuite : Z;
  srtp_key : Buffer;
  srtp_salt : Buffer
}.

Record PrepareStreamRequest := {
  p_sessionID : string;
  targetAddress : string;
  addressVersion : string;
  p_video : PrepareTrack;
  p_audio : PrepareTrack
}.

Record ResponseTrack := {
  r_port : Z;
  r_ssrc : Z;
  r_srtp_key : Buffer;
  r_srtp_salt : Buffer
}.

Record PrepareStreamResponse := {
  r_video : ResponseTrack;
  r_audio : ResponseTrack
}.

Record SnapshotRequest := {
  s_width : Z;
  s_height : Z
}.

(** How a promise has been settled: the promise of [getLocalLiveStream]
    with the stream data, the promise of [fetchSnapshot] with the image. *)
Inductive Settled :=
| Resolved (sd : StationStream)
| Fetched (image : Buffer)
| Rejected (reason : string).

(** Calls into collaborators and callbacks, in program order.  A log
    entry keeps the level and the text of the message, without the camera
    name passed beside it and without what the source appends from a
    caught exception, from JSON.stringify or from a floating-point
    number. *)
Inductive Effect :=
| getStationById (serial : string)
| startStationLivestream (serial : string)
| stopStationLivestream (serial : string)
| StreamInput (pipe source : nat) (name : string)
| pipe_close (pipe : nat)
| createSocket (sock : nat) (type : string)
| bind (sock : nat) (port : Z)
| socket_close (sock : nat)
| FfmpegProcess (proc : nat) (name sessionId : string) (args : list string)
    (cb : option nat)
| stop (proc : nat)
| spawn (proc : nat) (command : string)
| setTimeout (timer : nat) (ms : float)
| clearTimeout (timer : nat)
| forceStopStreamingSession (sessionId : string)
| callback (cb : nat) (err : option string)
| prepared (cb : nat) (response : PrepareStreamResponse)
| snapshotCallback (cb : nat) (image : option Buffer)
| log (lvl : Level) (msg : string).

(** The readonly fields of the class.  [url] is [NamePipeStream.url] as
    a function of the pipe's identity. *)
Record Env := {
  cameraName : string;
  videoProcessor : string;
  eufyPath : string;
  device_serial : string;
  station_serial : string;
  enableDetailedLogging : Z;
  unbridge : bool;
  videoConfig : VideoConfig;
  url : nat → string
}.

(** The mutable fields of the class, the heap of [ActiveSession] objects
    ([ongoingSessions] maps a session id to a reference into [objects]),
    the station's 'livestream start' listeners by the promise each one
    resolves, and the promises. *)
#[projections(primitive)]
Record State := {
  env : Env;
  snapshotPromise : option nat;
  stationStream : option StationStream;
  pendingSessions : gmap string SessionInfo;
  ongoingSessions : gmap string nat;
  objects : gmap nat ActiveSession;
  stationListeners : list nat;
  promises : gmap nat Settled;
  next : nat;
  effects : list Effect
}.

Definition set_snapshotPromise (v : option nat) (s : State) : State :=
  {| env := env s; snapshotPromise := v;
     stationStream := stationStream s; pendingSessions := pendingSessions s;
     ongoingSessions := ongoingSessions s; objects := objects s;
     stationListeners := stationListeners s; promises := promises s;
     next := next s; effects := effects s |}.

Definition set_stationStream (v : option StationStream) (s : State) : State :=
  {| env := env s; snapshotPromise := snapshotPromise s;
     stationStream := v; pendingSessions := pendingSessions s;
     ongoingSessions := ongoingSessions s; objects := objects s;
     stationListeners := stationListeners s; promises := promises s;
     next := next s; effects := effects s |}.

Definition set_pendingSessions (v : gmap string SessionInfo) (s : State) : State :=
  {| env := env s; snapshotPromise := snapshotPromise s;
     stationStream := stationStream s; pendingSessions := v;
     ongoingSessions := ongoingSessions s; objects := objects s;
     stationListeners := stationListeners s; promises := promises s;
     next := next s; effects := effects s |}.

Definition set_ongoingSessions (v : gmap string nat) (s : State) : State :=
  {| env := env s; snapshotPromise := snapshotPromise s;
     stationStream := stationStream s; pendingSessions := pendingSessions s;
     ongoingSessions := v; objects := objects s;
     stationListeners := stationListeners s; promises := promises s;
     next := next s; effects := effects s |}.

Definition set_objects (v : gmap nat ActiveSession) (s : State) : State :=
  {| env := env s; snapshotPromise := snapshotPromise s;
     stationStream := stationStream s; pendingSessions := pendingSessions s;
     ongoingSessions := ongoingSessions s; objects := v;
     stationListeners := stationListeners s; promises := promises s;
     next := next s; effects := effects s |}.

Definition set_stationListeners (v : list nat) (s : State) : State :=
  {| env := env s; snapshotPromise := snapshotPromise s;
     stationStream := stationStream s; pendingSessions := pendingSessions s;
     ongoingSessions := ongoingSessions s; objects := objects s;
     stationListeners := v; promises := promises s;
     next := next s; effects := effects s |}.

Definition set_promises (v : gmap nat Settled) (s : State) : State :=
  {| env := env s; snapshotPromise := snapshotPromise s;
     stationStream := stationStream s; pendingSessions := pendingSessions s;
     ongoingSessions := ongoingSessions s; objects := objects s;
     stationListeners := stationListeners s; promises := v;
     next := next s; effects := effects s |}.

Definition set_next (v : nat) (s : State) : State :=
  {| env := env s; snapshotPromise := snapshotPromise s;
     stationStream := stationStream s; pendingSessions := pendingSessions s;
     ongoingSessions := ongoingSessions s; objects := objects s;
     stationListeners := stationListeners s; promises := promises s;
     next := v; effects := effects s |}.

Definition set_effects (v : list Effect) (s : State) : State :=
  {| env := env s; snapshotPromise := snapshotPromise s;
     stationStream := stationStream s; pendingSessions := pendingSessions s;
     ongoingSessions := ongoingSessions s; objects := objects s;
     stationListeners := stationListeners s; promises := promises s;
     next := next s; effects := v |}.

(** Append one call to the effect log. *)
Definition perform (e : Effect) (s : State) : State :=
  set_effects (effects s ++ [e]) s.

(** Draw a fresh object identity. *)
Definition fresh (s : State) : nat * State :=
  (next s, set_next (S (next s)) s).

(** resolve / reject; a settled promise ignores later calls. *)
Definition settle (p : nat) (v : Settled) (s : State) : State :=
  match promises s !! p with
  | Some _ => s
  | None => set_promises (<[p := v]> (promises s)) s
  end.

(** A delegate as its constructor leaves it. *)
Definition new (e : Env) : State :=
  {| env := e; snapshotPromise := None; stationStream := None;
     pendingSessions := ∅; ongoingSessions := ∅; objects := ∅;
     stationListeners := []; promises := ∅; next := 0%nat; effects := [] |}.

(** The object literal [{}] an active session starts from. *)
Definition emptySession : ActiveSession :=
  {| mainProcess_video := None; mainProcess_audio := None; timeout := None;
     vsocket := None; asocket := None;
     uVideoStream := None; uAudioStream := None |}.

(** *** Operations *)

(** The calls of one [try] block, in order: a call that throws ends the
    block, and the [catch] clause logs [msg].  [throws] tells which calls
    throw. *)
Fixpoint try_block
    (throws : Effect → bool) (calls : list Effect) (msg : string) (s : State)
    : State :=
  match calls with
  | [] => s
  | c :: rest =>
      let s := perform c s in
      if throws c then perform (log Error msg) s
      else try_block throws rest msg s
  end.

(** [x?.m()]: the call when the field is set, nothing otherwise. *)
Definition optional (call : nat → Effect) (field : option nat) : list Effect :=
  match field with
  | Some x => [call x]
  | None => []
  end.

(** async prepareStream(request, callback); [videoReturnPort] and
    [audioReturnPort] are what [pickPort] returned, [videoSSRC] and
    [audioSSRC] what [generateSynchronisationSource] returned. *)
Definition prepareStream
    (request : PrepareStreamRequest) (cb : nat)
    (videoReturnPort' videoSSRC' audioReturnPort' audioSSRC' : Z) (s : State)
    : State :=
  let sessionInfo :=
    {| address := targetAddress request;
       ipv6 := bool_decide (addressVersion request = "ipv6");
       videoPort := port (p_video request);
       videoReturnPort := videoReturnPort';
       videoCryptoSuite := srtpCryptoSuite (p_video request);
       videoSRTP := srtp_key (p_video request) ++ srtp_salt (p_video request);
       videoSSRC := videoSSRC';
       audioPort := port (p_audio request);
       audioReturnPort := audioReturnPort';
       audioCryptoSuite := srtpCryptoSuite (p_audio request);
       audioSRTP := srtp_key (p_audio request) ++ srtp_salt (p_audio request);
       audioSSRC := audioSSRC' |} in
  let response :=
    {| r_video := {| r_port := videoReturnPort'; r_ssrc := videoSSRC';
                     r_srtp_key := srtp_key (p_video request);
                     r_srtp_salt := srtp_salt (p_video request) |};
       r_audio := {| r_port := audioReturnPort'; r_ssrc := audioSSRC';
                     r_srtp_key := srtp_key (p_audio request);
                     r_srtp_salt := srtp_salt (p_audio request) |} |} in
  let s := set_pendingSessions
             (<[p_sessionID request := sessionInfo]> (pendingSessions s)) s in
  perform (prepared cb response) s.

(** public stopStream(sessionId) *)
Definition stopStream (throws : Effect → bool) (sessionId : string) (s : State)
    : State :=
  let s := perform (log Info ("Stopping session with id: " +:+ sessionId)) s in
  let s :=
    match pendingSessions s !! sessionId with
    | Some _ => set_pendingSessions (delete sessionId (pendingSessions s)) s
    | None => s
    end in
  match ongoingSessions s !! sessionId with
  | Some r =>
      let session := default emptySession (objects s !! r) in
      let s :=
        match timeout session with
        | Some t => perform (clearTimeout t) s
        | None => s
        end in
      let s := try_block throws
                 (optional stop (mainProcess_video session)
                  ++ optional stop (mainProcess_audio session))
                 "Error occurred terminating main FFmpeg process: " s in
      let s := try_block throws
                 (optional socket_close (vsocket session)
                  ++ optional socket_close (asocket session))
                 "Error occurred closing socket: " s in
      let s := try_block throws
                 (optional pipe_close (uVideoStream session)
                  ++ optional pipe_close (uAudioStream session))
                 "Error occurred Universal Stream: " s in
      let s := try_block throws
                 [stopStationLivestream (device_serial (env s))]
                 "Error occurred terminating Eufy Station livestream: " s in
      let s := set_ongoingSessions (delete sessionId (ongoingSessions s)) s in
      perform (log Info "Stopped video stream.") s
  | None => perform (log Debug "No session to stop.") s
  end.

(** private async getLocalLiveStream(): the promise executor.  A call
    that throws inside it rejects the promise; otherwise a listener for
    the station's 'livestream start' event is registered (with [on], so
    it stays registered). *)
Definition getLocalLiveStream (throws : Effect → bool) (s : State) : State * nat :=
  let '(p, s) := fresh s in
  let lookup := getStationById (station_serial (env s)) in
  let s := perform lookup s in
  if throws lookup then (settle p (Rejected "getStationById") s, p)
  else
    let start := startStationLivestream (device_serial (env s)) in
    let s := perform start s in
    if throws start then (settle p (Rejected "startStationLivestream") s, p)
    else (set_stationListeners (stationListeners s ++ [p]) s, p).

(** The station emits 'livestream start' for the device with serial
    [serial]: every registered listener runs. *)
Definition onLivestreamStart (serial : string) (sd : StationStream) (s : State)
    : State :=
  foldl
    (fun s p =>
       if decide (serial = device_serial (env s)) then
         settle p (Resolved sd) (set_stationStream (Some sd) s)
       else s)
    s (stationListeners s).

(** The ffmpeg arguments of the video process, before the empty ones are
    filtered out. *)
Definition ffmpegArgs_video
    (e : Env) (p : EncodeParameters) (sd : StationStream) (u : nat)
    (request : StartStreamRequest) (sessionInfo : SessionInfo) : list string :=
  let cfg := videoConfig e in
  [ "";
    "-use_wallclock_as_timestamps 1";
    (if bool_decide (videoCodec (metadata sd) = 0) then "-f h264" else "");
    "-r " +:+ str (videoFPS (metadata sd));
    "-i " +:+ url e u;
    (if truthy (mapvideo cfg) then "-map " +:+ default "" (mapvideo cfg)
     else "-an -sn -dn");
    "-codec:v " +:+ e_vcodec p;
    "-pix_fmt yuv420p";
    "-color_range mpeg";
    (if bool_decide (0 < e_fps p) then "-r " +:+ str (e_fps p) else "");
    (if truthy (e_encoderOptions p) then default "" (e_encoderOptions p) else "");
    (if truthy (r_videoFilter (e_resolution p))
     then "-filter:v " +:+ default "" (r_videoFilter (e_resolution p)) else "");
    (if bool_decide (0 < e_videoBitrate p)
     then "-b:v " +:+ str (e_videoBitrate p) +:+ "k" else "");
    "-payload_type " +:+ str (v_pt (video request));
    "-ssrc " +:+ str (videoSSRC sessionInfo);
    "-f rtp";
    "-srtp_out_suite AES_CM_128_HMAC_SHA1_80";
    "-srtp_out_params " +:+ base64 (videoSRTP sessionInfo);
    "srtp://" +:+ address sessionInfo +:+ ":" +:+ str (videoPort sessionInfo)
      +:+ "?rtcpport=" +:+ str (videoPort sessionInfo)
      +:+ "&pkt_size=" +:+ str (e_mtu p);
    "-loglevel " +:+ (if bool_decide (1 ≤ enableDetailedLogging e)
                      then "+verbose" else "error");
    "-progress pipe:1" ].

(** The ffmpeg arguments of the audio process for a supported codec. *)
Definition ffmpegArgs_audio
    (e : Env) (ua : nat) (request : StartStreamRequest)
    (sessionInfo : SessionInfo) : list string :=
  let cfg := videoConfig e in
  let a := audio request in
  [ "";
    "-i " +:+ url e ua;
    (if truthy (mapaudio cfg) then "-map " +:+ default "" (mapaudio cfg)
     else "-vn -sn -dn");
    (if bool_decide (a_codec a = OPUS)
     then "-codec:a libopus -application lowdelay"
     else "-codec:a libfdk_aac -profile:a aac_eld");
    "-flags +global_header";
    "-ar " +:+ str (a_sample_rate a) +:+ "k";
    "-b:a " +:+ str (a_max_bit_rate a) +:+ "k";
    "-ac " +:+ str (a_channel a);
    "-payload_type " +:+ str (a_pt a);
    "-ssrc " +:+ str (audioSSRC sessionInfo);
    "-f rtp";
    "-srtp_out_suite AES_CM_128_HMAC_SHA1_80";
    "-srtp_out_params " +:+ base64 (audioSRTP sessionInfo);
    "srtp://" +:+ address sessionInfo +:+ ":" +:+ str (audioPort sessionInfo)
      +:+ "?rtcpport=" +:+ str (audioPort sessionInfo) +:+ "&pkt_size=188";
    "-loglevel " +:+ (if bool_decide (1 ≤ enableDetailedLogging e)
                      then "+verbose" else "error");
    "-progress pipe:1" ].

(** [args.filter(el => el)]: the non-empty arguments. *)
Definition clean (args : list string) : list string :=
  List.filter (fun el => negb (String.eqb el "")) args.

(** private async startStream(request, callback), up to its first
    [await]: the upstream is asked for.  When the acquisition is rejected
    the [catch] clause runs and the method ends; otherwise the method is
    suspended on the promise that is returned. *)
Definition startStream
    (throws : Effect → bool) (request : StartStreamRequest) (cb : nat) (s : State)
    : State * option nat :=
  let '(s, p) := getLocalLiveStream throws s in
  match promises s !! p with
  | Some (Rejected err) =>
      (perform (log Error (cameraName (env s)
                           +:+ " Unable to start the livestream: " +:+ err)) s,
       None)
  | _ => (s, Some p)
  end.

(** [startStream] from the moment the upstream promise resolved with
    [sd] up to the six-second pause before the audio part.  The result
    carries what the rest of the method keeps in its local variables: the
    session information read here and the reference of the active session
    object; it is [None] when the method ended in the
    'Error finding session information' branch. *)
Definition startStream_resolved
    (request : StartStreamRequest) (cb : nat) (sd : StationStream) (s : State)
    : State * option (SessionInfo * nat) :=
  let e := env s in
  let s := perform (log Debug "ReqHK:") s in
  let s := perform (log Debug "ReqEufy:") s in
  let '(u, s) := fresh s in
  let s := perform (StreamInput u (videostream sd) (cameraName e +:+ "_video")) s in
  match pendingSessions s !! sessionID request with
  | Some sessionInfo =>
      let p := encodeParameters (videoConfig e) (video request) in
      let s := perform
                 (log Debug
                    ("Video stream requested: " +:+ str (v_width (video request))
                     +:+ " x " +:+ str (v_height (video request)) +:+ ", "
                     +:+ str (v_fps (video request)) +:+ " fps, "
                     +:+ str (v_max_bit_rate (video request)) +:+ " kbps")) s in
      let s := perform
                 (log Info (starting_message (videoConfig e) p (audio request))) s in
      let args := clean (ffmpegArgs_video e p sd u request sessionInfo) in
      let '(a, s) := fresh s in
      let '(vs, s) := fresh s in
      let s := perform (createSocket vs (if ipv6 sessionInfo then "udp6" else "udp4")) s in
      let s := perform (bind vs (videoReturnPort sessionInfo)) s in
      let '(vp, s) := fresh s in
      let s := perform
                 (FfmpegProcess vp (cameraName e +:+ "_video")
                    (sessionID request) args (Some cb)) s in
      let s := set_objects
                 (<[a := {| mainProcess_video := Some vp;
                            mainProcess_audio := None; timeout := None;
                            vsocket := Some vs; asocket := None;
                            uVideoStream := Some u; uAudioStream := None |}]>
                    (objects s)) s in
      let '(t, s) := fresh s in
      let s := perform (setTimeout t 6000%float) s in
      (s, Some (sessionInfo, a))
  | None =>
      let s := perform (log Error "Error finding session information.") s in
      (perform (callback cb (Some "Error finding session information")) s, None)
  end.

(** Is the requested audio codec one the method builds a process for? *)
Definition supported (c : AudioStreamingCodecType) : bool :=
  bool_decide (c = OPUS) || bool_decide (c = AAC_ELD).

(** [startStream] after the six-second pause, first the audio part:
    the audio pipe is opened and, for a supported codec, the audio socket
    and process are created and recorded in the session object [a]. *)
Definition startStream_audio
    (request : StartStreamRequest) (sd : StationStream)
    (sessionInfo : SessionInfo) (a : nat) (s : State) : State :=
  let e := env s in
  let '(ua, s) := fresh s in
  let s := perform (StreamInput ua (audiostream sd) (cameraName e +:+ "_audio")) s in
  if supported (a_codec (audio request)) then
    let args := clean (ffmpegArgs_audio e ua request sessionInfo) in
    let '(sock, s) := fresh s in
    let s := perform (createSocket sock (if ipv6 sessionInfo then "udp6" else "udp4")) s in
    let s := perform (bind sock (audioReturnPort sessionInfo)) s in
    let '(ap, s) := fresh s in
    let s := perform
               (FfmpegProcess ap (cameraName e +:+ "_audio")
                  (sessionID request) args None) s in
    let session := default emptySession (objects s !! a) in
    set_objects
      (<[a := {| mainProcess_video := mainProcess_video session;
                 mainProcess_audio := Some ap;
                 timeout := timeout session;
                 vsocket := vsocket session;
                 asocket := Some sock;
                 uVideoStream := uVideoStream session;
                 uAudioStream := Some ua |}]> (objects s)) s
  else
    perform (log Error ("Unsupported audio codec requested: "
                        +:+ codec_string (a_codec (audio request)))) s.

(** [startStream] after the six-second pause: the audio part, then the
    registration of the session.  [sessionInfo] and [a] are the local
    variables the first part left. *)
Definition startStream_delayed
    (throws : Effect → bool) (request : StartStreamRequest) (sd : StationStream)
    (sessionInfo : SessionInfo) (a : nat) (s : State) : State :=
  let s := startStream_audio request sd sessionInfo a s in
  match pendingSessions s !! sessionID request with
  | Some _ =>
      let s := set_ongoingSessions
                 (<[sessionID request := a]> (ongoingSessions s)) s in
      set_pendingSessions (delete (sessionID request) (pendingSessions s)) s
  | None =>
      let s := set_ongoingSessions
                 (<[sessionID request := a]> (ongoingSessions s)) s in
      let s := perform
                 (log Info "pendingSession has been deleted. Add it to ongoingSession and end it immediately.") s in
      stopStream throws (sessionID request) s
  end.

(** The 'error' listener of a return socket. *)
Definition onSocketError
    (throws : Effect → bool) (request : StartStreamRequest) (s : State) : State :=
  let s := perform (log Error "Socket error: ") s in
  stopStream throws (sessionID request) s.

(** The two tracks of a session; each has its return socket. *)
Inductive Track := VideoTrack | AudioTrack.

(** [request.video.rtcp_interval] and [request.audio.rtcp_interval]: the
    RTCP interval of a track in seconds, a floating-point number. *)
Definition rtcp_interval (track : Track) (request : StartStreamRequest) : float :=
  match track with
  | VideoTrack => v_rtcp_interval (video request)
  | AudioTrack => a_rtcp_interval (audio request)
  end.

(** The word the watchdog of a track logs for it. *)
Definition track_name (track : Track) : string :=
  match track with
  | VideoTrack => "video"
  | AudioTrack => "audio"
  end.

(** The 'message' listener of the return socket of [track], installed by
    [startStream] for [request] on the session object [a]: the one
    watchdog of the session is re-armed for five times the RTCP interval
    of the track. *)
Definition onSocketMessage
    (track : Track) (request : StartStreamRequest) (a : nat) (s : State) : State :=
  let session := default emptySession (objects s !! a) in
  let s :=
    match timeout session with
    | Some t => perform (clearTimeout t) s
    | None => s
    end in
  let '(t, s) := fresh s in
  let s := perform (setTimeout t (rtcp_interval track request * 5 * 1000)%float) s in
  set_objects
    (<[a := {| mainProcess_video := mainProcess_video session;
               mainProcess_audio := mainProcess_audio session;
               timeout := Some t;
               vsocket := vsocket session; asocket := asocket session;
               uVideoStream := uVideoStream session;
               uAudioStream := uAudioStream session |}]> (objects s)) s.

(** The watchdog of the [track] socket fires. *)
Definition onInactive
    (throws : Effect → bool) (track : string) (request : StartStreamRequest)
    (s : State) : State :=
  let s := perform
             (log Info ("Device appears to be inactive. Stopping "
                        +:+ track +:+ " stream.")) s in
  let s := perform (forceStopStreamingSession (sessionID request)) s in
  stopStream throws (sessionID request) s.

(** handleStreamRequest for a STOP request *)
Definition handleStopRequest
    (throws : Effect → bool) (sessionId : string) (cb : nat) (s : State) : State :=
  let s := perform (log Info "Receive Apple HK Stop request") s in
  let s := stopStream throws sessionId s in
  perform (callback cb None) s.

(** handleStreamRequest for a RECONFIGURE request *)
Definition handleReconfigureRequest (cb : nat) (s : State) : State :=
  let s := perform (log Debug "Received request to reconfigure (Ignored)") s in
  perform (callback cb None) s.

(** fetchSnapshot(snapFilter), up to the [await] inside the promise
    executor.  The result is the promise handed to the caller and, when
    the executor is suspended, the upstream promise it waits for. *)
Definition fetchSnapshot
    (throws : Effect → bool) (snapFilter' : option string) (s : State)
    : State * nat * option nat :=
  let '(q, s) := fresh s in
  let '(s, p) := getLocalLiveStream throws s in
  match promises s !! p with
  | Some (Rejected err) =>
      let s := perform (log Error err) s in
      (settle q (Rejected "Failed to fetch snapshot.") s, q, None)
  | _ => (s, q, Some p)
  end.

(** [fetchSnapshot] once the upstream promise resolved: the snapshot
    ffmpeg process is spawned on the video stream.  The result is the
    process. *)
Definition fetchSnapshot_resolved
    (snapFilter' : option string) (sd : StationStream) (s : State)
    : State * nat :=
  let e := env s in
  let s := perform (log Debug "Received local livestream.") s in
  let ffmpegArgs :=
    "-probesize 3000 -analyzeduration 0 -ss 00:00:00.500 -i pipe: -frames:v 1 -c:v copy"
    +:+ (if truthy snapFilter' then " -filter:v " +:+ default "" snapFilter' else "")
    +:+ " -f image2 -" +:+ " -hide_banner" +:+ " -loglevel "
    +:+ (if bool_decide (1 ≤ enableDetailedLogging e) then "+verbose" else "error") in
  let s := perform
             (log Debug ("Snapshot command: " +:+ videoProcessor e
                         +:+ " " +:+ ffmpegArgs)) s in
  let '(proc, s) := fresh s in
  (perform (spawn proc (videoProcessor e +:+ " " +:+ ffmpegArgs)) s, proc).

(** The 'close' listener of the snapshot process: [q] is the promise of
    the fetch, [snapshotBuffer] what the process wrote, [startTime] and
    [now] the two clock readings in milliseconds.  The result is the
    timer that expires the cache. *)
Definition fetchSnapshot_close
    (q : nat) (startTime now : Z) (snapshotBuffer : Buffer) (s : State)
    : State * nat :=
  let s :=
    if bool_decide (0 < length snapshotBuffer)%nat
    then settle q (Fetched snapshotBuffer) s
    else settle q (Rejected "Failed to fetch snapshot.") s in
  let s := perform (stopStationLivestream (device_serial (env s))) s in
  let '(t, s) := fresh s in
  let s := perform (setTimeout t (3 * 1000)%float) s in
  let lvl :=
    if bool_decide (now - startTime < 5000) then Debug
    else if bool_decide (now - startTime < 22000) then Warn else Error in
  (perform (log lvl "Fetching snapshot took ") s, t).

(** The timer set by [fetchSnapshot_close] fires. *)
Definition snapshotExpired (s : State) : State :=
  let s := perform (log Debug "Setting snapshotPromise to undefined.") s in
  set_snapshotPromise None s.

(** async handleSnapshotRequest(request, callback), up to its [await]:
    the promise it waits for and, when a fetch was started and is
    suspended, the upstream promise of that fetch. *)
Definition handleSnapshotRequest
    (throws : Effect → bool) (request : SnapshotRequest) (s : State)
    : State * nat * option nat :=
  let s := perform (log Debug "handleSnapshotRequest") s in
  let s := perform
             (log Debug ("snapshotPromise: "
                         +:+ match snapshotPromise s with
                             | Some _ => "true"
                             | None => "false"
                             end)) s in
  let resolution :=
    determineResolution (videoConfig (env s))
      (s_width request) (s_height request) true in
  let s := perform
             (log Debug ("Snapshot requested: " +:+ str (s_width request)
                         +:+ " x " +:+ str (s_height request))) s in
  match snapshotPromise s with
  | Some q => (s, q, None)
  | None => fetchSnapshot throws (snapFilter resolution) s
  end.

(** [handleSnapshotRequest] once the awaited promise resolved with
    [snapshot]: the resize process is spawned.  [cached] is the local
    [cachedSnapshot]. *)
Definition handleSnapshotRequest_resolved
    (request : SnapshotRequest) (cached : bool) (snapshot : Buffer) (s : State)
    : State * nat :=
  let e := env s in
  let resolution :=
    determineResolution (videoConfig e) (s_width request) (s_height request) true in
  let s := perform
             (log Debug ("snapshot byte lenght: "
                         +:+ str (Z.of_nat (length snapshot)))) s in
  let s := perform
             (log Debug ("Sending snapshot: "
                         +:+ or_native (width resolution) "native" +:+ " x "
                         +:+ or_native (height resolution) "native"
                         +:+ if cached then " (cached)" else "")) s in
  let ffmpegArgs :=
    "-i pipe:" +:+ " -frames:v 1"
    +:+ (if truthy (resizeFilter resolution)
         then " -filter:v " +:+ default "" (resizeFilter resolution) else "")
    +:+ " -f image2 -" in
  let s := perform
             (log Debug ("Resize command: " +:+ videoProcessor e
                         +:+ " " +:+ ffmpegArgs)) s in
  let '(proc, s) := fresh s in
  (perform (spawn proc (videoProcessor e +:+ " " +:+ ffmpegArgs)) s, proc).

(** [handleSnapshotRequest] once the resize process closed. *)
Definition handleSnapshotRequest_resized (cb : nat) (resized : Buffer) (s : State)
    : State :=
  perform (snapshotCallback cb (Some resized)) s.

(** The [catch] clause of [handleSnapshotRequest]. *)
Definition handleSnapshotRequest_rejected (cb : nat) (err : string) (s : State)
    : State :=
  let s := perform (log Error err) s in
  perform (snapshotCallback cb None) s.

(** Is this effect a start command to the client? *)
Definition is_start (e : Effect) : bool :=
  match e with
  | startStationLivestream _ => true
  | _ => false
  end.

(** The number of start commands in an effect log. *)
Definition starts (es : list Effect) : nat :=
  length (List.filter is_start es).

(** No call throws. *)
Definition reliable : Effect → bool := fun _ => false.

(** The allocator invariant: no promise is known under an identity that
    has not been drawn yet. *)
Definition allocated (s : State) : Prop :=
  ∀ p : nat, (next s ≤ p)%nat → promises s !! p = None.

(** *** A worked scenario *)

Definition door_config : VideoConfig :=
  {| maxWidth := Some 1280; maxHeight := None; maxFPS := Some 15;
     maxBitrate := Some 300; forceMax := true; vcodec := None;
     packetSize := None; encoderOptions := None; videoFilter := None;
     mapvideo := None; mapaudio := None; cfg_audio := true; debug := false |}.

Definition door : Env :=
  {| cameraName := "Door"; videoProcessor := "ffmpeg";
     eufyPath := "/var/lib/homebridge/eufysecurity";
     device_serial := "T8113"; station_serial := "T8010";
     enableDetailedLogging := 0; unbridge := false;
     videoConfig := door_config;
     url := fun n => "unix:" +:+ pretty n |}.

Definition door_track : PrepareTrack :=
  {| port := 5000; srtpCryptoSuite := 0;
     srtp_key := [Init.Byte.x4d]; srtp_salt := [Init.Byte.x61; Init.Byte.x6e] |}.

Definition prepare_A : PrepareStreamRequest :=
  {| p_sessionID := "A"; targetAddress := "10.0.0.2"; addressVersion := "ipv4";
     p_video := door_track; p_audio := door_track |}.

Definition start_A (codec : AudioStreamingCodecType) : StartStreamRequest :=
  {| sessionID := "A";
     video := {| v_width := 1920; v_height := 1080; v_fps := 30;
                 v_max_bit_rate := 800; v_pt := 99; v_rtcp_interval := 0.5%float |};
     audio := {| a_codec := codec; a_sample_rate := 16; a_max_bit_rate := 24;
                 a_channel := 1; a_pt := 110; a_rtcp_interval := 0.5%float |} |}.

Definition upstream : StationStream :=
  {| station := "T8010"; channel := 0;
     metadata := {| videoCodec := 0; videoFPS := 15 |};
     videostream := 100; audiostream := 101 |}.

(** Session "A" is prepared. *)
Definition prepared_A : State :=
  prepareStream prepare_A 1 6000 11 6002 22 (new door).

(** Session "A" is prepared and started, the station has answered, and
    the method pauses before its audio part. *)
Definition paused_A (codec : AudioStreamingCodecType) : State :=
  (startStream_resolved (start_A codec) 2 upstream
     (onLivestreamStart "T8113" upstream
        (startStream reliable (start_A codec) 2 prepared_A).1)).1.

(** The session information [startStream] read for "A". *)
Definition info_A : SessionInfo :=
  {| address := "10.0.0.2"; ipv6 := false;
     videoPort := 5000; videoReturnPort := 6000; videoCryptoSuite := 0;
     videoSRTP := [Init.Byte.x4d; Init.Byte.x61; Init.Byte.x6e];
     videoSSRC := 11;
     audioPort := 5000; audioReturnPort := 6002; audioCryptoSuite := 0;
     audioSRTP := [Init.Byte.x4d; Init.Byte.x61; Init.Byte.x6e];
     audioSSRC := 22 |}.

(** Session "A" after the whole of [startStream]; its session object has
    the reference 2. *)
Definition running_A (codec : AudioStreamingCodecType) : State :=
  startStream_delayed reliable (start_A codec) upstream info_A 2 (paused_A codec).

(** Stopping the video process of "A" (process 4) throws. *)
Definition video_stop_throws (e : Effect) : bool :=
  match e with
  | stop 4 => true
  | _ => false
  end.

(** The station is unknown to the platform: looking it up throws. *)
Definition station_unknown (e : Effect) : bool :=
  match e with
  | getStationById _ => true
  | _ => false
  end.


(** *** Runs of turns *)

(** The filters the configuration lists, as [determineResolution] splits
    them. *)
Definition configuredFilters (cfg : VideoConfig) : list string :=
  match videoFilter cfg with
  | Some f => split "," f
  | None => []
  end.

(** One turn of the event loop on the delegate: a request of HomeKit, an
    event of the station, of a socket, of a timer or of a child process,
    or the continuation of a suspended method.  The arguments of a
    continuation are not tied to the turn that suspended it, so the runs
    below include every interleaving the event loop allows. *)
Inductive Op :=
| Prepare (request : PrepareStreamRequest) (cb : nat)
    (videoReturnPort' videoSSRC' audioReturnPort' audioSSRC' : Z)
| Start (request : StartStreamRequest) (cb : nat)
| StartResolved (request : StartStreamRequest) (cb : nat) (sd : StationStream)
| StartDelayed (request : StartStreamRequest) (sd : StationStream)
    (sessionInfo : SessionInfo) (a : nat)
| Stop (sessionId : string) (cb : nat)
| Reconfigure (cb : nat)
| LivestreamStart (serial : string) (sd : StationStream)
| SocketError (request : StartStreamRequest)
| SocketMessage (track : Track) (request : StartStreamRequest) (a : nat)
| Inactive (track : string) (request : StartStreamRequest)
| Snapshot (request : SnapshotRequest)
| SnapshotUpstream (snapFilter' : option string) (sd : StationStream)
| SnapshotClosed (q : nat) (startTime now : Z) (snapshotBuffer : Buffer)
| SnapshotExpired
| SnapshotFetched (request : SnapshotRequest) (cached : bool) (snapshot : Buffer)
| SnapshotResized (cb : nat) (resized : Buffer)
| SnapshotRejected (cb : nat) (err : string).

Definition step (throws : Effect → bool) (op : Op) (s : State) : State :=
  match op with
  | Prepare request cb vrp vssrc arp assrc =>
      prepareStream request cb vrp vssrc arp assrc s
  | Start request cb => (startStream throws request cb s).1
  | StartResolved request cb sd => (startStream_resolved request cb sd s).1
  | StartDelayed request sd sessionInfo a =>
      startStream_delayed throws request sd sessionInfo a s
  | Stop sessionId cb => handleStopRequest throws sessionId cb s
  | Reconfigure cb => handleReconfigureRequest cb s
  | LivestreamStart serial sd => onLivestreamStart serial sd s
  | SocketError request => onSocketError throws request s
  | SocketMessage track request a => onSocketMessage track request a s
  | Inactive track request => onInactive throws track request s
  | Snapshot request => (handleSnapshotRequest throws request s).1.1
  | SnapshotUpstream snapFilter' sd => (fetchSnapshot_resolved snapFilter' sd s).1
  | SnapshotClosed q startTime now snapshotBuffer =>
      (fetchSnapshot_close q startTime now snapshotBuffer s).1
  | SnapshotExpired => snapshotExpired s
  | SnapshotFetched request cached snapshot =>
      (handleSnapshotRequest_resolved request cached snapshot s).1
  | SnapshotResized cb resized => handleSnapshotRequest_resized cb resized s
  | SnapshotRejected cb err => handleSnapshotRequest_rejected cb err s
  end.

Definition run (throws : Effect → bool) (ops : list Op) (s : State) : State :=
  foldl (fun s op => step throws op s) s ops.

(** Packets arrive, one after the other, on the return sockets of the
    session object [a] that [startStream] set up for [request]; [tracks]
    tells for each packet on which track's socket. *)
Definition onSocketMessages
    (tracks : list Track) (request : StartStreamRequest) (a : nat) (s : State)
    : State :=
  foldl (fun s track => onSocketMessage track request a s) s tracks.

(** The start requests and snapshot requests among the turns. *)
Definition requests (ops : list Op) : nat :=
  length (List.filter
            (fun op => match op with Start _ _ | Snapshot _ => true | _ => false end)
            ops).

(** 1 for a start request or a snapshot request, 0 for any other turn. *)
Definition is_request (op : Op) : nat :=
  match op with Start _ _ | Snapshot _ => 1%nat | _ => 0%nat end.

(** Modelled on the spec's words for the comparison with
    [encodeParameters]: "clamping applies only when a maximum is
    configured and either force maximum is enabled or the requested value
    exceeds the maximum". *)
Definition clamp_spec (maximum : option Z) (force : bool) (requested : Z) : Z :=
  match maximum with
  | Some m => if force || bool_decide (requested > m) then m else requested
  | None => requested
  end.

(** What one [try] block of [stopStream] adds to the effect log. *)
Fixpoint attempted
    (throws : Effect → bool) (calls : list Effect) (msg : string) : list Effect :=
  match calls with
  | [] => []
  | c :: rest =>
      c :: if throws c then [log Error msg] else attempted throws rest msg
  end.

(** What the four [try] blocks of [stopStream] add to the effect log for
    the session object [session]. *)
Definition released
    (throws : Effect → bool) (session : ActiveSession) (serial : string)
    : list Effect :=
  optional clearTimeout (timeout session)
  ++ attempted throws
       (optional stop (mainProcess_video session)
        ++ optional stop (mainProcess_audio session))
       "Error occurred terminating main FFmpeg process: "
  ++ attempted throws
       (optional socket_close (vsocket session)
        ++ optional socket_close (asocket session))
       "Error occurred closing socket: "
  ++ attempted throws
       (optional pipe_close (uVideoStream session)
        ++ optional pipe_close (uAudioStream session))
       "Error occurred Universal Stream: "
  ++ attempted throws [stopStationLivestream serial]
       "Error occurred terminating Eufy Station livestream: ".

(** *** Encode parameters *)

Lemma clamp_spec_code (maximum : option Z) (force : bool) (requested : Z) :
  match maximum with
  | Some m => if force || bool_decide (m < requested) then m else requested
  | None => requested
  end = clamp_spec maximum force requested.
Proof.
  unfold clamp_spec. destruct maximum as [m|]; [|reflexivity].
  destruct force; cbn; [reflexivity|].
  repeat case_bool_decide; lia.
Qed.

Lemma vcodec_copy (cfg : VideoConfig) :
  bool_decide
    ((if truthy (vcodec cfg) then default "" (vcodec cfg) else "libx264") = "copy")
  = bool_decide (vcodec cfg = Some "copy").
Proof.
  destruct (vcodec cfg) as [c|] eqn:E; cbn; [|reflexivity].
  destruct (String.eqb c "") eqn:Ec; cbn.
  - apply String.eqb_eq in Ec. subst c. reflexivity.
  - apply bool_decide_ext. split; congruence.
Qed.

(** C8. The width, height, frame rate and bit rate [startStream] encodes
    with are the requested values clamped as the specification words it
    (a configured maximum replaces the requested value when [forceMax] is
    set or the requested value exceeds it), unless the configured codec is
    "copy": then all four are 0 and no video filter is set, whatever the
    maxima. *)
Theorem encodeParameters_clamps (cfg : VideoConfig) (v : VideoInfo) :
  let p := encodeParameters cfg v in
  let copy := bool_decide (vcodec cfg = Some "copy") in
  width (e_resolution p) =
    (if copy then 0 else clamp_spec (maxWidth cfg) (forceMax cfg) (v_width v))
  ∧ height (e_resolution p) =
    (if copy then 0 else clamp_spec (maxHeight cfg) (forceMax cfg) (v_height v))
  ∧ e_fps p =
    (if copy then 0 else clamp_spec (maxFPS cfg) (forceMax cfg) (v_fps v))
  ∧ e_videoBitrate p =
    (if copy then 0
     else clamp_spec (maxBitrate cfg) (forceMax cfg) (v_max_bit_rate v))
  ∧ r_videoFilter (e_resolution p) =
    (if copy then None
     else r_videoFilter (determineResolution cfg (v_width v) (v_height v) false)).
Proof.
  cbn zeta. unfold encodeParameters. rewrite vcodec_copy.
  destruct (bool_decide (vcodec cfg = Some "copy")); cbn.
  - repeat split.
  - rewrite !clamp_spec_code. repeat split.
Qed.

(** The example of the specification: a forced maximum below the
    requested bit rate is the bit rate used, for every codec but "copy". *)
Lemma forced_maximum_bitrate (cfg : VideoConfig) (v : VideoInfo) (X : Z) :
  maxBitrate cfg = Some X →
  forceMax cfg = true →
  X < v_max_bit_rate v →
  vcodec cfg ≠ Some "copy" →
  e_videoBitrate (encodeParameters cfg v) = X.
Proof.
  intros HX HF _ HC. unfold encodeParameters. rewrite vcodec_copy.
  rewrite bool_decide_eq_false_2 by exact HC. cbn. by rewrite HX, HF.
Qed.

(** With the "copy" codec the start line of the log reports every value
    as unset, and the command line of the video process carries neither a
    frame rate, nor a filter, nor a bit rate. *)
Lemma copy_reported_native
    (e : Env) (v : VideoInfo) (a : AudioInfo) (sd : StationStream) (u : nat)
    (request : StartStreamRequest) (sessionInfo : SessionInfo) :
  vcodec (videoConfig e) = Some "copy" →
  let p := encodeParameters (videoConfig e) v in
  starting_message (videoConfig e) p a =
    "Starting video stream: native x native, native fps, ??? kbps"
    +:+ (if cfg_audio (videoConfig e)
         then " (" +:+ codec_string (a_codec a) +:+ ")" else "")
  ∧ nth_error (ffmpegArgs_video e p sd u request sessionInfo) 9 = Some ""
  ∧ nth_error (ffmpegArgs_video e p sd u request sessionInfo) 11 = Some ""
  ∧ nth_error (ffmpegArgs_video e p sd u request sessionInfo) 12 = Some "".
Proof.
  intros H. cbn zeta. unfold encodeParameters. rewrite vcodec_copy.
  rewrite bool_decide_eq_true_2 by exact H.
  repeat split.
Qed.

(** *** Stopping a session *)

Lemma try_block_spec
    (throws : Effect → bool) (calls : list Effect) (msg : string) : ∀ s : State,
  try_block throws calls msg s
  = set_effects (effects s ++ attempted throws calls msg) s.
Proof.
  induction calls as [|c rest IH]; intros s; cbn.
  - by rewrite app_nil_r.
  - destruct (throws c).
    + unfold perform. cbn. by rewrite <- app_assoc.
    + rewrite IH. unfold perform. cbn. by rewrite <- app_assoc.
Qed.

(** The first call of a block is always made; the second one is made
    when the first did not throw. *)
Lemma attempted_pair
    (throws : Effect → bool) (call : nat → Effect) (x y : option nat)
    (msg : string) :
  (∀ a, x = Some a →
      call a ∈ attempted throws (optional call x ++ optional call y) msg)
  ∧ (∀ b, y = Some b →
      (∀ a, x = Some a → throws (call a) = false) →
      call b ∈ attempted throws (optional call x ++ optional call y) msg).
Proof.
  split.
  - intros a ->. cbn. apply elem_of_cons. by left.
  - intros b -> H. destruct x as [a|]; cbn.
    + rewrite (H a eq_refl). apply elem_of_cons. right.
      apply elem_of_cons. by left.
    + apply elem_of_cons. by left.
Qed.

(** Everything a block adds is one of its calls or the line its [catch]
    clause logs. *)
Lemma attempted_within
    (throws : Effect → bool) (calls : list Effect) (msg : string) (e : Effect) :
  e ∈ attempted throws calls msg → e ∈ calls ∨ e = log Error msg.
Proof.
  induction calls as [|c rest IH]; cbn; intros H.
  - by apply elem_of_nil in H.
  - apply elem_of_cons in H as [->|H].
    + left. apply elem_of_cons. by left.
    + destruct (throws c).
      * apply elem_of_cons in H as [->|H]; [by right|].
        by apply elem_of_nil in H.
      * destruct (IH H) as [?|?]; [left|by right].
        apply elem_of_cons. by right.
Qed.

#[local] Arguments try_block : simpl never.
#[local] Arguments attempted : simpl never.

(** [stopStream] on a session that is registered as ongoing. *)
Lemma stopStream_registered
    (throws : Effect → bool) (id : string) (s : State) (r : nat) :
  ongoingSessions s !! id = Some r →
  stopStream throws id s
  = set_effects
      (effects s
       ++ [log Info ("Stopping session with id: " +:+ id)]
       ++ released throws (default emptySession (objects s !! r))
            (device_serial (env s))
       ++ [log Info "Stopped video stream."])
      (set_ongoingSessions (delete id (ongoingSessions s))
         (set_pendingSessions (delete id (pendingSessions s)) s)).
Proof.
  intros H. unfold stopStream, released. cbn -[lookup delete].
  set (s0 := perform (log Info ("Stopping session with id: " +:+ id)) s).
  assert (P : (match pendingSessions s !! id with
               | Some _ => set_pendingSessions (delete id (pendingSessions s)) s0
               | None => s0
               end) = set_pendingSessions (delete id (pendingSessions s)) s0).
  { destruct (pendingSessions s !! id) eqn:E; [reflexivity|].
    unfold set_pendingSessions. by rewrite (delete_id _ _ E). }
  rewrite P. cbn -[lookup delete]. rewrite H. cbn -[lookup delete].
  rewrite !try_block_spec. cbn -[lookup delete].
  destruct (timeout (default emptySession (objects s !! r)));
    cbn -[lookup delete]; unfold set_effects, perform; cbn -[lookup delete];
    rewrite <- ?app_assoc; cbn -[lookup delete]; rewrite <- ?app_assoc;
    reflexivity.
Qed.

(** [stopStream] on a session that is not registered as ongoing. *)
Lemma stopStream_unregistered
    (throws : Effect → bool) (id : string) (s : State) :
  ongoingSessions s !! id = None →
  stopStream throws id s
  = perform (log Debug "No session to stop.")
      (set_pendingSessions (delete id (pendingSessions s))
         (perform (log Info ("Stopping session with id: " +:+ id)) s)).
Proof.
  intros H. unfold stopStream. cbn -[lookup delete].
  set (s0 := perform (log Info ("Stopping session with id: " +:+ id)) s).
  assert (P : (match pendingSessions s !! id with
               | Some _ => set_pendingSessions (delete id (pendingSessions s)) s0
               | None => s0
               end) = set_pendingSessions (delete id (pendingSessions s)) s0).
  { destruct (pendingSessions s !! id) eqn:E; [reflexivity|].
    unfold set_pendingSessions. by rewrite (delete_id _ _ E). }
  rewrite P. cbn -[lookup delete]. by rewrite H.
Qed.

(** After [stopStream] the session is in neither table. *)
Lemma stopStream_removes (throws : Effect → bool) (id : string) (s : State) :
  pendingSessions (stopStream throws id s) !! id = None
  ∧ ongoingSessions (stopStream throws id s) !! id = None.
Proof.
  destruct (ongoingSessions s !! id) as [r|] eqn:E.
  - rewrite (stopStream_registered throws id s r E). cbn -[lookup delete].
    split; apply lookup_delete_eq.
  - rewrite (stopStream_unregistered throws id s E). cbn -[lookup delete].
    split; [apply lookup_delete_eq|exact E].
Qed.

(** C7. [stopStream] is idempotent and, across the kinds of resources,
    resilient.  After one call the session is in neither table, and a
    second call (whatever throws then) only writes its two log lines;
    on a session that is not ongoing the first call, too, only logs and
    drops the pending entry.  On an ongoing session the stop command to
    the station is always sent, and the video process, the video socket
    and the video pipe are always asked to stop or close, whichever other
    call throws; the audio process, socket and pipe are asked when the
    video call of the same [try] block did not throw. *)
Theorem stopStream_idempotent_across_kinds
    (throws throws' : Effect → bool) (id : string) (s : State) :
  let s1 := stopStream throws id s in
  pendingSessions s1 !! id = None
  ∧ ongoingSessions s1 !! id = None
  ∧ stopStream throws' id s1
    = perform (log Debug "No session to stop.")
        (perform (log Info ("Stopping session with id: " +:+ id)) s1)
  ∧ match ongoingSessions s !! id with
    | None =>
        s1 = perform (log Debug "No session to stop.")
               (set_pendingSessions (delete id (pendingSessions s))
                  (perform (log Info ("Stopping session with id: " +:+ id)) s))
    | Some r =>
        let session := default emptySession (objects s !! r) in
        ∃ added,
          effects s1 = effects s ++ added
          ∧ stopStationLivestream (device_serial (env s)) ∈ added
          ∧ (∀ t, timeout session = Some t → clearTimeout t ∈ added)
          ∧ (∀ x, mainProcess_video session = Some x → stop x ∈ added)
          ∧ (∀ x, vsocket session = Some x → socket_close x ∈ added)
          ∧ (∀ x, uVideoStream session = Some x → pipe_close x ∈ added)
          ∧ (∀ y, mainProcess_audio session = Some y →
               (∀ x, mainProcess_video session = Some x → throws (stop x) = false) →
               stop y ∈ added)
          ∧ (∀ y, asocket session = Some y →
               (∀ x, vsocket session = Some x → throws (socket_close x) = false) →
               socket_close y ∈ added)
          ∧ (∀ y, uAudioStream session = Some y →
               (∀ x, uVideoStream session = Some x → throws (pipe_close x) = false) →
               pipe_close y ∈ added)
    end.
Proof.
  cbn zeta. destruct (stopStream_removes throws id s) as [P O].
  split; [exact P|]. split; [exact O|]. split.
  { rewrite (stopStream_unregistered throws' id _ O).
    unfold set_pendingSessions. by rewrite (delete_id _ _ P). }
  destruct (ongoingSessions s !! id) as [r|] eqn:E.
  - rewrite (stopStream_registered throws id s r E). cbn -[lookup delete].
    eexists. split; [reflexivity|]. unfold released.
    set (session := default emptySession (objects s !! r)).
    destruct (attempted_pair throws stop (mainProcess_video session)
                (mainProcess_audio session)
                "Error occurred terminating main FFmpeg process: ") as [V1 A1].
    destruct (attempted_pair throws socket_close (vsocket session)
                (asocket session) "Error occurred closing socket: ") as [V2 A2].
    destruct (attempted_pair throws pipe_close (uVideoStream session)
                (uAudioStream session) "Error occurred Universal Stream: ")
      as [V3 A3].
    repeat split; intros; rewrite ?elem_of_cons, ?elem_of_app;
      unfold attempted at 4; rewrite ?elem_of_cons; eauto 12.
    match goal with H : timeout session = Some _ |- _ => rewrite H end.
    cbn. rewrite elem_of_cons. eauto.
  - exact (stopStream_unregistered throws id s E).
Qed.

(** C7, as the claim words it, fails: session "A" runs a video process
    (4) and an audio process (8); when stopping the video process throws,
    [stopStream] never asks the audio process to stop, although the
    session leaves the table. *)
Lemma video_stop_failure_skips_audio_stop :
  let s := running_A AAC_ELD in
  let s' := stopStream video_stop_throws "A" s in
  ongoingSessions s !! "A" = Some 2%nat
  ∧ mainProcess_audio <$> (objects s !! 2%nat) = Some (Some 8%nat)
  ∧ stop 4 ∈ effects s'
  ∧ (stop 8 ∉ effects s')
  ∧ ongoingSessions s' !! "A" = None.
Proof.
  cbn zeta. split; [reflexivity|]. split; [reflexivity|].
  rewrite !list_elem_of_In. vm_compute.
  split; [|split; [|reflexivity]].
  - repeat (first [left; reflexivity | right]).
  - intuition discriminate.
Qed.

(** *** Starting a session *)

#[local] Arguments encodeParameters : simpl never.
#[local] Arguments ffmpegArgs_video : simpl never.
#[local] Arguments ffmpegArgs_audio : simpl never.
#[local] Arguments starting_message : simpl never.
#[local] Arguments clean : simpl never.
#[local] Arguments str : simpl never.
#[local] Arguments codec_string : simpl never.
#[local] Arguments String.append : simpl never.

(** The first part of [startStream] on a prepared session: the video
    pipe, socket and process are created and recorded in a new session
    object, which is not registered yet. *)
Lemma startStream_resolved_starts_video
    (request : StartStreamRequest) (cb : nat) (sd : StationStream) (s : State)
    (sessionInfo : SessionInfo) :
  pendingSessions s !! sessionID request = Some sessionInfo →
  ∃ s' args,
    startStream_resolved request cb sd s = (s', Some (sessionInfo, S (next s)))
    ∧ objects s' =
        <[S (next s) :=
            {| mainProcess_video := Some (S (S (S (next s))));
               mainProcess_audio := None; timeout := None;
               vsocket := Some (S (S (next s))); asocket := None;
               uVideoStream := Some (next s); uAudioStream := None |}]>
          (objects s)
    ∧ ongoingSessions s' = ongoingSessions s
    ∧ pendingSessions s' = pendingSessions s
    ∧ StreamInput (next s) (videostream sd) (cameraName (env s) +:+ "_video")
        ∈ effects s'
    ∧ createSocket (S (S (next s))) (if ipv6 sessionInfo then "udp6" else "udp4")
        ∈ effects s'
    ∧ FfmpegProcess (S (S (S (next s)))) (cameraName (env s) +:+ "_video")
        (sessionID request) args (Some cb) ∈ effects s'.
Proof.
  intros H. unfold startStream_resolved. cbn -[lookup insert]. rewrite H.
  cbn -[lookup insert]. eexists. eexists. split; [reflexivity|].
  cbn -[lookup insert]. rewrite !elem_of_app, !elem_of_cons.
  repeat split; eauto 12.
Qed.

(** The sibling of the rejected acquisition: when the session
    information is missing, the callback is invoked with an error and no
    session object is created or registered. *)
Lemma startStream_missing_session_reported
    (request : StartStreamRequest) (cb : nat) (sd : StationStream) (s : State) :
  pendingSessions s !! sessionID request = None →
  ∃ s',
    startStream_resolved request cb sd s = (s', None)
    ∧ effects s' =
        effects s
        ++ [log Debug "ReqHK:"; log Debug "ReqEufy:";
            StreamInput (next s) (videostream sd) (cameraName (env s) +:+ "_video");
            log Error "Error finding session information.";
            callback cb (Some "Error finding session information")]
    ∧ objects s' = objects s
    ∧ ongoingSessions s' = ongoingSessions s
    ∧ pendingSessions s' = pendingSessions s.
Proof.
  intros H. unfold startStream_resolved. cbn -[lookup insert]. rewrite H.
  eexists. split; [reflexivity|]. cbn -[lookup insert].
  rewrite <- !app_assoc. repeat split.
Qed.

(** C3. When the upstream acquisition is rejected (here: looking up the
    station throws inside the promise executor), [startStream] ends in
    its [catch] clause: it writes one error line to the log and does not
    invoke the callback; no session is registered and the pending entry
    stays. *)
Theorem startStream_rejection_not_reported
    (throws : Effect → bool) (request : StartStreamRequest) (cb : nat) (s : State) :
  allocated s →
  throws (getStationById (station_serial (env s))) = true →
  let '(s', waiting) := startStream throws request cb s in
  waiting = None
  ∧ effects s' =
      effects s
      ++ [getStationById (station_serial (env s));
          log Error (cameraName (env s)
                     +:+ " Unable to start the livestream: getStationById")]
  ∧ (∀ err, callback cb err ∉ [getStationById (station_serial (env s));
          log Error (cameraName (env s)
                     +:+ " Unable to start the livestream: getStationById")])
  ∧ objects s' = objects s
  ∧ ongoingSessions s' = ongoingSessions s
  ∧ pendingSessions s' = pendingSessions s.
Proof.
  intros A T. unfold startStream, getLocalLiveStream. cbn -[lookup insert].
  rewrite T. unfold settle. cbn -[lookup insert].
  rewrite (A (next s)) by lia. cbn -[lookup insert].
  rewrite lookup_insert_eq. cbn -[lookup insert].
  rewrite <- !app_assoc. repeat split.
  intros err H. rewrite !elem_of_cons in H.
  destruct H as [H|[H|H]]; try discriminate. by apply elem_of_nil in H.
Qed.

(** C3, on the prepared session "A" of a station the platform does not
    know. *)
Lemma startStream_rejection_not_reported_witness :
  let '(s', waiting) := startStream station_unknown (start_A AAC_ELD) 2 prepared_A in
  waiting = None
  ∧ effects s' =
      effects prepared_A
      ++ [getStationById (station_serial (env prepared_A));
          log Error (cameraName (env prepared_A)
                     +:+ " Unable to start the livestream: getStationById")]
  ∧ (∀ err, callback 2 err ∉ [getStationById (station_serial (env prepared_A));
          log Error (cameraName (env prepared_A)
                     +:+ " Unable to start the livestream: getStationById")])
  ∧ objects s' = objects prepared_A
  ∧ ongoingSessions s' = ongoingSessions prepared_A
  ∧ pendingSessions s' = pendingSessions prepared_A.
Proof.
  apply (startStream_rejection_not_reported station_unknown (start_A AAC_ELD) 2
           prepared_A).
  - intros p _. reflexivity.
  - reflexivity.
Defined.

(** Case analysis on a creation effect that occurs in what the audio
    part and [stopStream] added to the log. *)
#[local] Ltac created_in H :=
  repeat match type of H with
    | _ ∨ _ => destruct H as [H|H]
    | _ ∈ _ ++ _ => apply elem_of_app in H
    | _ ∈ attempted _ _ _ => apply attempted_within in H
    | _ ∈ optional _ ?f => destruct f; cbn [optional] in H
    | _ ∈ _ :: _ => apply elem_of_cons in H
    | _ ∈ [] => apply elem_of_nil in H; destruct H
    | False => destruct H
    | _ = _ => first [discriminate H | injection H as -> | injection H]
    end;
  try congruence.

(** The audio part for a codec that is not supported, in whatever state
    the delegate is when the pause ends, as long as the session is still
    pending. *)
Lemma startStream_delayed_unsupported
    (throws : Effect → bool) (request : StartStreamRequest) (sd : StationStream)
    (sessionInfo pending : SessionInfo) (a : nat) (s : State) :
  supported (a_codec (audio request)) = false →
  pendingSessions s !! sessionID request = Some pending →
  let s' := startStream_delayed throws request sd sessionInfo a s in
  effects s' =
    effects s
    ++ [StreamInput (next s) (audiostream sd) (cameraName (env s) +:+ "_audio");
        log Error ("Unsupported audio codec requested: "
                   +:+ codec_string (a_codec (audio request)))]
  ∧ objects s' = objects s
  ∧ ongoingSessions s' = <[sessionID request := a]> (ongoingSessions s)
  ∧ pendingSessions s' = delete (sessionID request) (pendingSessions s).
Proof.
  intros U P. unfold startStream_delayed, startStream_audio.
  cbn -[lookup insert delete]. rewrite U. cbn -[lookup insert delete].
  rewrite P. cbn -[lookup insert delete]. rewrite <- !app_assoc. repeat split.
Qed.

(** C10 (amended). A start request on a prepared session whose audio
    codec is neither OPUS nor AAC_ELD gets a video-only session.  The
    first part of [startStream] opens the video pipe, creates and binds
    the video socket, starts the video process and records the three in a
    new session object.  When the pause ends and the session is still
    pending, in whatever state the delegate is by then, the audio part
    opens the audio pipe, writes one error-level line naming the codec to
    the log and does nothing else: no socket and no process is created,
    nothing is stopped or closed, no session object is changed, and the
    session moves from the pending to the ongoing table.  When nothing
    happened in between, the session registered is the object with the
    video process, socket and pipe and without an audio process, socket
    or pipe. *)
Theorem unsupported_audio_codec_keeps_video
    (throws : Effect → bool) (request : StartStreamRequest) (cb : nat)
    (sd : StationStream) (info : SessionInfo) (s : State) :
  pendingSessions s !! sessionID request = Some info →
  supported (a_codec (audio request)) = false →
  let n := next s in
  let a := (1 + n)%nat in
  let video_only :=
    {| mainProcess_video := Some (3 + n)%nat; mainProcess_audio := None;
       timeout := None; vsocket := Some (2 + n)%nat; asocket := None;
       uVideoStream := Some n; uAudioStream := None |} in
  let unsupported (s' : State) :=
    [StreamInput (next s') (audiostream sd) (cameraName (env s') +:+ "_audio");
     log Error ("Unsupported audio codec requested: "
                +:+ codec_string (a_codec (audio request)))] in
  let s1 := (startStream_resolved request cb sd s).1 in
  let s2 := startStream_delayed throws request sd info a s1 in
  (startStream_resolved request cb sd s).2 = Some (info, a)
  ∧ (∃ started args,
       effects s1 = effects s ++ started
       ∧ StreamInput n (videostream sd) (cameraName (env s) +:+ "_video") ∈ started
       ∧ createSocket (2 + n) (if ipv6 info then "udp6" else "udp4") ∈ started
       ∧ bind (2 + n) (videoReturnPort info) ∈ started
       ∧ FfmpegProcess (3 + n) (cameraName (env s) +:+ "_video")
           (sessionID request) args (Some cb) ∈ started
       ∧ ∀ x, (stop x ∉ started) ∧ (socket_close x ∉ started)
              ∧ (pipe_close x ∉ started))
  ∧ objects s1 = <[a := video_only]> (objects s)
  ∧ (∀ s' pending,
       pendingSessions s' !! sessionID request = Some pending →
       let s2' := startStream_delayed throws request sd info a s' in
       effects s2' = effects s' ++ unsupported s'
       ∧ objects s2' = objects s'
       ∧ ongoingSessions s2' = <[sessionID request := a]> (ongoingSessions s')
       ∧ pendingSessions s2' = delete (sessionID request) (pendingSessions s'))
  ∧ effects s2 = effects s1 ++ unsupported s1
  ∧ ongoingSessions s2 !! sessionID request = Some a
  ∧ objects s2 !! a = Some video_only
  ∧ pendingSessions s2 !! sessionID request = None.
Proof.
  intros P U. cbn zeta. cbn [Nat.add].
  assert (E : ∃ s1 started args,
             startStream_resolved request cb sd s = (s1, Some (info, S (next s)))
             ∧ effects s1 = effects s ++ started
             ∧ started =
                 [log Debug "ReqHK:"; log Debug "ReqEufy:";
                  StreamInput (next s) (videostream sd)
                    (cameraName (env s) +:+ "_video");
                  log Debug
                    ("Video stream requested: " +:+ str (v_width (video request))
                     +:+ " x " +:+ str (v_height (video request)) +:+ ", "
                     +:+ str (v_fps (video request)) +:+ " fps, "
                     +:+ str (v_max_bit_rate (video request)) +:+ " kbps");
                  log Info
                    (starting_message (videoConfig (env s))
                       (encodeParameters (videoConfig (env s)) (video request))
                       (audio request));
                  createSocket (S (S (next s)))
                    (if ipv6 info then "udp6" else "udp4");
                  bind (S (S (next s))) (videoReturnPort info);
                  FfmpegProcess (S (S (S (next s))))
                    (cameraName (env s) +:+ "_video") (sessionID request) args
                    (Some cb);
                  setTimeout (S (S (S (S (next s))))) 6000%float]
             ∧ objects s1 =
                 <[S (next s) :=
                     {| mainProcess_video := Some (S (S (S (next s))));
                        mainProcess_audio := None; timeout := None;
                        vsocket := Some (S (S (next s))); asocket := None;
                        uVideoStream := Some (next s); uAudioStream := None |}]>
                   (objects s)
             ∧ pendingSessions s1 = pendingSessions s).
  { unfold startStream_resolved. cbn -[lookup insert]. rewrite P.
    cbn -[lookup insert]. eexists. eexists. eexists.
    split; [reflexivity|]. cbn -[lookup insert]. rewrite <- !app_assoc.
    repeat split. }
  destruct E as (s1 & started & args & -> & E1 & -> & O1 & P1).
  cbn [fst snd].
  assert (G : ∀ s' pending,
             pendingSessions s' !! sessionID request = Some pending →
             let s2' := startStream_delayed throws request sd info (S (next s)) s' in
             effects s2' =
               effects s'
               ++ [StreamInput (next s') (audiostream sd)
                     (cameraName (env s') +:+ "_audio");
                   log Error ("Unsupported audio codec requested: "
                              +:+ codec_string (a_codec (audio request)))]
             ∧ objects s2' = objects s'
             ∧ ongoingSessions s2' = <[sessionID request := S (next s)]> (ongoingSessions s')
             ∧ pendingSessions s2' = delete (sessionID request) (pendingSessions s')).
  { intros s' pending P'.
    exact (startStream_delayed_unsupported throws request sd info pending
             (S (next s)) s' U P'). }
  split; [reflexivity|]. split.
  { eexists. exists args. split; [exact E1|].
    rewrite !elem_of_cons.
    split; [tauto|]. split; [tauto|]. split; [tauto|]. split; [tauto|].
    intros x. repeat split; intros Q; created_in Q. }
  split; [exact O1|]. split; [exact G|].
  assert (P1' : pendingSessions s1 !! sessionID request = Some info) by congruence.
  destruct (G s1 info P1') as (A & B & C & D). cbn zeta in A, B, C, D.
  split; [exact A|].
  split; [rewrite C; apply lookup_insert_eq|].
  split; [rewrite B, O1; apply lookup_insert_eq|].
  rewrite D. apply lookup_delete_eq.
Qed.

(** C10, on session "A" requested with PCMU audio. *)
Lemma unsupported_audio_codec_keeps_video_witness :
  let s := onLivestreamStart "T8113" upstream
             (startStream reliable (start_A PCMU) 2 prepared_A).1 in
  let request := start_A PCMU in
  let n := next s in
  let a := (1 + n)%nat in
  let video_only :=
    {| mainProcess_video := Some (3 + n)%nat; mainProcess_audio := None;
       timeout := None; vsocket := Some (2 + n)%nat; asocket := None;
       uVideoStream := Some n; uAudioStream := None |} in
  let unsupported (s' : State) :=
    [StreamInput (next s') (audiostream upstream) (cameraName (env s') +:+ "_audio");
     log Error ("Unsupported audio codec requested: "
                +:+ codec_string (a_codec (audio request)))] in
  let s1 := (startStream_resolved request 2 upstream s).1 in
  let s2 := startStream_delayed reliable request upstream info_A a s1 in
  (startStream_resolved request 2 upstream s).2 = Some (info_A, a)
  ∧ (∃ started args,
       effects s1 = effects s ++ started
       ∧ StreamInput n (videostream upstream) (cameraName (env s) +:+ "_video")
           ∈ started
       ∧ createSocket (2 + n) (if ipv6 info_A then "udp6" else "udp4") ∈ started
       ∧ bind (2 + n) (videoReturnPort info_A) ∈ started
       ∧ FfmpegProcess (3 + n) (cameraName (env s) +:+ "_video")
           (sessionID request) args (Some 2%nat) ∈ started
       ∧ ∀ x, (stop x ∉ started) ∧ (socket_close x ∉ started)
              ∧ (pipe_close x ∉ started))
  ∧ objects s1 = <[a := video_only]> (objects s)
  ∧ (∀ s' pending,
       pendingSessions s' !! sessionID request = Some pending →
       let s2' := startStream_delayed reliable request upstream info_A a s' in
       effects s2' = effects s' ++ unsupported s'
       ∧ objects s2' = objects s'
       ∧ ongoingSessions s2' = <[sessionID request := a]> (ongoingSessions s')
       ∧ pendingSessions s2' = delete (sessionID request) (pendingSessions s'))
  ∧ effects s2 = effects s1 ++ unsupported s1
  ∧ ongoingSessions s2 !! sessionID request = Some a
  ∧ objects s2 !! a = Some video_only
  ∧ pendingSessions s2 !! sessionID request = None.
Proof.
  intros s request.
  apply (unsupported_audio_codec_keeps_video reliable request 2 upstream info_A s).
  - reflexivity.
  - reflexivity.
Defined.

(** C10, as the claim words it, fails on the log level: for session "A"
    requested with PCMU audio the effect log holds no warning at all; the
    unsupported codec is reported at error level. *)
Lemma unsupported_audio_codec_not_a_warning :
  (∀ msg, log Warn msg ∉ effects (running_A PCMU))
  ∧ log Error "Unsupported audio codec requested: PCMU" ∈ effects (running_A PCMU).
Proof.
  split.
  - intros msg. rewrite list_elem_of_In. vm_compute. intuition discriminate.
  - rewrite list_elem_of_In. vm_compute.
    repeat (first [left; reflexivity | right]).
Qed.

(** The audio part leaves the two session tables and the readonly fields
    alone. *)
Lemma startStream_audio_frame
    (request : StartStreamRequest) (sd : StationStream)
    (sessionInfo : SessionInfo) (a : nat) (s : State) :
  let s' := startStream_audio request sd sessionInfo a s in
  pendingSessions s' = pendingSessions s
  ∧ ongoingSessions s' = ongoingSessions s
  ∧ env s' = env s.
Proof.
  cbn zeta. unfold startStream_audio. cbn -[lookup insert delete].
  destruct (supported (a_codec (audio request))); repeat split.
Qed.

(** C5. A start whose pending entry has been removed while the method was
    suspended does not leave a session behind.  If the entry is gone when
    the upstream promise resolves, no session object, socket or process is
    created and the callback receives an error.  If it is gone when the
    six-second pause ends, the session is registered and [stopStream] runs
    on it within the same turn: afterwards the session is not in the ongoing table, the
    stop command was sent to the station, the video process, socket and
    pipe were asked to stop or close, and so were the audio process and
    socket created in this part (unless the video call of the same [try]
    block threw). *)
Theorem orphaned_start_torn_down
    (throws : Effect → bool) (request : StartStreamRequest) (cb : nat)
    (sd : StationStream) (s : State) :
  pendingSessions s !! sessionID request = None →
  (∃ s',
      startStream_resolved request cb sd s = (s', None)
      ∧ effects s' =
          effects s
          ++ [log Debug "ReqHK:"; log Debug "ReqEufy:";
              StreamInput (next s) (videostream sd)
                (cameraName (env s) +:+ "_video");
              log Error "Error finding session information.";
              callback cb (Some "Error finding session information")]
      ∧ objects s' = objects s
      ∧ ongoingSessions s' = ongoingSessions s)
  ∧ (∀ (sessionInfo : SessionInfo) (a : nat) (session : ActiveSession),
      objects s !! a = Some session →
      let s' := startStream_delayed throws request sd sessionInfo a s in
      ongoingSessions s' !! sessionID request = None
      ∧ (∃ s0, ongoingSessions s0 !! sessionID request = Some a
               ∧ s' = stopStream throws (sessionID request) s0)
      ∧ ∃ added,
          effects s' = effects s ++ added
          ∧ stopStationLivestream (device_serial (env s)) ∈ added
          ∧ (∀ x, mainProcess_video session = Some x → stop x ∈ added)
          ∧ (∀ x, vsocket session = Some x → socket_close x ∈ added)
          ∧ (∀ x, uVideoStream session = Some x → pipe_close x ∈ added)
          ∧ (∀ y name id args c,
               FfmpegProcess y name id args c ∈ added →
               (∀ x, mainProcess_video session = Some x →
                     throws (stop x) = false) →
               stop y ∈ added)
          ∧ (∀ y type,
               createSocket y type ∈ added →
               (∀ x, vsocket session = Some x →
                     throws (socket_close x) = false) →
               socket_close y ∈ added)).
Proof.
  intros P. split.
  { destruct (startStream_missing_session_reported request cb sd s P)
      as (s' & E & F & O & G & _).
    exists s'. auto. }
  intros sessionInfo a session Ha. cbn zeta.
  unfold startStream_delayed. cbn zeta.
  rewrite (proj1 (startStream_audio_frame request sd sessionInfo a s)), P.
  set (s0 := perform _ (set_ongoingSessions _ _)).
  assert (R : ongoingSessions s0 !! sessionID request = Some a)
    by (subst s0; cbn -[lookup insert delete]; apply lookup_insert_eq).
  split; [apply stopStream_removes|].
  split; [exists s0; split; [exact R|reflexivity]|].
  rewrite (stopStream_registered throws _ _ a R). subst s0.
  unfold startStream_audio. cbn -[lookup insert delete].
  destruct (supported (a_codec (audio request))); cbn -[lookup insert delete];
    rewrite ?lookup_insert_eq, ?Ha; cbn -[lookup insert delete].
  all: rewrite <- !app_assoc; eexists; (split; [reflexivity|]).
  all: unfold released; cbn -[lookup insert delete].
  - (* the audio part ran: its process and socket are released with the rest *)
    destruct (attempted_pair throws stop (mainProcess_video session)
                (Some (S (S (next s))))
                "Error occurred terminating main FFmpeg process: ") as [V1 A1].
    destruct (attempted_pair throws socket_close (vsocket session)
                (Some (S (next s))) "Error occurred closing socket: ") as [V2 A2].
    destruct (attempted_pair throws pipe_close (uVideoStream session)
                (Some (next s)) "Error occurred Universal Stream: ") as [V3 _].
    cbn [optional] in V1, A1, V2, A2, V3.
    set (B1 := attempted throws (_ ++ [stop _]) _) in *.
    set (B2 := attempted throws (_ ++ [socket_close _]) _) in *.
    set (B3 := attempted throws (_ ++ [pipe_close _]) _) in *.
    repeat split.
    + rewrite !elem_of_cons, !elem_of_app. unfold attempted.
      rewrite !elem_of_cons. tauto.
    + intros x Hx. specialize (V1 x Hx).
      rewrite !elem_of_cons, !elem_of_app. tauto.
    + intros x Hx. specialize (V2 x Hx).
      rewrite !elem_of_cons, !elem_of_app. tauto.
    + intros x Hx. specialize (V3 x Hx).
      rewrite !elem_of_cons, !elem_of_app. tauto.
    + intros y name id args c Hc Hv.
      assert (y = S (S (next s))) as ->.
      { subst B1 B2 B3. created_in Hc. }
      specialize (A1 _ eq_refl Hv).
      rewrite !elem_of_cons, !elem_of_app. tauto.
    + intros y type Hc Hv.
      assert (y = S (next s)) as ->.
      { subst B1 B2 B3. created_in Hc. }
      specialize (A2 _ eq_refl Hv).
      rewrite !elem_of_cons, !elem_of_app. tauto.
  - (* unsupported codec: nothing was created in this part *)
    destruct (attempted_pair throws stop (mainProcess_video session)
                (mainProcess_audio session)
                "Error occurred terminating main FFmpeg process: ") as [V1 _].
    destruct (attempted_pair throws socket_close (vsocket session)
                (asocket session) "Error occurred closing socket: ") as [V2 _].
    destruct (attempted_pair throws pipe_close (uVideoStream session)
                (uAudioStream session) "Error occurred Universal Stream: ")
      as [V3 _].
    repeat split.
    + rewrite !elem_of_cons, !elem_of_app. unfold attempted at 4.
      rewrite !elem_of_cons. tauto.
    + intros x Hx. specialize (V1 x Hx).
      rewrite !elem_of_cons, !elem_of_app. tauto.
    + intros x Hx. specialize (V2 x Hx).
      rewrite !elem_of_cons, !elem_of_app. tauto.
    + intros x Hx. specialize (V3 x Hx).
      rewrite !elem_of_cons, !elem_of_app. tauto.
    + intros y name id args c Hc Hv. exfalso. created_in Hc.
    + intros y type Hc Hv. exfalso. created_in Hc.
Qed.

(** C5, on session "A": it is stopped during the six-second pause, and
    the audio part that resumes afterwards leaves no session behind. *)
Lemma orphaned_start_torn_down_witness :
  let s := stopStream reliable "A" (paused_A AAC_ELD) in
  let s' := startStream_delayed reliable (start_A AAC_ELD) upstream info_A 2 s in
  pendingSessions s !! "A" = None
  ∧ ongoingSessions s' !! "A" = None
  ∧ stop 4 ∈ effects s'
  ∧ stop 8 ∈ effects s'.
Proof.
  intros s s'.
  assert (P : pendingSessions s !! sessionID (start_A AAC_ELD) = None)
    by reflexivity.
  split; [exact P|].
  destruct (orphaned_start_torn_down reliable (start_A AAC_ELD) 2 upstream s P)
    as [_ H].
  split; [exact (proj1 (H info_A 2%nat _ eq_refl))|].
  rewrite !list_elem_of_In. vm_compute.
  split; repeat (first [left; reflexivity | right]).
Defined.

(** The other suspension point, on session "A": it is stopped while the
    method waits for the upstream; when the station answers, the method
    ends with an error for the callback and starts nothing. *)
Lemma stop_before_upstream_answer :
  let s := onLivestreamStart "T8113" upstream
             (stopStream reliable "A"
                (startStream reliable (start_A AAC_ELD) 2 prepared_A).1) in
  let '(s', rest) := startStream_resolved (start_A AAC_ELD) 2 upstream s in
  rest = None
  ∧ ongoingSessions s' = ∅
  ∧ objects s' = ∅
  ∧ callback 2 (Some "Error finding session information") ∈ effects s'.
Proof.
  cbn zeta.
  destruct (startStream_missing_session_reported (start_A AAC_ELD) 2 upstream
              (onLivestreamStart "T8113" upstream
                 (stopStream reliable "A"
                    (startStream reliable (start_A AAC_ELD) 2 prepared_A).1))
              eq_refl) as (s' & E & F & O & G & _).
  rewrite E. split; [reflexivity|]. split; [exact G|]. split; [exact O|].
  rewrite F, elem_of_app. right. rewrite !elem_of_cons. tauto.
Qed.

(** *** Watchdogs *)

(** One packet: the timer the session object held is cleared, a new one
    is set for the track's period and stored in the object; nothing else
    of the object and neither table changes. *)
Lemma onSocketMessage_rearms
    (track : Track) (request : StartStreamRequest) (a : nat) (s : State) :
  let session := default emptySession (objects s !! a) in
  let s' := onSocketMessage track request a s in
  effects s' =
    effects s ++ optional clearTimeout (timeout session)
    ++ [setTimeout (next s) (rtcp_interval track request * 5 * 1000)%float]
  ∧ timeout <$> (objects s' !! a) = Some (Some (next s))
  ∧ next s' = S (next s)
  ∧ ongoingSessions s' = ongoingSessions s
  ∧ pendingSessions s' = pendingSessions s
  ∧ env s' = env s.
Proof.
  cbn zeta. unfold onSocketMessage. cbn -[lookup insert delete].
  destruct (timeout (default emptySession (objects s !! a)));
    cbn -[lookup insert delete]; rewrite lookup_insert_eq, <- ?app_assoc;
    repeat split.
Qed.

#[local] Arguments onSocketMessage : simpl never.

(** A run of packets only clears and sets timers; every timer it sets,
    and the timer the object held before, has been cleared again unless it
    is the one the object holds at the end. *)
Lemma onSocketMessages_timers
    (tracks : list Track) (request : StartStreamRequest) (a : nat) (s : State) :
  let s' := onSocketMessages tracks request a s in
  ∃ armed,
    effects s' = effects s ++ armed
    ∧ next s' = (next s + length tracks)%nat
    ∧ ongoingSessions s' = ongoingSessions s
    ∧ pendingSessions s' = pendingSessions s
    ∧ env s' = env s
    ∧ (∀ e, e ∈ armed → (∃ t, e = clearTimeout t) ∨ ∃ t ms, e = setTimeout t ms)
    ∧ (∀ t ms, setTimeout t ms ∈ armed →
         clearTimeout t ∈ armed ∨ timeout <$> (objects s' !! a) = Some (Some t))
    ∧ (∀ t, timeout (default emptySession (objects s !! a)) = Some t →
         clearTimeout t ∈ armed ∨ timeout <$> (objects s' !! a) = Some (Some t)).
Proof.
  cbn zeta. unfold onSocketMessages.
  induction tracks as [|track tracks IH] using rev_ind.
  - exists []. cbn. rewrite app_nil_r, Nat.add_0_r.
    repeat split; auto.
    + intros e H. by apply elem_of_nil in H.
    + intros t ms H. by apply elem_of_nil in H.
    + intros t H. right. destruct (objects s !! a) as [session|]; cbn in *;
        [by rewrite H|discriminate].
  - rewrite foldl_app. cbn [foldl].
    destruct IH as (armed & E & N & O & P & V & K & T & H0).
    set (s1 := foldl _ s tracks) in *.
    destruct (onSocketMessage_rearms track request a s1)
      as (E' & T' & N' & O' & P' & V').
    cbn zeta in *.
    set (session := default emptySession (objects s1 !! a)) in *.
    exists (armed ++ optional clearTimeout (timeout session)
            ++ [setTimeout (next s1) (rtcp_interval track request * 5 * 1000)%float]).
    split; [by rewrite E', E, <- app_assoc|].
    split; [rewrite N', N, length_app; cbn; lia|].
    split; [congruence|]. split; [congruence|]. split; [congruence|].
    assert (held : ∀ t, timeout <$> (objects s1 !! a) = Some (Some t) →
                        clearTimeout t ∈ optional clearTimeout (timeout session)).
    { intros t Ht. subst session. destruct (objects s1 !! a) as [x|]; [|discriminate].
      cbn in *. injection Ht as ->. cbn. apply elem_of_cons. by left. }
    split; [|split].
    + intros e H. rewrite !elem_of_app in H. destruct H as [H|[H|H]].
      * by apply K.
      * left. destruct (timeout session); cbn in H.
        -- apply elem_of_cons in H as [->|H]; [eauto|by apply elem_of_nil in H].
        -- by apply elem_of_nil in H.
      * right. apply elem_of_cons in H as [->|H]; [eauto|by apply elem_of_nil in H].
    + intros t ms H. rewrite !elem_of_app in H. destruct H as [H|[H|H]].
      * left. rewrite !elem_of_app. destruct (T t ms H) as [C|C]; [by left|].
        right. left. by apply held.
      * exfalso. destruct (timeout session); cbn in H.
        -- apply elem_of_cons in H as [H|H]; [discriminate|by apply elem_of_nil in H].
        -- by apply elem_of_nil in H.
      * right. apply elem_of_cons in H as [H|H]; [|by apply elem_of_nil in H].
        injection H as -> _. exact T'.
    + intros t Ht. left. rewrite !elem_of_app.
      destruct (H0 t Ht) as [C|C]; [by left|]. right. left. by apply held.
Qed.

(** X4. A session has one watchdog, shared by its two tracks, and it
    never leaks a timer.  Packets on the return sockets only clear and
    set timers.  After any run of packets the session object holds the
    timer set by the last packet, armed for five times the RTCP interval
    of that packet's track, in milliseconds; every timer set by an
    earlier packet, and the timer the object held before, has been
    cleared.  [stopStream] on the session clears the timer that is held.
    When the watchdog fires, the HomeKit session is forced to stop and
    the session leaves both tables. *)
Theorem watchdog_rearmed_and_fatal
    (throws : Effect → bool) (tracks : list Track) (track : Track)
    (request : StartStreamRequest) (a : nat) (s : State) :
  ongoingSessions s !! sessionID request = Some a →
  let live := (next s + length tracks)%nat in
  let s1 := onSocketMessages (tracks ++ [track]) request a s in
  let s2 := stopStream throws (sessionID request) s1 in
  let s3 := onInactive throws (track_name track) request s1 in
  ∃ armed released,
    effects s1 = effects s ++ armed
    ∧ effects s2 = effects s1 ++ released
    ∧ (∀ e, e ∈ armed → (∃ t, e = clearTimeout t) ∨ ∃ t ms, e = setTimeout t ms)
    ∧ timeout <$> (objects s1 !! a) = Some (Some live)
    ∧ setTimeout live (rtcp_interval track request * 5 * 1000)%float ∈ armed
    ∧ (∀ t ms, setTimeout t ms ∈ armed → t ≠ live → clearTimeout t ∈ armed)
    ∧ (∀ t, timeout (default emptySession (objects s !! a)) = Some t →
         clearTimeout t ∈ armed)
    ∧ clearTimeout live ∈ released
    ∧ ongoingSessions s2 !! sessionID request = None
    ∧ forceStopStreamingSession (sessionID request) ∈ effects s3
    ∧ pendingSessions s3 !! sessionID request = None
    ∧ ongoingSessions s3 !! sessionID request = None.
Proof.
  intros R. cbn zeta. unfold onSocketMessages. rewrite foldl_app. cbn [foldl].
  destruct (onSocketMessages_timers tracks request a s)
    as (armed & E & N & O & P & V & K & T & H0).
  cbn zeta in *. unfold onSocketMessages in *.
  set (s0 := foldl _ s tracks) in *.
  destruct (onSocketMessage_rearms track request a s0)
    as (E' & T' & N' & O' & P' & V').
  cbn zeta in *.
  set (session := default emptySession (objects s0 !! a)) in *.
  set (s1 := onSocketMessage track request a s0) in *.
  assert (held : ∀ t, timeout <$> (objects s0 !! a) = Some (Some t) →
                      clearTimeout t ∈ optional clearTimeout (timeout session)).
  { intros t Ht. subst session. destruct (objects s0 !! a) as [x|]; [|discriminate].
    cbn in *. injection Ht as ->. cbn. apply elem_of_cons. by left. }
  assert (R1 : ongoingSessions s1 !! sessionID request = Some a) by congruence.
  assert (L : timeout (default emptySession (objects s1 !! a))
              = Some (next s + length tracks)%nat).
  { destruct (objects s1 !! a) as [x|]; [|discriminate].
    cbn in *. injection T' as ->. congruence. }
  exists (armed ++ optional clearTimeout (timeout session)
          ++ [setTimeout (next s0) (rtcp_interval track request * 5 * 1000)%float]).
  eexists.
  split; [by rewrite E', E, <- app_assoc|].
  split; [rewrite (stopStream_registered throws _ _ _ R1); reflexivity|].
  split; [|split; [|split; [|split; [|split; [|split; [|split]]]]]].
  - intros e H. rewrite !elem_of_app in H. destruct H as [H|[H|H]].
    + by apply K.
    + left. destruct (timeout session); cbn in H.
      * apply elem_of_cons in H as [->|H]; [eauto|by apply elem_of_nil in H].
      * by apply elem_of_nil in H.
    + right. apply elem_of_cons in H as [->|H]; [eauto|by apply elem_of_nil in H].
  - by rewrite T', N.
  - rewrite !elem_of_app, elem_of_cons, N. auto.
  - intros t ms H Hne. rewrite !elem_of_app in H. rewrite !elem_of_app.
    destruct H as [H|[H|H]].
    + destruct (T t ms H) as [C|C]; [by left|]. right. left. by apply held.
    + exfalso. destruct (timeout session); cbn in H.
      * apply elem_of_cons in H as [H|H]; [discriminate|by apply elem_of_nil in H].
      * by apply elem_of_nil in H.
    + exfalso. apply elem_of_cons in H as [H|H]; [|by apply elem_of_nil in H].
      injection H as -> _. by rewrite N in Hne.
  - intros t Ht. rewrite !elem_of_app.
    destruct (H0 t Ht) as [C|C]; [by left|]. right. left. by apply held.
  - unfold released. rewrite L. cbn [optional].
    repeat (first [rewrite elem_of_app | rewrite elem_of_cons]). tauto.
  - apply stopStream_removes.
  - unfold onInactive.
    match goal with |- context [stopStream throws ?i ?x] => set (s4 := x) end.
    assert (R4 : ongoingSessions s4 !! sessionID request = Some a)
      by (subst s4; cbn -[lookup]; exact R1).
    split; [|apply stopStream_removes].
    rewrite (stopStream_registered throws _ _ _ R4). subst s4.
    cbn -[lookup insert delete released].
    repeat (first [rewrite elem_of_app | rewrite elem_of_cons]). tauto.
Qed.

(** X4, on the streaming session "A" of the worked scenario, whose
    tracks have the usual RTCP interval of half a second: after a video,
    an audio and another video packet the watchdog is armed for 2500 ms. *)
Lemma watchdog_rearmed_and_fatal_witness :
  let s := running_A AAC_ELD in
  let request := start_A AAC_ELD in
  let s1 := onSocketMessages [VideoTrack; AudioTrack; VideoTrack] request 2 s in
  let s2 := stopStream reliable "A" s1 in
  let s3 := onInactive reliable "video" request s1 in
  ∃ armed released,
    effects s1 = effects s ++ armed
    ∧ effects s2 = effects s1 ++ released
    ∧ (∀ e, e ∈ armed → (∃ t, e = clearTimeout t) ∨ ∃ t ms, e = setTimeout t ms)
    ∧ timeout <$> (objects s1 !! 2%nat) = Some (Some 11%nat)
    ∧ setTimeout 11 2500%float ∈ armed
    ∧ (∀ t ms, setTimeout t ms ∈ armed → t ≠ 11%nat → clearTimeout t ∈ armed)
    ∧ (∀ t, timeout (default emptySession (objects s !! 2%nat)) = Some t →
         clearTimeout t ∈ armed)
    ∧ clearTimeout 11 ∈ released
    ∧ ongoingSessions s2 !! "A" = None
    ∧ forceStopStreamingSession "A" ∈ effects s3
    ∧ pendingSessions s3 !! "A" = None
    ∧ ongoingSessions s3 !! "A" = None.
Proof.
  intros s request.
  apply (watchdog_rearmed_and_fatal reliable [VideoTrack; AudioTrack] VideoTrack
           request 2 s).
  reflexivity.
Defined.

(** *** Snapshots *)

Lemma starts_last (es : list Effect) (e : Effect) :
  starts (es ++ [e]) = (starts es + if is_start e then 1 else 0)%nat.
Proof.
  unfold starts. rewrite List.filter_app, length_app. cbn.
  by destruct (is_start e).
Qed.

#[local] Arguments starts : simpl never.
#[local] Arguments determineResolution : simpl never.

(** The station's start event changes neither the cache field, nor the
    effect log, nor the allocator. *)
Lemma onLivestreamStart_frame (serial : string) (sd : StationStream) (s : State) :
  let s' := onLivestreamStart serial sd s in
  snapshotPromise s' = snapshotPromise s
  ∧ effects s' = effects s
  ∧ next s' = next s
  ∧ env s' = env s.
Proof.
  unfold onLivestreamStart. generalize (stationListeners s) as ls.
  intros ls. revert s. induction ls as [|p ls IH]; intros s; cbn -[lookup insert].
  - repeat split.
  - destruct (IH (if decide (serial = device_serial (env s))
                  then settle p (Resolved sd) (set_stationStream (Some sd) s)
                  else s)) as (A & B & C & D).
    cbn zeta in A, B, C, D. rewrite A, B, C, D.
    destruct (decide (serial = device_serial (env s))); [|repeat split].
    unfold settle. cbn -[lookup insert].
    destruct (promises s !! p); repeat split.
Qed.

(** A snapshot request that finds the cache field empty starts a fetch:
    one more start command goes to the station, the promise awaited is a
    new one, and the cache field is still empty afterwards. *)
Lemma handleSnapshotRequest_uncached (request : SnapshotRequest) (s : State) :
  snapshotPromise s = None →
  ∃ s' waiting,
    handleSnapshotRequest reliable request s = (s', next s, waiting)
    ∧ snapshotPromise s' = None
    ∧ starts (effects s') = S (starts (effects s))
    ∧ next s' = S (S (next s))
    ∧ env s' = env s.
Proof.
  intros H. unfold handleSnapshotRequest. cbn -[lookup insert]. rewrite H.
  unfold fetchSnapshot, getLocalLiveStream. cbn -[lookup insert].
  destruct (promises s !! S (next s)) as [[]|]; cbn -[lookup insert];
    eexists; eexists; (split; [reflexivity|]); unfold settle;
    cbn -[lookup insert]; try destruct (promises s !! next s);
    cbn -[lookup insert]; rewrite ?H, !starts_last; cbn; repeat split; lia.
Qed.

(** Neither the spawning of the snapshot process nor its 'close'
    listener writes the cache field or sends a start command. *)
Lemma fetchSnapshot_completes
    (snapFilter' : option string) (sd : StationStream) (q : nat) (startTime now : Z)
    (image : Buffer) (s : State) :
  let s1 := (fetchSnapshot_resolved snapFilter' sd s).1 in
  let s2 := (fetchSnapshot_close q startTime now image s1).1 in
  snapshotPromise s2 = snapshotPromise s
  ∧ starts (effects s2) = starts (effects s)
  ∧ next s2 = S (S (next s))
  ∧ env s2 = env s.
Proof.
  cbn zeta. unfold fetchSnapshot_resolved, fetchSnapshot_close, settle.
  cbn -[lookup insert].
  destruct (bool_decide (0 < length image)%nat);
    destruct (promises s !! q); cbn -[lookup insert];
    rewrite !starts_last; cbn; repeat split; lia.
Qed.

(** C2. The cache field is never filled.  After a first snapshot request
    has been served completely (the station answered, the snapshot process
    closed with an image), [snapshotPromise] is still unset, so a second
    request, issued before the three-second timer fires, does not find a
    cached promise: it waits for a new promise and sends a second start
    command to the station. *)
Theorem second_snapshot_reacquires
    (request1 request2 : SnapshotRequest) (snapFilter' : option string)
    (sd : StationStream) (startTime now : Z) (image : Buffer) (s : State) :
  snapshotPromise s = None →
  let '(s1, q1, _) := handleSnapshotRequest reliable request1 s in
  let s2 := onLivestreamStart (device_serial (env s)) sd s1 in
  let s3 := (fetchSnapshot_resolved snapFilter' sd s2).1 in
  let s4 := (fetchSnapshot_close q1 startTime now image s3).1 in
  let '(s5, q2, _) := handleSnapshotRequest reliable request2 s4 in
  snapshotPromise s4 = None
  ∧ q2 ≠ q1
  ∧ starts (effects s1) = S (starts (effects s))
  ∧ starts (effects s4) = S (starts (effects s))
  ∧ starts (effects s5) = S (S (starts (effects s))).
Proof.
  intros H.
  destruct (handleSnapshotRequest_uncached request1 s H)
    as (s1 & w1 & E1 & P1 & S1 & N1 & _).
  rewrite E1. cbn zeta.
  destruct (onLivestreamStart_frame (device_serial (env s)) sd s1)
    as (P2 & S2 & N2 & _).
  cbn zeta in P2, S2, N2.
  set (s2 := onLivestreamStart (device_serial (env s)) sd s1) in *.
  destruct (fetchSnapshot_completes snapFilter' sd (next s) startTime now image s2)
    as (P4 & S4 & N4 & _).
  cbn zeta in P4, S4, N4.
  set (s4 := (fetchSnapshot_close _ _ _ _ _).1) in *.
  assert (H4 : snapshotPromise s4 = None) by congruence.
  destruct (handleSnapshotRequest_uncached request2 s4 H4)
    as (s5 & w5 & E5 & _ & S5 & _ & _).
  rewrite E5. repeat split; try congruence; lia.
Qed.

(** C2, on the delegate of the worked scenario: two requests, the second
    one a second after the first image arrived. *)
Lemma second_snapshot_reacquires_witness :
  let image := [Init.Byte.xff; Init.Byte.xd8] in
  let request := {| s_width := 640; s_height := 360 |} in
  let '(s1, q1, _) := handleSnapshotRequest reliable request (new door) in
  let s2 := onLivestreamStart (device_serial (env (new door))) upstream s1 in
  let s3 := (fetchSnapshot_resolved (Some "") upstream s2).1 in
  let s4 := (fetchSnapshot_close q1 0 1500 image s3).1 in
  let '(s5, q2, _) := handleSnapshotRequest reliable request s4 in
  snapshotPromise s4 = None
  ∧ q2 ≠ q1
  ∧ starts (effects s1) = S (starts (effects (new door)))
  ∧ starts (effects s4) = S (starts (effects (new door)))
  ∧ starts (effects s5) = S (S (starts (effects (new door)))).
Proof.
  intros image request.
  apply (second_snapshot_reacquires request request (Some "") upstream 0 1500
           image (new door)).
  reflexivity.
Defined.

(** *** Negotiation *)

(** X1. [prepareStream] stores the pending session under the request's
    session id with key and salt concatenated per track, answers with the
    caller's key and salt and the server's ports and synchronisation
    sources, and touches neither the upstream nor the ongoing sessions. *)
Theorem prepareStream_registers_pending
    (request : PrepareStreamRequest) (cb : nat)
    (videoReturnPort' videoSSRC' audioReturnPort' audioSSRC' : Z) (s : State) :
  let s' := prepareStream request cb videoReturnPort' videoSSRC'
              audioReturnPort' audioSSRC' s in
  (∃ info,
      pendingSessions s' !! p_sessionID request = Some info
      ∧ videoSRTP info = srtp_key (p_video request) ++ srtp_salt (p_video request)
      ∧ audioSRTP info = srtp_key (p_audio request) ++ srtp_salt (p_audio request)
      ∧ videoReturnPort info = videoReturnPort'
      ∧ audioReturnPort info = audioReturnPort'
      ∧ videoSSRC info = videoSSRC'
      ∧ audioSSRC info = audioSSRC')
  ∧ effects s' =
      effects s
      ++ [prepared cb
            {| r_video := {| r_port := videoReturnPort'; r_ssrc := videoSSRC';
                             r_srtp_key := srtp_key (p_video request);
                             r_srtp_salt := srtp_salt (p_video request) |};
               r_audio := {| r_port := audioReturnPort'; r_ssrc := audioSSRC';
                             r_srtp_key := srtp_key (p_audio request);
                             r_srtp_salt := srtp_salt (p_audio request) |} |}]
  ∧ ongoingSessions s' = ongoingSessions s
  ∧ objects s' = objects s
  ∧ stationListeners s' = stationListeners s.
Proof.
  cbn zeta. unfold prepareStream. cbn -[lookup insert].
  split; [|repeat split].
  eexists. split; [apply lookup_insert_eq|]. repeat split.
Qed.

(** X2. A negotiation followed at once by a stop creates no process, no
    socket and no pipe and sends nothing to the station: the delegate is
    back where it was, with the response and two log lines in the effect
    log. *)
Theorem prepare_then_stop_spawns_nothing
    (throws : Effect → bool) (e : Env) (request : PrepareStreamRequest) (cb : nat)
    (videoReturnPort' videoSSRC' audioReturnPort' audioSSRC' : Z) :
  let s1 := prepareStream request cb videoReturnPort' videoSSRC'
              audioReturnPort' audioSSRC' (new e) in
  let s2 := stopStream throws (p_sessionID request) s1 in
  s2 = set_effects
         (effects s1
          ++ [log Info ("Stopping session with id: " +:+ p_sessionID request);
              log Debug "No session to stop."])
         (new e).
Proof.
  cbn zeta. rewrite stopStream_unregistered by reflexivity.
  unfold prepareStream, perform, set_pendingSessions, set_effects.
  cbn -[lookup insert delete].
  rewrite delete_insert_eq, delete_empty. reflexivity.
Qed.

(** *** Further properties of the delegate *)

Lemma indexOf_None (x : string) (l : list string) :
  indexOf x l = None ↔ x ∉ l.
Proof.
  induction l as [|y l IH]; cbn.
  - split; [intros _ H; by apply elem_of_nil in H|done].
  - destruct (String.eqb y x) eqn:E.
    + apply String.eqb_eq in E. subst y. split; [discriminate|].
      intros H. exfalso. apply H. apply elem_of_cons. by left.
    + apply String.eqb_neq in E. rewrite fmap_None, IH.
      rewrite not_elem_of_cons. split; [intros H; split; congruence|tauto].
Qed.

Lemma split_nonempty (sep : ascii) (s : string) : split sep s ≠ [].
Proof.
  destruct s as [|c s]; cbn; [discriminate|].
  destruct (Ascii.eqb c sep); [discriminate|].
  destruct (split sep s); discriminate.
Qed.

(** Joining what [split] produced gives the string back. *)
Lemma join_split (s : string) : join "," (split "," s) = s.
Proof.
  unfold join. induction s as [|c s IH]; [reflexivity|]. cbn [split].
  pose proof (split_nonempty "," s) as N.
  destruct (split "," s) as [|x xs]; [done|].
  destruct (Ascii.eqb c ",") eqn:E.
  - apply Ascii.eqb_eq in E. subst c.
    change (String.concat "," ("" :: x :: xs))
      with ("" ++ "," ++ String.concat "," (x :: xs))%string.
    by rewrite IH.
  - destruct xs as [|y ys].
    + cbn in *. by rewrite IH.
    + change (String.concat "," (String c x :: y :: ys))
        with (String c (x ++ "," ++ String.concat "," (y :: ys)))%string.
      change (String.concat "," (x :: y :: ys))
        with (x ++ "," ++ String.concat "," (y :: ys))%string in IH.
      by rewrite IH.
Qed.

Lemma append_assoc (a b c : string) : (a +:+ b) +:+ c = a +:+ (b +:+ c).
Proof.
  induction a as [|x a IH]; [done|].
  change (String x ((a +:+ b) +:+ c) = String x (a +:+ b +:+ c)).
  by rewrite IH.
Qed.

Lemma join_snoc (l : list string) (x : string) :
  l ≠ [] → join "," (l ++ [x]) = join "," l +:+ "," +:+ x.
Proof.
  unfold join. induction l as [|y l IH]; [done|]. intros _.
  destruct l as [|z l]; [reflexivity|].
  change (String.concat "," ((y :: z :: l) ++ [x]))
    with (y ++ "," ++ String.concat "," ((z :: l) ++ [x]))%string.
  change (String.concat "," (y :: z :: l))
    with (y ++ "," ++ String.concat "," (z :: l))%string.
  rewrite IH by discriminate.
  by rewrite !append_assoc.
Qed.

Lemma indexOf_Some (x : string) (l : list string) (i : nat) :
  indexOf x l = Some i →
  ∃ l1 l2, l = l1 ++ x :: l2 ∧ (x ∉ l1) ∧ splice1 i l = l1 ++ l2.
Proof.
  revert i. induction l as [|y l IH]; intros i; cbn; [discriminate|].
  destruct (String.eqb y x) eqn:E.
  - apply String.eqb_eq in E. subst y. intros [= <-].
    exists [], l. split; [done|]. split; [apply not_elem_of_nil|].
    unfold splice1. cbn. by rewrite drop_0.
  - apply String.eqb_neq in E. destruct (indexOf x l) as [j|]; [|discriminate].
    intros [= <-]. destruct (IH j eq_refl) as (l1 & l2 & -> & N & S').
    exists (y :: l1), l2. split; [done|]. split.
    + rewrite not_elem_of_cons. split; congruence.
    + unfold splice1 in *. cbn. by rewrite S'.
Qed.

(** X10. Unless the codec is "copy", a configured maximum is an upper
    bound of the width, height, frame rate and bit rate [startStream]
    encodes with, and without [forceMax] none of the four exceeds what the
    request asked for. *)
Theorem encodeParameters_within_maxima (cfg : VideoConfig) (v : VideoInfo) :
  vcodec cfg ≠ Some "copy" →
  let p := encodeParameters cfg v in
  (∀ m, maxWidth cfg = Some m → width (e_resolution p) ≤ m)
  ∧ (∀ m, maxHeight cfg = Some m → height (e_resolution p) ≤ m)
  ∧ (∀ m, maxFPS cfg = Some m → e_fps p ≤ m)
  ∧ (∀ m, maxBitrate cfg = Some m → e_videoBitrate p ≤ m)
  ∧ (forceMax cfg = false →
       width (e_resolution p) ≤ v_width v
       ∧ height (e_resolution p) ≤ v_height v
       ∧ e_fps p ≤ v_fps v
       ∧ e_videoBitrate p ≤ v_max_bit_rate v).
Proof.
  intros HC. cbn zeta. unfold encodeParameters. rewrite vcodec_copy.
  rewrite bool_decide_eq_false_2 by exact HC.
  unfold determineResolution. cbn.
  repeat split.
  - intros m ->. destruct (forceMax cfg); cbn; [lia|]. case_bool_decide; lia.
  - intros m ->. destruct (forceMax cfg); cbn; [lia|]. case_bool_decide; lia.
  - intros m ->. destruct (forceMax cfg); cbn; [lia|]. case_bool_decide; lia.
  - intros m ->. destruct (forceMax cfg); cbn; [lia|]. case_bool_decide; lia.
  - rewrite H. destruct (maxWidth cfg); cbn; [case_bool_decide|]; lia.
  - rewrite H. destruct (maxHeight cfg); cbn; [case_bool_decide|]; lia.
  - rewrite H. destruct (maxFPS cfg); cbn; [case_bool_decide|]; lia.
  - rewrite H. destruct (maxBitrate cfg); cbn; [case_bool_decide|]; lia.
Qed.

(** X10, on the configuration of the worked scenario. *)
Lemma encodeParameters_within_maxima_witness :
  let p := encodeParameters door_config (video (start_A OPUS)) in
  (∀ m, maxWidth door_config = Some m → width (e_resolution p) ≤ m)
  ∧ (∀ m, maxHeight door_config = Some m → height (e_resolution p) ≤ m)
  ∧ (∀ m, maxFPS door_config = Some m → e_fps p ≤ m)
  ∧ (∀ m, maxBitrate door_config = Some m → e_videoBitrate p ≤ m)
  ∧ (forceMax door_config = false →
       width (e_resolution p) ≤ v_width (video (start_A OPUS))
       ∧ height (e_resolution p) ≤ v_height (video (start_A OPUS))
       ∧ e_fps p ≤ v_fps (video (start_A OPUS))
       ∧ e_videoBitrate p ≤ v_max_bit_rate (video (start_A OPUS))).
Proof.
  apply (encodeParameters_within_maxima door_config (video (start_A OPUS))).
  discriminate.
Defined.

(** X11. For a snapshot the configured maxima are not applied: the
    resolution is the requested one.  The resize filter is left out
    exactly when the configuration lists the filter 'none' or neither the
    requested width nor the requested height is positive. *)
Theorem snapshot_resolution_unclamped (cfg : VideoConfig) (w h : Z) :
  let r := determineResolution cfg w h true in
  width r = w
  ∧ height r = h
  ∧ (resizeFilter r = None ↔ "none" ∈ configuredFilters cfg ∨ (w ≤ 0 ∧ h ≤ 0)).
Proof.
  cbn zeta. unfold determineResolution, configuredFilters. cbn.
  split; [reflexivity|]. split; [reflexivity|].
  set (filters := match videoFilter cfg with Some f => split "," f | None => [] end).
  pose proof (indexOf_None "none" filters) as N.
  destruct (indexOf "none" filters) as [i|] eqn:E.
  - cbn. split; [intros _; left|done].
    destruct (decide ("none" ∈ filters)) as [?|X]; [done|].
    apply N in X. discriminate.
  - assert (X : "none" ∉ filters) by by apply N.
    rewrite bool_decide_eq_true_2 by done. cbn.
    repeat case_bool_decide; cbn; (split; [try discriminate|]).
    all: try (intros _; right; lia).
    all: try (intros [?|[? ?]]; [done|lia]).
    all: try done.
Qed.

(** X12. A configured video filter that does not list 'none' is passed
    on verbatim: it is the snapshot filter, and the video filter is that
    text, followed, when a resize filter is computed, by the resize filter
    and the even-dimensions scale. *)
Theorem configured_filter_kept_verbatim
    (cfg : VideoConfig) (f : string) (w h : Z) (isSnapshot : bool) :
  videoFilter cfg = Some f →
  "none" ∉ split "," f →
  let r := determineResolution cfg w h isSnapshot in
  snapFilter r = Some f
  ∧ r_videoFilter r =
      Some (match resizeFilter r with
            | Some resize =>
                f +:+ "," +:+ resize +:+ ","
                  +:+ "scale='trunc(iw/2)*2:trunc(ih/2)*2'"
            | None => f
            end).
Proof.
  intros F N. cbn zeta. unfold determineResolution. rewrite F.
  apply indexOf_None in N. rewrite N. cbn -[join split].
  rewrite join_split. split; [reflexivity|].
  match goal with |- context [if ?b || ?c then Some ?x else None] =>
    destruct (b || c) eqn:B; set (resize := x) in * end.
  - rewrite bool_decide_eq_true_2
      by (rewrite length_app; cbn; lia).
    change (split "," f ++ [resize; "scale='trunc(iw/2)*2:trunc(ih/2)*2'"])
      with (split "," f ++ [resize] ++ ["scale='trunc(iw/2)*2:trunc(ih/2)*2'"]).
    rewrite app_assoc, join_snoc, join_snoc, join_split.
    + by rewrite !append_assoc.
    + apply split_nonempty.
    + intros E. apply app_eq_nil in E as [_ E]. discriminate.
  - rewrite join_split.
    pose proof (split_nonempty "," f) as S'.
    destruct (split "," f); [done|]. reflexivity.
Qed.

(** X12, for a configured horizontal flip. *)
Lemma configured_filter_kept_verbatim_witness :
  let cfg :=
    {| maxWidth := None; maxHeight := None; maxFPS := None; maxBitrate := None;
       forceMax := false; vcodec := None; packetSize := None;
       encoderOptions := None; videoFilter := Some "hflip,vflip";
       mapvideo := None; mapaudio := None; cfg_audio := false; debug := false |} in
  let r := determineResolution cfg 640 0 false in
  snapFilter r = Some "hflip,vflip"
  ∧ r_videoFilter r =
      Some (match resizeFilter r with
            | Some resize =>
                "hflip,vflip" +:+ "," +:+ resize +:+ ","
                  +:+ "scale='trunc(iw/2)*2:trunc(ih/2)*2'"
            | None => "hflip,vflip"
            end).
Proof.
  intros cfg.
  apply (configured_filter_kept_verbatim cfg "hflip,vflip" 640 0 false).
  - reflexivity.
  - rewrite list_elem_of_In. vm_compute. intuition discriminate.
Defined.

(** X13. When the configured filters list 'none', no resize filter is
    computed, whatever the resolution; the first 'none' is taken out of
    the list, and what is left is both the snapshot filter and, unless
    nothing is left, the video filter. *)
Theorem none_filter_disables_scaling
    (cfg : VideoConfig) (f : string) (w h : Z) (isSnapshot : bool) :
  videoFilter cfg = Some f →
  "none" ∈ split "," f →
  ∃ l1 l2,
    split "," f = l1 ++ "none" :: l2
    ∧ ("none" ∉ l1)
    ∧ let r := determineResolution cfg w h isSnapshot in
      resizeFilter r = None
      ∧ snapFilter r = Some (join "," (l1 ++ l2))
      ∧ r_videoFilter r =
          match l1 ++ l2 with
          | [] => None
          | _ => Some (join "," (l1 ++ l2))
          end.
Proof.
  intros F N. destruct (indexOf "none" (split "," f)) as [i|] eqn:E.
  - destruct (indexOf_Some _ _ _ E) as (l1 & l2 & S1 & N1 & S2).
    exists l1, l2. split; [exact S1|]. split; [exact N1|].
    cbn zeta. unfold determineResolution. rewrite F, E, S2.
    cbn -[join split]. split; [reflexivity|]. split; [reflexivity|].
    by destruct (l1 ++ l2).
  - apply indexOf_None in E. done.
Qed.

(** X13, for a configuration that lists 'none' twice: the second one
    stays in the filter text. *)
Lemma none_filter_disables_scaling_witness :
  let cfg :=
    {| maxWidth := Some 1280; maxHeight := None; maxFPS := None;
       maxBitrate := None; forceMax := false; vcodec := None;
       packetSize := None; encoderOptions := None;
       videoFilter := Some "hflip,none,none";
       mapvideo := None; mapaudio := None; cfg_audio := false; debug := false |} in
  ∃ l1 l2,
    split "," "hflip,none,none" = l1 ++ "none" :: l2
    ∧ ("none" ∉ l1)
    ∧ let r := determineResolution cfg 1920 1080 false in
      resizeFilter r = None
      ∧ snapFilter r = Some (join "," (l1 ++ l2))
      ∧ r_videoFilter r =
          match l1 ++ l2 with
          | [] => None
          | _ => Some (join "," (l1 ++ l2))
          end.
Proof.
  intros cfg.
  apply (none_filter_disables_scaling cfg "hflip,none,none" 1920 1080 false).
  - reflexivity.
  - rewrite list_elem_of_In. vm_compute. tauto.
Defined.

(** What [stopStream] leaves alone. *)
Lemma stopStream_untouched (throws : Effect → bool) (id : string) (s : State) :
  let s' := stopStream throws id s in
  snapshotPromise s' = snapshotPromise s
  ∧ stationStream s' = stationStream s
  ∧ objects s' = objects s
  ∧ stationListeners s' = stationListeners s
  ∧ promises s' = promises s
  ∧ next s' = next s
  ∧ env s' = env s.
Proof.
  cbn zeta. destruct (ongoingSessions s !! id) as [r|] eqn:E.
  - by rewrite (stopStream_registered throws id s r E).
  - by rewrite (stopStream_unregistered throws id s E).
Qed.

Lemma getLocalLiveStream_snapshotPromise (throws : Effect → bool) (s : State) :
  snapshotPromise (getLocalLiveStream throws s).1 = snapshotPromise s.
Proof.
  unfold getLocalLiveStream, settle. cbn -[lookup insert].
  repeat match goal with
         | |- context [if ?b then _ else _] => destruct b; cbn -[lookup insert]
         | |- context [match ?x with _ => _ end] => destruct x; cbn -[lookup insert]
         end; reflexivity.
Qed.

Lemma fetchSnapshot_snapshotPromise
    (throws : Effect → bool) (snapFilter' : option string) (s : State) :
  snapshotPromise s = None →
  snapshotPromise (fetchSnapshot throws snapFilter' s).1.1 = None.
Proof.
  intros H. unfold fetchSnapshot. cbn -[lookup insert getLocalLiveStream].
  set (s0 := set_next _ _).
  assert (G : snapshotPromise (getLocalLiveStream throws s0).1 = None)
    by (rewrite getLocalLiveStream_snapshotPromise; exact H).
  destruct (getLocalLiveStream throws s0) as [s1 p]. cbn in G.
  clearbody s0. unfold settle.
  destruct (promises s1 !! p) as [[]|]; cbn -[lookup insert];
    try destruct (promises s1 !! next s); cbn; congruence.
Qed.

Lemma step_snapshotPromise (throws : Effect → bool) (op : Op) (s : State) :
  snapshotPromise s = None → snapshotPromise (step throws op s) = None.
Proof.
  intros H. destruct op; cbn [step].
  - exact H.
  - unfold startStream.
    pose proof (getLocalLiveStream_snapshotPromise throws s) as G.
    destruct (getLocalLiveStream throws s) as [s1 p]. cbn in G.
    destruct (promises s1 !! p) as [[]|]; cbn; congruence.
  - unfold startStream_resolved. cbn -[lookup insert].
    destruct (pendingSessions s !! sessionID request); exact H.
  - unfold startStream_delayed.
    set (s1 := startStream_audio request sd sessionInfo a s).
    assert (H1 : snapshotPromise s1 = None).
    { subst s1. unfold startStream_audio. cbn -[lookup insert].
      by destruct (supported (a_codec (audio request))). }
    destruct (pendingSessions s1 !! sessionID request); [exact H1|].
    by rewrite (proj1 (stopStream_untouched throws _ _)).
  - unfold handleStopRequest. cbn -[stopStream].
    by rewrite (proj1 (stopStream_untouched throws _ _)).
  - exact H.
  - by rewrite (proj1 (onLivestreamStart_frame serial sd s)).
  - unfold onSocketError. by rewrite (proj1 (stopStream_untouched throws _ _)).
  - unfold onSocketMessage. cbn -[lookup insert].
    by destruct (timeout (default emptySession (objects s !! a))).
  - unfold onInactive. by rewrite (proj1 (stopStream_untouched throws _ _)).
  - unfold handleSnapshotRequest. cbn -[lookup insert fetchSnapshot]. rewrite H.
    apply fetchSnapshot_snapshotPromise. exact H.
  - exact H.
  - unfold fetchSnapshot_close, settle. cbn -[lookup insert].
    destruct (bool_decide (0 < length snapshotBuffer)%nat);
      destruct (promises s !! q); exact H.
  - reflexivity.
  - exact H.
  - exact H.
  - exact H.
Qed.

(** X19. The cache field is never filled: whatever requests, events and
    continuations run on a delegate, in whatever order and whichever of
    its calls throw, [snapshotPromise] is unset afterwards, so every
    snapshot request takes the uncached path. *)
Theorem snapshot_cache_never_filled
    (throws : Effect → bool) (ops : list Op) (e : Env) :
  snapshotPromise (run throws ops (new e)) = None.
Proof.
  unfold run. generalize (eq_refl : snapshotPromise (new e) = None).
  generalize (new e) as s. induction ops as [|op ops IH]; intros s H; cbn.
  - exact H.
  - apply IH. by apply step_snapshotPromise.
Qed.

Lemma starts_concat (es es' : list Effect) :
  starts (es ++ es') = (starts es + starts es')%nat.
Proof. unfold starts. by rewrite List.filter_app, length_app. Qed.

Lemma starts_cons (e : Effect) (es : list Effect) :
  starts (e :: es) = ((if is_start e then 1 else 0) + starts es)%nat.
Proof. unfold starts. cbn. by destruct (is_start e). Qed.

Lemma starts_quiet (es : list Effect) :
  (∀ e, e ∈ es → is_start e = false) → starts es = 0%nat.
Proof.
  induction es as [|e es IH]; intros H; [reflexivity|].
  change (e :: es) with ([e] ++ es). rewrite starts_concat, IH.
  - unfold starts. cbn. rewrite (H e); [reflexivity|]. apply elem_of_cons. by left.
  - intros e' He. apply H. apply elem_of_cons. by right.
Qed.

(** Nothing [stopStream] does on a session object is a start command. *)
Lemma starts_released
    (throws : Effect → bool) (session : ActiveSession) (serial : string) :
  starts (released throws session serial) = 0%nat.
Proof.
  apply starts_quiet. intros e H. unfold released in H.
  repeat match type of H with
    | _ ∨ _ => destruct H as [H|H]
    | _ ∈ _ ++ _ => apply elem_of_app in H
    | _ ∈ attempted _ _ _ => apply attempted_within in H
    | _ ∈ optional _ ?f => destruct f; cbn [optional] in H
    | _ ∈ _ :: _ => apply elem_of_cons in H
    | _ ∈ [] => apply elem_of_nil in H; destruct H
    | _ = _ => subst e
    end; reflexivity.
Qed.

Lemma stopStream_starts (throws : Effect → bool) (id : string) (s : State) :
  starts (effects (stopStream throws id s)) = starts (effects s).
Proof.
  destruct (ongoingSessions s !! id) as [r|] eqn:E.
  - rewrite (stopStream_registered throws id s r E). cbn -[lookup delete released].
    rewrite starts_concat, starts_cons, starts_concat, starts_released.
    unfold starts. cbn. lia.
  - rewrite (stopStream_unregistered throws id s E). cbn -[lookup delete].
    rewrite !starts_last. cbn. lia.
Qed.

Lemma onLivestreamStart_listeners (serial : string) (sd : StationStream) (s : State) :
  stationListeners (onLivestreamStart serial sd s) = stationListeners s.
Proof.
  unfold onLivestreamStart. generalize (stationListeners s) at 1 as ls.
  intros ls. revert s. induction ls as [|p ls IH]; intros s; cbn -[lookup insert].
  - reflexivity.
  - rewrite IH. destruct (decide (serial = device_serial (env s))); [|reflexivity].
    unfold settle. cbn -[lookup insert]. by destruct (promises s !! p).
Qed.

Lemma step_counts (op : Op) (s : State) :
  snapshotPromise s = None →
  starts (effects (step reliable op s))
  = (starts (effects s) + is_request op)%nat
  ∧ length (stationListeners (step reliable op s))
    = (length (stationListeners s) + is_request op)%nat.
Proof.
  intros H. destruct op; cbn [step is_request]; rewrite ?Nat.add_0_r.
  - unfold prepareStream. cbn -[lookup insert]. rewrite starts_last. cbn. lia.
  - unfold startStream, getLocalLiveStream. cbn -[lookup insert].
    destruct (promises s !! next s) as [[]|]; cbn -[lookup insert];
      rewrite ?starts_last, ?length_app; cbn; lia.
  - unfold startStream_resolved. cbn -[lookup insert].
    destruct (pendingSessions s !! sessionID request); cbn -[lookup insert];
      rewrite !starts_last; cbn; lia.
  - unfold startStream_delayed.
    set (s1 := startStream_audio request sd sessionInfo a s).
    assert (H1 : starts (effects s1) = starts (effects s)
                 ∧ stationListeners s1 = stationListeners s).
    { subst s1. unfold startStream_audio. cbn -[lookup insert].
      destruct (supported (a_codec (audio request))); cbn -[lookup insert];
        rewrite !starts_last; cbn; split; try reflexivity; lia. }
    destruct H1 as [A B]. clearbody s1.
    destruct (pendingSessions s1 !! sessionID request); cbn -[lookup insert delete stopStream].
    + rewrite A, B. lia.
    + rewrite stopStream_starts.
      destruct (stopStream_untouched reliable (sessionID request)
                  (perform (log Info "pendingSession has been deleted. Add it to ongoingSession and end it immediately.")
                     (set_ongoingSessions (<[sessionID request:=a]> (ongoingSessions s1)) s1)))
        as (_ & _ & _ & L & _).
      cbn zeta in L. rewrite L. cbn -[lookup insert delete].
      rewrite starts_last, A, B. cbn. lia.
  - unfold handleStopRequest. cbn -[stopStream].
    rewrite starts_last, stopStream_starts.
    destruct (stopStream_untouched reliable sessionId
                (perform (log Info "Receive Apple HK Stop request") s))
      as (_ & _ & _ & L & _).
    cbn zeta in L. rewrite L. cbn. rewrite starts_last. cbn. lia.
  - unfold handleReconfigureRequest. cbn. rewrite !starts_last. cbn. lia.
  - rewrite onLivestreamStart_listeners.
    destruct (onLivestreamStart_frame serial sd s) as (_ & E & _).
    cbn zeta in E. rewrite E. lia.
  - unfold onSocketError. rewrite stopStream_starts.
    destruct (stopStream_untouched reliable (sessionID request)
                (perform (log Error "Socket error: ") s))
      as (_ & _ & _ & L & _).
    cbn zeta in L. rewrite L. cbn. rewrite starts_last. cbn. lia.
  - unfold onSocketMessage. cbn -[lookup insert].
    destruct (timeout (default emptySession (objects s !! a))); cbn -[lookup insert];
      rewrite !starts_last; cbn; lia.
  - unfold onInactive. rewrite stopStream_starts.
    match goal with |- context [stopStream reliable ?i ?s0] =>
      destruct (stopStream_untouched reliable i s0) as (_ & _ & _ & L & _) end.
    cbn zeta in L. rewrite L. cbn. rewrite !starts_last. cbn. lia.
  - unfold handleSnapshotRequest. cbn -[lookup insert]. rewrite H.
    unfold fetchSnapshot, getLocalLiveStream. cbn -[lookup insert].
    destruct (promises s !! S (next s)) as [[]|]; cbn -[lookup insert];
      unfold settle; cbn -[lookup insert]; try destruct (promises s !! next s);
      cbn -[lookup insert]; rewrite ?H, !starts_last, ?length_app; cbn; lia.
  - unfold fetchSnapshot_resolved. cbn. rewrite !starts_last. cbn. lia.
  - unfold fetchSnapshot_close, settle. cbn -[lookup insert].
    destruct (bool_decide (0 < length snapshotBuffer)%nat);
      destruct (promises s !! q); cbn -[lookup insert];
      rewrite !starts_last; cbn; lia.
  - unfold snapshotExpired. cbn. rewrite !starts_last. cbn. lia.
  - unfold handleSnapshotRequest_resolved. cbn. rewrite !starts_last. cbn. lia.
  - unfold handleSnapshotRequest_resized. cbn. rewrite !starts_last. cbn. lia.
  - unfold handleSnapshotRequest_rejected. cbn. rewrite !starts_last. cbn. lia.
Qed.

Lemma requests_cons (op : Op) (ops : list Op) :
  requests (op :: ops) = (is_request op + requests ops)%nat.
Proof. unfold requests. by destruct op. Qed.

Lemma run_counts (ops : list Op) : ∀ s : State,
  snapshotPromise s = None →
  starts (effects (run reliable ops s))
  = (starts (effects s) + requests ops)%nat
  ∧ length (stationListeners (run reliable ops s))
    = (length (stationListeners s) + requests ops)%nat.
Proof.
  induction ops as [|op ops IH]; intros s H.
  - unfold requests. cbn. lia.
  - change (run reliable (op :: ops) s) with (run reliable ops (step reliable op s)).
    destruct (IH (step reliable op s) (step_snapshotPromise reliable op s H))
      as [A B].
    destruct (step_counts op s H) as [C D].
    rewrite A, B, C, D, requests_cons. lia.
Qed.

(** X20. The delegate shares no upstream between its requests.  On a
    delegate none of whose calls throws, after any run of requests,
    events and continuations, the station has received one start command
    for every start request and every snapshot request, and every one of
    them has left a listener on the station: no request reuses the stream
    of another, and no listener is ever removed. *)
Theorem every_request_starts_upstream (ops : list Op) (e : Env) :
  let s := run reliable ops (new e) in
  starts (effects s) = requests ops
  ∧ length (stationListeners s) = requests ops.
Proof.
  cbn zeta. destruct (run_counts ops (new e) eq_refl) as [A B].
  rewrite A, B. unfold starts. cbn. lia.
Qed.

(** X15. [stopStream] acts on the one session only.  The entries of
    every other session id stay in both tables, and the session objects,
    the cache field and the listeners are left alone; every process
    stopped, socket closed, pipe closed and timer cleared is one the
    stopped session's object refers to.  The stop command to the station,
    however, is sent whether or not other sessions are ongoing. *)
Theorem stopStream_touches_one_session
    (throws : Effect → bool) (id : string) (s : State) :
  let s' := stopStream throws id s in
  let session :=
    default emptySession (ongoingSessions s !! id ≫= (objects s !!.)) in
  (∀ id', id' ≠ id →
     pendingSessions s' !! id' = pendingSessions s !! id'
     ∧ ongoingSessions s' !! id' = ongoingSessions s !! id')
  ∧ objects s' = objects s
  ∧ snapshotPromise s' = snapshotPromise s
  ∧ stationListeners s' = stationListeners s
  ∧ ∃ added,
      effects s' = effects s ++ added
      ∧ (∀ x, stop x ∈ added →
           mainProcess_video session = Some x ∨ mainProcess_audio session = Some x)
      ∧ (∀ x, socket_close x ∈ added →
           vsocket session = Some x ∨ asocket session = Some x)
      ∧ (∀ x, pipe_close x ∈ added →
           uVideoStream session = Some x ∨ uAudioStream session = Some x)
      ∧ (∀ x, clearTimeout x ∈ added → timeout session = Some x)
      ∧ (is_Some (ongoingSessions s !! id) →
           stopStationLivestream (device_serial (env s)) ∈ added).
Proof.
  cbn zeta. destruct (ongoingSessions s !! id) as [r|] eqn:E.
  - rewrite (stopStream_registered throws id s r E).
    cbn -[lookup delete released].
    split; [|split; [reflexivity|split; [reflexivity|split; [reflexivity|]]]].
    { intros id' N. by rewrite !lookup_delete_ne. }
    eexists. split; [reflexivity|].
    set (session := default emptySession (objects s !! r)). unfold released.
    repeat split.
    + intros x H. created_in H; auto.
    + intros x H. created_in H; auto.
    + intros x H. created_in H; auto.
    + intros x H. created_in H; auto.
    + intros _. rewrite !elem_of_cons, !elem_of_app. unfold attempted at 4.
      rewrite !elem_of_cons. tauto.
  - rewrite (stopStream_unregistered throws id s E).
    cbn -[lookup delete].
    split; [|split; [reflexivity|split; [reflexivity|split; [reflexivity|]]]].
    { intros id' N. by rewrite lookup_delete_ne. }
    exists [log Info ("Stopping session with id: " +:+ id);
            log Debug "No session to stop."].
    split; [by rewrite <- app_assoc|].
    repeat split; try (intros x H; created_in H).
    intros [? ?]. discriminate.
Qed.

(** X14. A session that is started and then stopped gives back
    everything it took.  On a prepared session and a supported audio
    codec, [startStream] creates two pipes, two sockets and two
    processes and registers the session; [stopStream], when none of its
    calls throws, then stops exactly these two processes, closes exactly
    these two sockets and these two pipes, in that order, tells the
    station to stop, and unregisters the session. *)
Theorem streamed_session_released
    (throws : Effect → bool) (request : StartStreamRequest) (cb : nat)
    (sd : StationStream) (info : SessionInfo) (s : State) :
  pendingSessions s !! sessionID request = Some info →
  supported (a_codec (audio request)) = true →
  let n := next s in
  let s1 := (startStream_resolved request cb sd s).1 in
  let s2 := startStream_delayed throws request sd info (1 + n) s1 in
  let s3 := stopStream reliable (sessionID request) s2 in
  (startStream_resolved request cb sd s).2 = Some (info, (1 + n)%nat)
  ∧ ongoingSessions s2 !! sessionID request = Some (1 + n)%nat
  ∧ pendingSessions s2 !! sessionID request = None
  ∧ (∃ created,
       effects s2 = effects s ++ created
       ∧ (∀ y, (∃ name id args c, FfmpegProcess y name id args c ∈ created)
               ↔ y = (3 + n)%nat ∨ y = (7 + n)%nat)
       ∧ (∀ y, (∃ type, createSocket y type ∈ created)
               ↔ y = (2 + n)%nat ∨ y = (6 + n)%nat)
       ∧ (∀ y, (∃ source name, StreamInput y source name ∈ created)
               ↔ y = n ∨ y = (5 + n)%nat))
  ∧ effects s3 =
      effects s2
      ++ [log Info ("Stopping session with id: " +:+ sessionID request);
          stop (3 + n); stop (7 + n);
          socket_close (2 + n); socket_close (6 + n);
          pipe_close n; pipe_close (5 + n);
          stopStationLivestream (device_serial (env s));
          log Info "Stopped video stream."]
  ∧ ongoingSessions s3 !! sessionID request = None.
Proof.
  intros P U. cbn zeta. cbn [Nat.add].
  destruct (startStream_resolved_starts_video request cb sd s info P)
    as (s1 & args & E & O1 & G1 & P1 & _).
  rewrite E. cbn [fst snd]. split; [reflexivity|].
  assert (E1 : effects s1 = (startStream_resolved request cb sd s).1.(effects))
    by by rewrite E.
  assert (N1 : next s1 = (5 + next s)%nat).
  { replace s1 with (startStream_resolved request cb sd s).1 by by rewrite E.
    unfold startStream_resolved. cbn -[lookup insert]. by rewrite P. }
  assert (V1 : env s1 = env s).
  { replace s1 with (startStream_resolved request cb sd s).1 by by rewrite E.
    unfold startStream_resolved. cbn -[lookup insert]. by rewrite P. }
  unfold startStream_resolved in E1. cbn -[lookup insert] in E1.
  rewrite P in E1. cbn -[lookup insert] in E1.
  clear E.
  set (s2 := startStream_delayed throws request sd info (S (next s)) s1).
  assert (E2 : s2 = startStream_delayed throws request sd info (S (next s)) s1)
    by reflexivity.
  unfold startStream_delayed, startStream_audio in E2.
  cbn -[lookup insert delete] in E2. rewrite U in E2.
  cbn -[lookup insert delete] in E2. rewrite P1, P in E2.
  rewrite O1, lookup_insert_eq, N1, V1 in E2. cbn -[lookup insert delete] in E2.
  clearbody s2. subst s2.
  split; [cbn -[lookup insert delete]; apply lookup_insert_eq|].
  split; [cbn -[lookup insert delete]; apply lookup_delete_eq|].
  split.
  { cbn -[lookup insert delete]. rewrite E1. rewrite <- !app_assoc.
    eexists. split; [reflexivity|]. cbn -[lookup insert delete].
    repeat split.
    - intros (name & id & args' & c & H). created_in H; auto.
    - intros [-> | ->]; do 4 eexists; rewrite !elem_of_cons; eauto 20.
    - intros (type & H). created_in H; auto.
    - intros [-> | ->]; eexists; rewrite !elem_of_cons; eauto 20.
    - intros (source & name & H). created_in H; auto.
    - intros [-> | ->]; do 2 eexists; rewrite !elem_of_cons; eauto 20. }
  match goal with |- context [stopStream reliable ?i ?s0] =>
    set (s2 := s0) end.
  assert (R : ongoingSessions s2 !! sessionID request = Some (S (next s)))
    by (subst s2; cbn -[lookup insert delete]; apply lookup_insert_eq).
  rewrite (stopStream_registered reliable _ _ _ R).
  split; [|cbn -[lookup insert delete]; apply lookup_delete_eq].
  subst s2. cbn -[lookup insert delete released].
  rewrite lookup_insert_eq. cbn -[lookup insert delete]. by rewrite V1.
Qed.

(** X14, on session "A" of the worked scenario. *)
Lemma streamed_session_released_witness :
  let s := onLivestreamStart "T8113" upstream
             (startStream reliable (start_A AAC_ELD) 2 prepared_A).1 in
  let request := start_A AAC_ELD in
  let n := next s in
  let s1 := (startStream_resolved request 2 upstream s).1 in
  let s2 := startStream_delayed reliable request upstream info_A (1 + n) s1 in
  let s3 := stopStream reliable (sessionID request) s2 in
  (startStream_resolved request 2 upstream s).2 = Some (info_A, (1 + n)%nat)
  ∧ ongoingSessions s2 !! sessionID request = Some (1 + n)%nat
  ∧ pendingSessions s2 !! sessionID request = None
  ∧ (∃ created,
       effects s2 = effects s ++ created
       ∧ (∀ y, (∃ name id args c, FfmpegProcess y name id args c ∈ created)
               ↔ y = (3 + n)%nat ∨ y = (7 + n)%nat)
       ∧ (∀ y, (∃ type, createSocket y type ∈ created)
               ↔ y = (2 + n)%nat ∨ y = (6 + n)%nat)
       ∧ (∀ y, (∃ source name, StreamInput y source name ∈ created)
               ↔ y = n ∨ y = (5 + n)%nat))
  ∧ effects s3 =
      effects s2
      ++ [log Info ("Stopping session with id: " +:+ sessionID request);
          stop (3 + n); stop (7 + n);
          socket_close (2 + n); socket_close (6 + n);
          pipe_close n; pipe_close (5 + n);
          stopStationLivestream (device_serial (env s));
          log Info "Stopped video stream."]
  ∧ ongoingSessions s3 !! sessionID request = None.
Proof.
  intros s request.
  apply (streamed_session_released reliable request 2 upstream info_A s).
  - reflexivity.
  - reflexivity.
Defined.

Lemma listeners_fold (serial : string) (sd : StationStream) (ls : list nat) :
  ∀ s : State,
  let s' :=
    foldl (fun s p =>
             if decide (serial = device_serial (env s)) then
               settle p (Resolved sd) (set_stationStream (Some sd) s)
             else s) s ls in
  (serial ≠ device_serial (env s) → s' = s)
  ∧ (serial = device_serial (env s) →
       (ls ≠ [] → stationStream s' = Some sd)
       ∧ (ls = [] → stationStream s' = stationStream s)
       ∧ ∀ p, promises s' !! p =
              match promises s !! p with
              | Some v => Some v
              | None => if bool_decide (p ∈ ls) then Some (Resolved sd) else None
              end).
Proof.
  induction ls as [|p0 ls IH]; intros s; cbn -[lookup insert].
  - split; [done|]. intros _. split; [done|]. split; [done|].
    intros p. destruct (promises s !! p); [done|].
    rewrite bool_decide_eq_false_2; [done|apply not_elem_of_nil].
  - destruct (decide (serial = device_serial (env s))) as [D|D].
    + split; [done|]. intros _.
      set (s1 := settle p0 (Resolved sd) (set_stationStream (Some sd) s)).
      assert (V : env s1 = env s).
      { subst s1. unfold settle. cbn -[lookup insert].
        by destruct (promises s !! p0). }
      assert (T : stationStream s1 = Some sd).
      { subst s1. unfold settle. cbn -[lookup insert].
        by destruct (promises s !! p0). }
      assert (Q : ∀ p, promises s1 !! p =
                       match promises s !! p with
                       | Some v => Some v
                       | None => if decide (p = p0) then Some (Resolved sd) else None
                       end).
      { intros p. subst s1. unfold settle. cbn -[lookup insert].
        destruct (promises s !! p0) eqn:E0; cbn -[lookup insert].
        - destruct (promises s !! p) eqn:E; [done|].
          destruct (decide (p = p0)); [congruence|done].
        - destruct (decide (p = p0)) as [->|N].
          + by rewrite lookup_insert_eq, E0.
          + rewrite lookup_insert_ne by done. by destruct (promises s !! p). }
      destruct (IH s1) as [_ I]. cbn zeta in I.
      rewrite V in I. destruct (I D) as (I1 & I2 & I3). clearbody s1.
      split; [|split; [done|]].
      * intros _. destruct ls as [|p1 ls]; [by rewrite I2|by apply I1].
      * intros p. rewrite I3, Q. destruct (promises s !! p); [done|].
        destruct (decide (p = p0)) as [->|N].
        -- rewrite (bool_decide_eq_true_2 (p0 ∈ p0 :: ls)); [done|].
           apply elem_of_cons. by left.
        -- destruct (bool_decide (p ∈ ls)) eqn:B.
           ++ apply bool_decide_eq_true in B.
              rewrite bool_decide_eq_true_2; [done|]. apply elem_of_cons. by right.
           ++ apply bool_decide_eq_false in B.
              rewrite bool_decide_eq_false_2; [done|].
              rewrite not_elem_of_cons. done.
    + split; [|done]. intros _. destruct (IH s) as [I _]. by apply I.
Qed.

(** X16. The station's 'livestream start' event serves every request
    that waits.  For another device's start nothing changes.  For the
    delegate's own device every listener runs: each promise that is not
    settled yet is resolved with the stream of this event, a promise
    settled earlier keeps its value, [stationStream] is replaced by the
    stream of this event, and every listener stays registered. *)
Theorem onLivestreamStart_resolves_waiting
    (serial : string) (sd : StationStream) (s : State) :
  let s' := onLivestreamStart serial sd s in
  stationListeners s' = stationListeners s
  ∧ (serial ≠ device_serial (env s) → s' = s)
  ∧ (serial = device_serial (env s) →
       (stationListeners s ≠ [] → stationStream s' = Some sd)
       ∧ ∀ p, promises s' !! p =
              match promises s !! p with
              | Some v => Some v
              | None =>
                  if bool_decide (p ∈ stationListeners s)
                  then Some (Resolved sd) else None
              end).
Proof.
  cbn zeta. split; [apply onLivestreamStart_listeners|].
  destruct (listeners_fold serial sd (stationListeners s) s) as [A B].
  split; [exact A|]. intros D. destruct (B D) as (B1 & _ & B3). by split.
Qed.

(** X17. A snapshot whose acquisition fails is reported.  When looking
    up the station throws, no start command is sent and no process is
    spawned; the promise of the fetch is rejected with 'Failed to fetch
    snapshot.', and the [catch] clause of [handleSnapshotRequest] then
    logs that reason and invokes the callback without an image. *)
Theorem snapshot_failure_reported
    (throws : Effect → bool) (request : SnapshotRequest) (cb : nat) (s : State) :
  allocated s →
  snapshotPromise s = None →
  throws (getStationById (station_serial (env s))) = true →
  let '(s1, q, waiting) := handleSnapshotRequest throws request s in
  let s2 := handleSnapshotRequest_rejected cb "Failed to fetch snapshot." s1 in
  waiting = None
  ∧ promises s1 !! q = Some (Rejected "Failed to fetch snapshot.")
  ∧ effects s2 =
      effects s
      ++ [log Debug "handleSnapshotRequest";
          log Debug "snapshotPromise: false";
          log Debug ("Snapshot requested: " +:+ str (s_width request)
                     +:+ " x " +:+ str (s_height request));
          getStationById (station_serial (env s));
          log Error "getStationById";
          log Error "Failed to fetch snapshot.";
          snapshotCallback cb None]
  ∧ stationListeners s2 = stationListeners s
  ∧ snapshotPromise s2 = None.
Proof.
  intros A H T. unfold handleSnapshotRequest. cbn -[lookup insert]. rewrite H.
  unfold fetchSnapshot, getLocalLiveStream. cbn -[lookup insert]. rewrite T.
  unfold settle. cbn -[lookup insert].
  rewrite (A (S (next s))) by lia. cbn -[lookup insert].
  rewrite lookup_insert_eq. cbn -[lookup insert].
  rewrite lookup_insert_ne by lia. rewrite (A (next s)) by lia.
  cbn -[lookup insert]. rewrite lookup_insert_eq, H, <- !app_assoc.
  repeat split.
Qed.

(** X17, on the delegate of a station the platform does not know. *)
Lemma snapshot_failure_reported_witness :
  let request := {| s_width := 640; s_height := 360 |} in
  let '(s1, q, waiting) := handleSnapshotRequest station_unknown request (new door) in
  let s2 := handleSnapshotRequest_rejected 7 "Failed to fetch snapshot." s1 in
  waiting = None
  ∧ promises s1 !! q = Some (Rejected "Failed to fetch snapshot.")
  ∧ effects s2 =
      effects (new door)
      ++ [log Debug "handleSnapshotRequest";
          log Debug "snapshotPromise: false";
          log Debug ("Snapshot requested: " +:+ str (s_width request)
                     +:+ " x " +:+ str (s_height request));
          getStationById (station_serial (env (new door)));
          log Error "getStationById";
          log Error "Failed to fetch snapshot.";
          snapshotCallback 7 None]
  ∧ stationListeners s2 = stationListeners (new door)
  ∧ snapshotPromise s2 = None.
Proof.
  intros request.
  apply (snapshot_failure_reported station_unknown request 7 (new door)).
  - intros p _. reflexivity.
  - reflexivity.
  - reflexivity.
Defined.

Lemma onLivestreamStart_sessions (serial : string) (sd : StationStream) (s : State) :
  let s' := onLivestreamStart serial sd s in
  pendingSessions s' = pendingSessions s
  ∧ ongoingSessions s' = ongoingSessions s
  ∧ objects s' = objects s.
Proof.
  unfold onLivestreamStart. generalize (stationListeners s) as ls.
  intros ls. revert s. induction ls as [|p ls IH]; intros s; cbn -[lookup insert].
  - repeat split.
  - destruct (IH (if decide (serial = device_serial (env s))
                  then settle p (Resolved sd) (set_stationStream (Some sd) s)
                  else s)) as (A & B & C).
    cbn zeta in A, B, C. rewrite A, B, C.
    destruct (decide (serial = device_serial (env s))); [|repeat split].
    unfold settle. cbn -[lookup insert].
    destruct (promises s !! p); repeat split.
Qed.

(** X18. A snapshot stops the station's livestream under the sessions.
    A snapshot request that is served completely (the station answers,
    the snapshot process closes) ends with a stop command to the station,
    whatever sessions are ongoing: their entries and their objects are
    left as they are, and none of their processes, sockets or pipes is
    stopped or closed. *)
Theorem snapshot_stops_station_under_sessions
    (request : SnapshotRequest) (snapFilter' : option string) (sd : StationStream)
    (startTime now : Z) (image : Buffer) (s : State) :
  allocated s →
  snapshotPromise s = None →
  let '(s1, q, _) := handleSnapshotRequest reliable request s in
  let s2 := onLivestreamStart (device_serial (env s)) sd s1 in
  let s3 := (fetchSnapshot_resolved snapFilter' sd s2).1 in
  let s4 := (fetchSnapshot_close q startTime now image s3).1 in
  ongoingSessions s4 = ongoingSessions s
  ∧ pendingSessions s4 = pendingSessions s
  ∧ objects s4 = objects s
  ∧ ∃ added,
      effects s4 = effects s ++ added
      ∧ stopStationLivestream (device_serial (env s)) ∈ added
      ∧ ∀ x, (stop x ∉ added) ∧ (socket_close x ∉ added) ∧ (pipe_close x ∉ added).
Proof.
  intros A H.
  assert (E : ∃ s1, handleSnapshotRequest reliable request s
                    = (s1, next s, Some (S (next s)))
                    ∧ env s1 = env s
                    ∧ ongoingSessions s1 = ongoingSessions s
                    ∧ pendingSessions s1 = pendingSessions s
                    ∧ objects s1 = objects s
                    ∧ effects s1 =
                        effects s
                        ++ [log Debug "handleSnapshotRequest";
                            log Debug "snapshotPromise: false";
                            log Debug ("Snapshot requested: "
                                       +:+ str (s_width request)
                                       +:+ " x " +:+ str (s_height request));
                            getStationById (station_serial (env s));
                            startStationLivestream (device_serial (env s))]).
  { unfold handleSnapshotRequest. cbn -[lookup insert]. rewrite H.
    unfold fetchSnapshot, getLocalLiveStream. cbn -[lookup insert].
    rewrite (A (S (next s))) by lia. eexists. split; [reflexivity|].
    cbn -[lookup insert]. rewrite <- !app_assoc. repeat split. }
  destruct E as (s1 & -> & V1 & O1 & P1 & B1 & E1).
  destruct (onLivestreamStart_sessions (device_serial (env s)) sd s1)
    as (P2 & O2 & B2).
  destruct (onLivestreamStart_frame (device_serial (env s)) sd s1)
    as (_ & E2 & _ & V2).
  cbn zeta in *.
  set (s2 := onLivestreamStart (device_serial (env s)) sd s1) in *.
  clearbody s2.
  unfold fetchSnapshot_resolved, fetchSnapshot_close, settle.
  cbn -[lookup insert].
  assert (F : ∀ b : bool, ∀ x y : State,
             ongoingSessions x = ongoingSessions s2 →
             ongoingSessions y = ongoingSessions s2 →
             ongoingSessions (if b then x else y) = ongoingSessions s2)
    by (by intros []).
  destruct (bool_decide (0 < length image)%nat);
    destruct (promises s2 !! next s); cbn -[lookup insert].
  all: rewrite O2, P2, B2, O1, P1, B1, E2, E1, V2, V1, <- !app_assoc.
  all: split; [reflexivity|split; [reflexivity|split; [reflexivity|]]].
  all: eexists; (split; [reflexivity|]).
  all: split; [rewrite ?elem_of_app, ?elem_of_cons; tauto|].
  all: intros x; repeat split; intros Q; created_in Q.
Qed.

(** X18, while session "A" of the worked scenario is streaming. *)
Lemma snapshot_stops_station_under_sessions_witness :
  let s := running_A AAC_ELD in
  let request := {| s_width := 640; s_height := 360 |} in
  let image := [Init.Byte.xff; Init.Byte.xd8] in
  ongoingSessions s !! "A" = Some 2%nat
  ∧ let '(s1, q, _) := handleSnapshotRequest reliable request s in
    let s2 := onLivestreamStart (device_serial (env s)) upstream s1 in
    let s3 := (fetchSnapshot_resolved (Some "") upstream s2).1 in
    let s4 := (fetchSnapshot_close q 0 1500 image s3).1 in
    ongoingSessions s4 = ongoingSessions s
    ∧ pendingSessions s4 = pendingSessions s
    ∧ objects s4 = objects s
    ∧ ∃ added,
        effects s4 = effects s ++ added
        ∧ stopStationLivestream (device_serial (env s)) ∈ added
        ∧ ∀ x, (stop x ∉ added) ∧ (socket_close x ∉ added) ∧ (pipe_close x ∉ added).
Proof.
  intros s request image. split; [reflexivity|].
  apply (snapshot_stops_station_under_sessions request (Some "") upstream 0 1500
           image s).
  - intros p Hp.
    assert (E : promises s = <[0%nat := Resolved upstream]> ∅)
      by (vm_compute; reflexivity).
    assert (N : next s = 9%nat) by (vm_compute; reflexivity).
    rewrite E. rewrite N in Hp. rewrite lookup_insert_ne by lia.
    apply lookup_empty.
  - reflexivity.
Defined.

End StreamingDelegate.
